(** * Viks Media: the JSON datastore (src/db.js) and its domain invariants

    A shallow embedding of the datastore module: the entity records, the
    schema migrator, the comment tree, the report life cycle, the toggles and
    the feed helpers, followed by the properties proved about them.

    Modelling conventions.
    - Records carry the field types of the data model: identifiers, counters,
      depths and sort orders are integers ([Z]), texts are strings, nullable
      fields are options. A field missing from a stored record reads as the
      falsy value of its type (0, the empty string, [None]). On these
      values [toInt] is the identity. A snapshot whose parent of a comment
      holds a value of another type is modelled apart ([Raw],
      [migrateRawState]), with [Raw.toInt] as the coercion of the source.
    - The source computes on doubles; the sums of this development are
      those of the source on safe integers ([isSafeInteger]), and the
      properties that rely on [counter + 1] being a new number carry that
      bound as a premise.
    - Characters are classified in the ASCII range (white space for [trim]
      and [\s], letters for [toLowerCase]).
    - [nowIso()] reads the wall clock. An operation that reads it once takes
      the reading as its argument [now]; the migrator reads it once per
      repaired record and threads a clock.
    - [enqueueWrite()] serialises the state to disk and does not change the
      in-memory state; it has no counterpart here. *)

From Stdlib Require Import ZArith List String Ascii Bool Lia.
From Stdlib Require Import Sorted Permutation DecimalString.
Import ListNotations.

Open Scope string_scope.
Open Scope list_scope.
Open Scope Z_scope.

(** ** JavaScript string primitives *)

Module Js.

(** White space of [String.prototype.trim] and of [\s]: TAB, LF, VT, FF,
    CR and SPACE. *)
Definition isSpace (c : ascii) : bool :=
  let n := N_of_ascii c in
  (((9 <=? n) && (n <=? 13)) || (n =? 32))%N.

Fixpoint dropWhile (p : ascii -> bool) (l : list ascii) : list ascii :=
  match l with
  | [] => []
  | c :: r => if p c then dropWhile p r else l
  end.

Fixpoint dropWhileEnd (p : ascii -> bool) (l : list ascii) : list ascii :=
  match l with
  | [] => []
  | c :: r =>
      match dropWhileEnd p r with
      | [] => if p c then [] else [c]
      | r' => c :: r'
      end
  end.

(** Removal of the leading and trailing characters that satisfy [p]. *)
Definition strip (p : ascii -> bool) (l : list ascii) : list ascii :=
  dropWhileEnd p (dropWhile p l).

(** [s.trim()] *)
Definition trim (s : string) : string :=
  string_of_list_ascii (strip isSpace (list_ascii_of_string s)).

Definition lowerChar (c : ascii) : ascii :=
  let n := N_of_ascii c in
  if ((65 <=? n) && (n <=? 90))%N then ascii_of_N (n + 32) else c.

(** [s.toLowerCase()] *)
Definition toLowerCase (s : string) : string :=
  string_of_list_ascii (map lowerChar (list_ascii_of_string s)).

(** [s.replace(/P+/g, sub)]: every maximal run of characters satisfying
    [p] is replaced by one [sub]; [inRun] tells that the previous
    character belonged to a run. *)
Fixpoint replaceRuns (p : ascii -> bool) (sub : ascii) (inRun : bool)
    (l : list ascii) : list ascii :=
  match l with
  | [] => []
  | c :: r =>
      if p c then
        if inRun then replaceRuns p sub true r
        else sub :: replaceRuns p sub true r
      else c :: replaceRuns p sub false r
  end.

(** [s.startsWith(prefix)] *)
Definition startsWith (s prefix : string) : bool := String.prefix prefix s.

(** [a.localeCompare(b)] on materialized paths. Paths are made of decimal
    digits and dots, on which the collation order is the code unit order
    (the dot sorts before every digit in both). *)
Definition localeCompare (a b : string) : Z :=
  match String.compare a b with
  | Lt => -1
  | Eq => 0
  | Gt => 1
  end.

(** [String(n)] for an integer [n]. *)
Definition stringOfInt (n : Z) : string :=
  NilZero.string_of_int (Z.to_int n).

Fixpoint repeatChar (c : ascii) (n : nat) : string :=
  match n with
  | O => EmptyString
  | S k => String c (repeatChar c k)
  end.

(** [s.padStart(width, "0")] *)
Definition padStart0 (s : string) (width : nat) : string :=
  (repeatChar "0" (width - String.length s) ++ s)%string.

(** [items.slice(start, end)] for integer bounds, negative ones counting
    from the end. *)
Definition slice {A : Type} (items : list A) (start stop : Z) : list A :=
  let len := Z.of_nat (List.length items) in
  let from := if start <? 0 then Z.max (len + start) 0 else Z.min start len in
  let to := if stop <? 0 then Z.max (len + stop) 0 else Z.min stop len in
  firstn (Z.to_nat (to - from)) (skipn (Z.to_nat from) items).

(** A stable sort driven by a comparator, as [Array.prototype.sort] is:
    [x] goes before the first element it does not compare greater than. *)
Fixpoint insertSorted {A : Type} (cmp : A -> A -> Z) (x : A) (l : list A)
    : list A :=
  match l with
  | [] => [x]
  | y :: r => if cmp x y <=? 0 then x :: l else y :: insertSorted cmp x r
  end.

Fixpoint sort {A : Type} (cmp : A -> A -> Z) (l : list A) : list A :=
  match l with
  | [] => []
  | x :: r => insertSorted cmp x (sort cmp r)
  end.

End Js.

(** ** Constants *)

Definition SCHEMA_VERSION : Z := 2.
Definition MAX_PAGE_SIZE : Z := 30.
Definition REACTIONS : list string := ["like"; "heart"; "fire"; "clap"].
Definition ROLES : list string := ["user"; "moderator"; "admin"].
Definition USER_STATUS : list string := ["active"; "suspended"; "banned"].
Definition REPORT_STATUS : list string :=
  ["open"; "in_review"; "resolved"; "dismissed"].
Definition REPORT_TARGETS : list string := ["post"; "comment"; "user"].
Definition MEDIA_TYPES : list string := ["none"; "image"; "video"].

(** [list.includes(value)] *)
Definition includes (l : list string) (value : string) : bool :=
  existsb (String.eqb value) l.

Definition isRole (value : string) : bool := includes ROLES value.
Definition isUserStatus (value : string) : bool := includes USER_STATUS value.
Definition isReportStatus (value : string) : bool :=
  includes REPORT_STATUS value.
Definition isReportTarget (value : string) : bool :=
  includes REPORT_TARGETS value.
Definition isReaction (value : string) : bool := includes REACTIONS value.

(** [value || fallback] on strings: the empty string is falsy. *)
Definition orStr (value fallback : string) : string :=
  if (value =? "")%string then fallback else value.

(** [value || fallback] on integers: 0 is falsy. *)
Definition orInt (value fallback : Z) : Z :=
  if value =? 0 then fallback else value.

(** [value || null] on a nullable string. *)
Definition orNull (value : option string) : option string :=
  match value with
  | Some v => if (v =? "")%string then None else Some v
  | None => None
  end.

(** [value ? toInt(value) : null] on a nullable identifier. *)
Definition truthyId (value : option Z) : option Z :=
  match value with
  | Some v => if v =? 0 then None else Some v
  | None => None
  end.

(** [toInt] on an integer: integers map to themselves. [Raw.toInt] is the
    function on the other values a snapshot may hold. *)
Definition toInt (value : Z) : Z := value.

(** [padId(value)]: the decimal form, padded with zeros to ten characters. *)
Definition padId (value : Z) : string :=
  Js.padStart0 (Js.stringOfInt (orInt value 0)) 10.

Definition isSlugChar (c : ascii) : bool :=
  let n := N_of_ascii c in
  (((48 <=? n) && (n <=? 57)) || ((97 <=? n) && (n <=? 122)))%N.

Definition notSlugChar (c : ascii) : bool := negb (isSlugChar c).

Definition isDash (c : ascii) : bool := Ascii.eqb c "-".

(** [slugify(input)] *)
Definition slugify (input : string) : string :=
  string_of_list_ascii
    (Js.strip isDash
       (Js.replaceRuns notSlugChar "-" false
          (Js.strip Js.isSpace
             (map Js.lowerChar (list_ascii_of_string input))))).

(** [normalizeText(input)] *)
Definition normalizeText (input : string) : string :=
  Js.trim (Js.toLowerCase input).

(** [summarize(text, maxLength = 220)] *)
Definition summarize (text : string) : string :=
  if (text =? "")%string then ""
  else
    let cleaned :=
      string_of_list_ascii
        (Js.strip Js.isSpace
           (Js.replaceRuns Js.isSpace " " false (list_ascii_of_string text))) in
    if (String.length cleaned <=? 220)%nat then cleaned
    else (String.substring 0 220 cleaned ++ "...")%string.

(** The characters of the class [[`*_#>\-\[\]\(\)!]]. *)
Definition isMarkup (c : ascii) : bool :=
  existsb (Ascii.eqb c)
    ["`"; "*"; "_"; "#"; ">"; "-"; "["; "]"; "("; ")"; "!"]%char.

(** Number of non-empty pieces of [s.split(/\s+/)]. *)
Fixpoint countWords (inWord : bool) (l : list ascii) : Z :=
  match l with
  | [] => 0
  | c :: r =>
      if Js.isSpace c then countWords false r
      else if inWord then countWords true r
      else 1 + countWords true r
  end.

(** [computeReadingTime(markdownBody)] *)
Definition computeReadingTime (markdownBody : string) : Z :=
  let words :=
    countWords false
      (map (fun c => if isMarkup c then " "%char else c)
         (list_ascii_of_string markdownBody)) in
  Z.max 1 ((words + 199) / 200).

(** ** Entity records *)

Module User.
Record t : Type := mk {
  id : Z;
  username : string;
  email : string;
  password_hash : string;
  bio : string;
  avatar_url : string;
  created_at : string;
  role : string;
  status : string;
  (** [None] when the stored value is not a boolean *)
  email_verified : option bool;
  verification_token_hash : option string;
  verification_expires_at : option string;
  reset_token_hash : option string;
  reset_expires_at : option string
}.
End User.

(** The viewer object produced by [toPublicUser]. *)
Module PublicUser.
Record t : Type := mk {
  id : Z;
  username : string;
  email : string;
  bio : string;
  avatar_url : string;
  created_at : string;
  role : string;
  status : string;
  email_verified : bool
}.
End PublicUser.

Module Category.
Record t : Type := mk {
  id : Z;
  name : string;
  slug : string;
  description : string;
  sort_order : Z
}.
End Category.

Module Post.
Record t : Type := mk {
  id : Z;
  user_id : Z;
  category_id : Z;
  title : string;
  (** the version 1 field, kept in the record by the migrator *)
  body : string;
  markdown_body : string;
  rendered_html : string;
  excerpt : string;
  reading_time_minutes : Z;
  media_url : string;
  media_type : string;
  is_hidden : bool;
  hidden_reason : string;
  created_at : string
}.
End Post.

Module Like.
Record t : Type := mk {
  id : Z;
  user_id : Z;
  post_id : Z;
  created_at : string
}.
End Like.

Module Bookmark.
Record t : Type := mk {
  id : Z;
  user_id : Z;
  post_id : Z;
  created_at : string
}.
End Bookmark.

Module Comment.
Record t : Type := mk {
  id : Z;
  user_id : Z;
  post_id : Z;
  parent_comment_id : option Z;
  depth : Z;
  path : string;
  body : string;
  is_hidden : bool;
  hidden_reason : string;
  created_at : string
}.
End Comment.

Module Tag.
Record t : Type := mk {
  id : Z;
  name : string;
  slug : string;
  created_at : string
}.
End Tag.

Module PostTag.
Record t : Type := mk {
  post_id : Z;
  tag_id : Z
}.
End PostTag.

Module Reaction.
Record t : Type := mk {
  id : Z;
  comment_id : Z;
  user_id : Z;
  reaction_type : string;
  created_at : string
}.
End Reaction.

Module Report.
Record t : Type := mk {
  id : Z;
  reporter_user_id : Z;
  target_type : string;
  target_id : Z;
  reason_code : string;
  reason_text : string;
  status : string;
  assigned_to_user_id : option Z;
  created_at : string;
  resolved_at : option string
}.
End Report.

Module ModAction.
Record t : Type := mk {
  id : Z;
  actor_user_id : Z;
  action_type : string;
  target_type : string;
  target_id : Z;
  notes : string;
  created_at : string
}.
End ModAction.

(** The keys of [state.counters]. *)
Module Entity.
Inductive t : Type :=
| users | categories | posts | likes | comments | tags | bookmarks
| comment_reactions | reports | moderation_actions.
End Entity.

Module Counters.
Record t : Type := mk {
  users : Z;
  categories : Z;
  posts : Z;
  likes : Z;
  comments : Z;
  tags : Z;
  bookmarks : Z;
  comment_reactions : Z;
  reports : Z;
  moderation_actions : Z
}.

Definition get (e : Entity.t) (c : t) : Z :=
  match e with
  | Entity.users => users c
  | Entity.categories => categories c
  | Entity.posts => posts c
  | Entity.likes => likes c
  | Entity.comments => comments c
  | Entity.tags => tags c
  | Entity.bookmarks => bookmarks c
  | Entity.comment_reactions => comment_reactions c
  | Entity.reports => reports c
  | Entity.moderation_actions => moderation_actions c
  end.

Definition set (e : Entity.t) (v : Z) (c : t) : t :=
  match e with
  | Entity.users =>
      mk v (categories c) (posts c) (likes c) (comments c) (tags c)
        (bookmarks c) (comment_reactions c) (reports c) (moderation_actions c)
  | Entity.categories =>
      mk (users c) v (posts c) (likes c) (comments c) (tags c)
        (bookmarks c) (comment_reactions c) (reports c) (moderation_actions c)
  | Entity.posts =>
      mk (users c) (categories c) v (likes c) (comments c) (tags c)
        (bookmarks c) (comment_reactions c) (reports c) (moderation_actions c)
  | Entity.likes =>
      mk (users c) (categories c) (posts c) v (comments c) (tags c)
        (bookmarks c) (comment_reactions c) (reports c) (moderation_actions c)
  | Entity.comments =>
      mk (users c) (categories c) (posts c) (likes c) v (tags c)
        (bookmarks c) (comment_reactions c) (reports c) (moderation_actions c)
  | Entity.tags =>
      mk (users c) (categories c) (posts c) (likes c) (comments c) v
        (bookmarks c) (comment_reactions c) (reports c) (moderation_actions c)
  | Entity.bookmarks =>
      mk (users c) (categories c) (posts c) (likes c) (comments c) (tags c)
        v (comment_reactions c) (reports c) (moderation_actions c)
  | Entity.comment_reactions =>
      mk (users c) (categories c) (posts c) (likes c) (comments c) (tags c)
        (bookmarks c) v (reports c) (moderation_actions c)
  | Entity.reports =>
      mk (users c) (categories c) (posts c) (likes c) (comments c) (tags c)
        (bookmarks c) (comment_reactions c) v (moderation_actions c)
  | Entity.moderation_actions =>
      mk (users c) (categories c) (posts c) (likes c) (comments c) (tags c)
        (bookmarks c) (comment_reactions c) (reports c) v
  end.
End Counters.

(** The in-memory store ([state] in the source). *)
Module State.
Record t : Type := mk {
  schema_version : Z;
  counters : Counters.t;
  users : list User.t;
  categories : list Category.t;
  posts : list Post.t;
  likes : list Like.t;
  comments : list Comment.t;
  tags : list Tag.t;
  post_tags : list PostTag.t;
  bookmarks : list Bookmark.t;
  comment_reactions : list Reaction.t;
  reports : list Report.t;
  moderation_actions : list ModAction.t;
  (** [search_index_meta.last_rebuild_at] *)
  last_rebuild_at : option string
}.

Definition setCounters (v : Counters.t) (s : t) : t :=
  mk (schema_version s) v (users s) (categories s) (posts s) (likes s)
    (comments s) (tags s) (post_tags s) (bookmarks s) (comment_reactions s)
    (reports s) (moderation_actions s) (last_rebuild_at s).

Definition setLikes (v : list Like.t) (s : t) : t :=
  mk (schema_version s) (counters s) (users s) (categories s) (posts s) v
    (comments s) (tags s) (post_tags s) (bookmarks s) (comment_reactions s)
    (reports s) (moderation_actions s) (last_rebuild_at s).

Definition setComments (v : list Comment.t) (s : t) : t :=
  mk (schema_version s) (counters s) (users s) (categories s) (posts s)
    (likes s) v (tags s) (post_tags s) (bookmarks s) (comment_reactions s)
    (reports s) (moderation_actions s) (last_rebuild_at s).

Definition setBookmarks (v : list Bookmark.t) (s : t) : t :=
  mk (schema_version s) (counters s) (users s) (categories s) (posts s)
    (likes s) (comments s) (tags s) (post_tags s) v (comment_reactions s)
    (reports s) (moderation_actions s) (last_rebuild_at s).

Definition setReactions (v : list Reaction.t) (s : t) : t :=
  mk (schema_version s) (counters s) (users s) (categories s) (posts s)
    (likes s) (comments s) (tags s) (post_tags s) (bookmarks s) v
    (reports s) (moderation_actions s) (last_rebuild_at s).

Definition setReports (v : list Report.t) (s : t) : t :=
  mk (schema_version s) (counters s) (users s) (categories s) (posts s)
    (likes s) (comments s) (tags s) (post_tags s) (bookmarks s)
    (comment_reactions s) v (moderation_actions s) (last_rebuild_at s).
End State.

(** [baseState()] *)
Definition baseState : State.t :=
  State.mk SCHEMA_VERSION (Counters.mk 0 0 0 0 0 0 0 0 0 0)
    [] [] [] [] [] [] [] [] [] [] [] None.

(** [nextId(entity)]: bumps the counter of [entity] and returns it. The
    sum is the one of the source as long as the counter is a safe integer
    ([isSafeInteger], below). *)
Definition nextId (entity : Entity.t) (s : State.t) : Z * State.t :=
  let v := orInt (toInt (Counters.get entity (State.counters s))) 0 + 1 in
  (v, State.setCounters (Counters.set entity v (State.counters s)) s).

(** An object found by [Array.prototype.find] and then assigned to in
    place: the first element satisfying [p] is replaced by its image. *)
Fixpoint updateFirst {A : Type} (p : A -> bool) (f : A -> A) (l : list A)
    : list A :=
  match l with
  | [] => []
  | x :: r => if p x then f x :: r else x :: updateFirst p f r
  end.

(** ** Users and visibility *)

(** [toPublicUser(user)] for a user that exists. *)
Definition toPublicUser (user : User.t) : PublicUser.t :=
  PublicUser.mk (User.id user) (User.username user) (User.email user)
    (User.bio user) (User.avatar_url user) (User.created_at user)
    (orStr (User.role user) "user") (orStr (User.status user) "active")
    (match User.email_verified user with Some b => b | None => false end).

Definition isModeratorRole (role : string) : bool :=
  (role =? "moderator")%string || (role =? "admin")%string.

(** [canViewHidden({ viewer, authorId })]; [None] is the anonymous viewer. *)
Definition canViewHidden (viewer : option PublicUser.t) (authorId : Z) : bool :=
  match viewer with
  | None => false
  | Some v =>
      if PublicUser.id v =? authorId then true
      else isModeratorRole (PublicUser.role v)
  end.

Definition getUserById (s : State.t) (id : Z) : option User.t :=
  find (fun user => User.id user =? toInt id) (State.users s).

Definition getPostRawById (s : State.t) (postId : Z) : option Post.t :=
  find (fun post => Post.id post =? toInt postId) (State.posts s).

Definition canSeeHiddenPost (post : Post.t) (viewer : option PublicUser.t)
    : bool :=
  if negb (Post.is_hidden post) then true
  else canViewHidden viewer (Post.user_id post).

Definition countLikes (s : State.t) (postId : Z) : Z :=
  Z.of_nat
    (List.length
       (filter (fun like => Like.post_id like =? toInt postId)
          (State.likes s))).

(** ** Pagination *)

Module Page.
Record t (A : Type) : Type := mk {
  items : list A;
  total : Z;
  pages : Z;
  page : Z;
  pageSize : Z
}.
Arguments mk {A}.
Arguments items {A}.
Arguments total {A}.
Arguments pages {A}.
Arguments page {A}.
Arguments pageSize {A}.
End Page.

(** [Math.ceil(total / size)] for [size >= 1] and [total >= 0]. *)
Definition ceilDiv (total size : Z) : Z := (total + size - 1) / size.

(** [paginate(items, page, pageSize)] *)
Definition paginate {A : Type} (items : list A) (page pageSize : Z)
    : Page.t A :=
  let size := Z.min (Z.max (orInt pageSize 10) 1) MAX_PAGE_SIZE in
  let total := Z.of_nat (List.length items) in
  let pages := Z.max 1 (ceilDiv total size) in
  let safePage := Z.min (Z.max (orInt page 1) 1) pages in
  let start := (safePage - 1) * size in
  let records := Js.slice items start (start + size) in
  Page.mk records total pages safePage size.

(** ** Likes, bookmarks and comment reactions *)

Definition likeMatches (userId postId : Z) (like : Like.t) : bool :=
  (Like.user_id like =? toInt userId) && (Like.post_id like =? toInt postId).

(** [hasLike({ userId, postId })] *)
Definition hasLike (s : State.t) (userId postId : Z) : bool :=
  existsb (likeMatches userId postId) (State.likes s).

(** [toggleLike({ userId, postId })] *)
Definition toggleLike (now : string) (userId postId : Z) (s : State.t)
    : bool * State.t :=
  match find (likeMatches userId postId) (State.likes s) with
  | Some existing =>
      (false,
       State.setLikes
         (filter (fun like => negb (Like.id like =? Like.id existing))
            (State.likes s)) s)
  | None =>
      let (id, s1) := nextId Entity.likes s in
      (true,
       State.setLikes
         (State.likes s1 ++ [Like.mk id (toInt userId) (toInt postId) now]) s1)
  end.

Definition bookmarkMatches (userId postId : Z) (bookmark : Bookmark.t)
    : bool :=
  (Bookmark.user_id bookmark =? toInt userId)
  && (Bookmark.post_id bookmark =? toInt postId).

(** [hasBookmark({ userId, postId })] *)
Definition hasBookmark (s : State.t) (userId postId : Z) : bool :=
  existsb (bookmarkMatches userId postId) (State.bookmarks s).

(** [toggleBookmark({ userId, postId })] *)
Definition toggleBookmark (now : string) (userId postId : Z) (s : State.t)
    : bool * State.t :=
  match find (bookmarkMatches userId postId) (State.bookmarks s) with
  | Some existing =>
      (false,
       State.setBookmarks
         (filter
            (fun bookmark =>
               negb (Bookmark.id bookmark =? Bookmark.id existing))
            (State.bookmarks s)) s)
  | None =>
      let (id, s1) := nextId Entity.bookmarks s in
      (true,
       State.setBookmarks
         (State.bookmarks s1
            ++ [Bookmark.mk id (toInt userId) (toInt postId) now]) s1)
  end.

Definition reactionMatches (userId commentId : Z) (reactionType : string)
    (item : Reaction.t) : bool :=
  (Reaction.comment_id item =? toInt commentId)
  && (Reaction.user_id item =? toInt userId)
  && (Reaction.reaction_type item =? reactionType)%string.

(** The presence test of [toggleCommentReaction], as a query. *)
Definition hasReaction (s : State.t) (userId commentId : Z)
    (reactionType : string) : bool :=
  existsb (reactionMatches userId commentId reactionType)
    (State.comment_reactions s).

(** [toggleCommentReaction({ userId, commentId, reactionType })]; the
    result [None] is the source's [null]. *)
Definition toggleCommentReaction (now : string) (userId commentId : Z)
    (reactionType : string) (s : State.t) : option bool * State.t :=
  if negb (isReaction reactionType) then (None, s)
  else
    match find (reactionMatches userId commentId reactionType)
            (State.comment_reactions s) with
    | Some existing =>
        (Some false,
         State.setReactions
           (filter
              (fun item => negb (Reaction.id item =? Reaction.id existing))
              (State.comment_reactions s)) s)
    | None =>
        let (id, s1) := nextId Entity.comment_reactions s in
        (Some true,
         State.setReactions
           (State.comment_reactions s1
              ++ [Reaction.mk id (toInt commentId) (toInt userId)
                    reactionType now]) s1)
    end.

(** ** Comments *)

Definition getCommentRawById (s : State.t) (commentId : Z)
    : option Comment.t :=
  find (fun comment => Comment.id comment =? toInt commentId)
    (State.comments s).

(** [buildCommentPath(parent, newCommentId)] *)
Definition buildCommentPath (parent : option Comment.t) (newCommentId : Z)
    : string :=
  match parent with
  | None => padId newCommentId
  | Some p => (Comment.path p ++ "." ++ padId newCommentId)%string
  end.

(** [addComment({ user_id, post_id, body, parent_comment_id = null })] *)
Definition addComment (now : string) (user_id post_id : Z) (body : string)
    (parent_comment_id : option Z) (s : State.t)
    : option Comment.t * State.t :=
  let parent :=
    match truthyId parent_comment_id with
    | Some p => getCommentRawById s p
    | None => None
    end in
  if match parent with
     | Some p => negb (Comment.post_id p =? toInt post_id)
     | None => false
     end
  then (None, s)
  else
    let (id, s1) := nextId Entity.comments s in
    let depth :=
      match parent with
      | Some p => orInt (Comment.depth p) 0 + 1
      | None => 0
      end in
    let pathValue := buildCommentPath parent id in
    let comment :=
      Comment.mk id (toInt user_id) (toInt post_id)
        (match parent with Some p => Some (Comment.id p) | None => None end)
        depth pathValue body false "" now in
    (Some comment, State.setComments (State.comments s1 ++ [comment]) s1).

Definition isComment (commentId : Z) (comment : Comment.t) : bool :=
  Comment.id comment =? toInt commentId.

Definition setHidden (flag : bool) (reason : string) (c : Comment.t)
    : Comment.t :=
  Comment.mk (Comment.id c) (Comment.user_id c) (Comment.post_id c)
    (Comment.parent_comment_id c) (Comment.depth c) (Comment.path c)
    (Comment.body c) flag reason (Comment.created_at c).

(** [hideComment(commentId, reason = "")] *)
Definition hideComment (commentId : Z) (reason : string) (s : State.t)
    : option Comment.t * State.t :=
  match getCommentRawById s commentId with
  | None => (None, s)
  | Some comment =>
      (Some (setHidden true reason comment),
       State.setComments
         (updateFirst (isComment commentId) (setHidden true reason)
            (State.comments s)) s)
  end.

(** [unhideComment(commentId)] *)
Definition unhideComment (commentId : Z) (s : State.t)
    : option Comment.t * State.t :=
  match getCommentRawById s commentId with
  | None => (None, s)
  | Some comment =>
      (Some (setHidden false "" comment),
       State.setComments
         (updateFirst (isComment commentId) (setHidden false "")
            (State.comments s)) s)
  end.

(** The loop of [getVisibleCommentsForPost]: [hiddenPrefixes] grows as
    hidden comments are met, and a comment under one of them is skipped. *)
Fixpoint visibleLoop (viewer : option PublicUser.t)
    (hiddenPrefixes : list string) (comments : list Comment.t)
    : list Comment.t :=
  match comments with
  | [] => []
  | comment :: rest =>
      if existsb (fun prefix => Js.startsWith (Comment.path comment) prefix)
           hiddenPrefixes
      then visibleLoop viewer hiddenPrefixes rest
      else
        let allowed := canViewHidden viewer (Comment.user_id comment) in
        if Comment.is_hidden comment && negb allowed
        then
          visibleLoop viewer
            (hiddenPrefixes ++ [(Comment.path comment ++ ".")%string]) rest
        else comment :: visibleLoop viewer hiddenPrefixes rest
  end.

(** ** Reports *)

Definition getReportById (s : State.t) (id : Z) : option Report.t :=
  find (fun report => Report.id report =? toInt id) (State.reports s).

Definition isReport (id : Z) (report : Report.t) : bool :=
  Report.id report =? toInt id.

Definition assigned (moderatorId : Z) (r : Report.t) : Report.t :=
  Report.mk (Report.id r) (Report.reporter_user_id r) (Report.target_type r)
    (Report.target_id r) (Report.reason_code r) (Report.reason_text r)
    (if (Report.status r =? "open")%string then "in_review"
     else Report.status r)
    (Some (toInt moderatorId)) (Report.created_at r) (Report.resolved_at r).

(** [assignReport(reportId, moderatorId)] *)
Definition assignReport (reportId moderatorId : Z) (s : State.t)
    : option Report.t * State.t :=
  match getReportById s reportId with
  | None => (None, s)
  | Some report =>
      (Some (assigned moderatorId report),
       State.setReports
         (updateFirst (isReport reportId) (assigned moderatorId)
            (State.reports s)) s)
  end.

Definition resolved (now status : string) (r : Report.t) : Report.t :=
  Report.mk (Report.id r) (Report.reporter_user_id r) (Report.target_type r)
    (Report.target_id r) (Report.reason_code r) (Report.reason_text r)
    status (Report.assigned_to_user_id r) (Report.created_at r) (Some now).

(** [resolveReport(reportId, status)] *)
Definition resolveReport (now : string) (reportId : Z) (status : string)
    (s : State.t) : option Report.t * State.t :=
  match getReportById s reportId with
  | None => (None, s)
  | Some report =>
      if negb (includes ["resolved"; "dismissed"] status) then (None, s)
      else
        (Some (resolved now status report),
         State.setReports
           (updateFirst (isReport reportId) (resolved now status)
              (State.reports s)) s)
  end.

(** A call of the report life cycle, and the run of a sequence of calls. *)
Inductive ReportCall : Type :=
| Assign (reportId moderatorId : Z)
| Resolve (now : string) (reportId : Z) (status : string).

Definition runCall (call : ReportCall) (s : State.t) : State.t :=
  match call with
  | Assign reportId moderatorId => snd (assignReport reportId moderatorId s)
  | Resolve now reportId status => snd (resolveReport now reportId status s)
  end.

Definition runCalls (calls : list ReportCall) (s : State.t) : State.t :=
  fold_left (fun acc call => runCall call acc) calls s.

(** Position of a status along open, in_review, closed. *)
Definition statusRank (status : string) : nat :=
  if (status =? "in_review")%string then 1
  else if (status =? "resolved")%string || (status =? "dismissed")%string
       then 2
       else 0.

(** ** Queries that order by time *)

Module TrendingEntry.
Record t : Type := mk {
  id : Z;
  title : string;
  author_username : string;
  like_count : Z;
  created_at : string
}.
End TrendingEntry.

Module TrendingRow.
Record t : Type := mk {
  id : Z;
  title : string;
  author_username : string;
  like_count : Z
}.
End TrendingRow.

Section Queries.

(** [new Date(text).getTime()]: the reading of a stored time stamp in
    milliseconds. *)
Variable getTime : string -> Z.

Definition compareComments (a b : Comment.t) : Z :=
  if (Comment.path a =? Comment.path b)%string
  then getTime (Comment.created_at a) - getTime (Comment.created_at b)
  else Js.localeCompare (Comment.path a) (Comment.path b).

(** [getVisibleCommentsForPost(postId, viewer)] *)
Definition getVisibleCommentsForPost (s : State.t) (postId : Z)
    (viewer : option PublicUser.t) : list Comment.t :=
  let comments :=
    Js.sort compareComments
      (filter (fun comment => Comment.post_id comment =? toInt postId)
         (State.comments s)) in
  visibleLoop viewer [] comments.

Definition trendingEntry (s : State.t) (post : Post.t) : TrendingEntry.t :=
  let author := getUserById s (Post.user_id post) in
  TrendingEntry.mk (Post.id post) (Post.title post)
    (match author with Some a => User.username a | None => "deleted" end)
    (countLikes s (Post.id post)) (Post.created_at post).

Definition compareTrending (a b : TrendingEntry.t) : Z :=
  if TrendingEntry.like_count b =? TrendingEntry.like_count a
  then getTime (TrendingEntry.created_at b)
       - getTime (TrendingEntry.created_at a)
  else TrendingEntry.like_count b - TrendingEntry.like_count a.

Definition dropCreatedAt (e : TrendingEntry.t) : TrendingRow.t :=
  TrendingRow.mk (TrendingEntry.id e) (TrendingEntry.title e)
    (TrendingEntry.author_username e) (TrendingEntry.like_count e).

(** [getTrendingPosts(limit = 5)] *)
Definition getTrendingPosts (s : State.t) (limit : Z)
    : list TrendingRow.t :=
  map dropCreatedAt
    (Js.slice
       (Js.sort compareTrending
          (map (trendingEntry s)
             (filter (fun post => negb (Post.is_hidden post))
                (State.posts s))))
       0 limit).

End Queries.

(** ** The schema migrator *)

(** A computation that reads the clock: it receives the number of readings
    made so far and returns it updated. *)
Definition Clock (A : Type) : Type := nat -> A * nat.

Definition ret {A : Type} (a : A) : Clock A := fun n => (a, n).

Definition bind {A B : Type} (m : Clock A) (k : A -> Clock B) : Clock B :=
  fun n => let (a, n') := m n in k a n'.

Notation "x <- m ;; k" := (bind m (fun x => k))
  (at level 61, m at next level, right associativity).

(** A loop whose body reads the clock, with the index of the iteration. *)
Fixpoint mapClock {A B : Type} (f : nat -> A -> Clock B) (index : nat)
    (l : list A) : Clock (list B) :=
  match l with
  | [] => ret []
  | x :: r =>
      y <- f index x ;;
      ys <- mapClock f (S index) r ;;
      ret (y :: ys)
  end.

(** [array.map((item, index) => ...)] without clock. *)
Fixpoint mapIndexed {A B : Type} (f : nat -> A -> B) (index : nat)
    (l : list A) : list B :=
  match l with
  | [] => []
  | x :: r => f index x :: mapIndexed f (S index) r
  end.

(** The filter that keeps the first record of every slug: [seen] is the
    [Set] of the slugs kept so far, [bad] the rest of the rejection test. *)
Fixpoint keepFirstSlug {A : Type} (bad : A -> bool) (slug : A -> string)
    (seen : list string) (l : list A) : list A :=
  match l with
  | [] => []
  | x :: r =>
      if bad x || (slug x =? "")%string || includes seen (slug x)
      then keepFirstSlug bad slug seen r
      else x :: keepFirstSlug bad slug (slug x :: seen) r
  end.

Section Migrator.

(** The successive readings of the wall clock. *)
Variable wall : nat -> string.

(** [nowIso()] *)
Definition nowIso : Clock string := fun n => (wall n, S n).

(** [value || nowIso()] *)
Definition orNow (value : string) : Clock string :=
  if (value =? "")%string then nowIso else ret value.

Definition migrateUser (hasAdmin : bool) (i : nat) (user : User.t)
    : Clock User.t :=
  created_at <- orNow (User.created_at user) ;;
  let role :=
    if isRole (User.role user) then User.role user else "user" in
  ret
    (User.mk (toInt (User.id user)) (Js.trim (User.username user))
       (normalizeText (User.email user)) (User.password_hash user)
       (User.bio user) (User.avatar_url user) created_at
       (if negb hasAdmin && (i =? 0)%nat then "admin" else role)
       (if isUserStatus (User.status user) then User.status user
        else "active")
       (match User.email_verified user with
        | Some b => Some b
        | None => Some true
        end)
       (orNull (User.verification_token_hash user))
       (orNull (User.verification_expires_at user))
       (orNull (User.reset_token_hash user))
       (orNull (User.reset_expires_at user))).

Definition migrateCategory (index : nat) (category : Category.t)
    : Category.t :=
  let n := Js.stringOfInt (Z.of_nat index + 1) in
  Category.mk (toInt (Category.id category))
    (orStr (Category.name category) ("Category " ++ n)%string)
    (slugify
       (orStr (Category.slug category)
          (orStr (Category.name category) ("category-" ++ n)%string)))
    (Category.description category)
    (orInt (Category.sort_order category) (Z.of_nat index + 1)).

Definition migratePost (index : nat) (post : Post.t) : Clock Post.t :=
  let oldBody := Post.body post in
  let markdown_body := orStr (Post.markdown_body post) (orStr oldBody "") in
  let excerpt := orStr (Post.excerpt post) (summarize markdown_body) in
  let reading_time_minutes :=
    orInt (Post.reading_time_minutes post)
      (computeReadingTime markdown_body) in
  created_at <- orNow (Post.created_at post) ;;
  ret
    (Post.mk (toInt (Post.id post)) (toInt (Post.user_id post))
       (toInt (Post.category_id post)) (Js.trim (Post.title post))
       (Post.body post) markdown_body (Post.rendered_html post) excerpt
       reading_time_minutes (Post.media_url post)
       (if includes MEDIA_TYPES (Post.media_type post)
        then Post.media_type post else "none")
       (Post.is_hidden post) (Post.hidden_reason post) created_at).

Definition migrateLike (index : nat) (like : Like.t) : Clock Like.t :=
  created_at <- orNow (Like.created_at like) ;;
  ret
    (Like.mk (toInt (Like.id like)) (toInt (Like.user_id like))
       (toInt (Like.post_id like)) created_at).

Definition keepLike (like : Like.t) : bool :=
  (Like.id like >? 0) && (Like.user_id like >? 0)
  && (Like.post_id like >? 0).

(** The first loop over the comments: coercion of the fields. *)
Definition normalizeComment (index : nat) (comment : Comment.t)
    : Clock Comment.t :=
  created_at <- orNow (Comment.created_at comment) ;;
  ret
    (Comment.mk (toInt (Comment.id comment))
       (toInt (Comment.user_id comment)) (toInt (Comment.post_id comment))
       (truthyId (Comment.parent_comment_id comment))
       (Comment.depth comment) (Comment.path comment)
       (Comment.body comment) (Comment.is_hidden comment)
       (Comment.hidden_reason comment) created_at).

(** The second loop over the comments: [commentSeen] holds the ids
    collected by the first. *)
Definition repairComment (commentSeen : list Z) (comment : Comment.t)
    : Comment.t :=
  let dangling :=
    match truthyId (Comment.parent_comment_id comment) with
    | Some p => negb (existsb (Z.eqb p) commentSeen)
    | None => false
    end in
  let parent_comment_id :=
    if dangling then None else Comment.parent_comment_id comment in
  let depth := if dangling then 0 else Comment.depth comment in
  let path :=
    if (Comment.path comment =? "")%string
    then
      match truthyId parent_comment_id with
      | Some p => (padId p ++ "." ++ padId (Comment.id comment))%string
      | None => padId (Comment.id comment)
      end
    else Comment.path comment in
  Comment.mk (Comment.id comment) (Comment.user_id comment)
    (Comment.post_id comment) parent_comment_id depth path
    (Comment.body comment) (Comment.is_hidden comment)
    (Comment.hidden_reason comment) (Comment.created_at comment).

Definition migrateTag (index : nat) (tag : Tag.t) : Clock Tag.t :=
  let name := Js.trim (Tag.name tag) in
  let slug := slugify (orStr (Tag.slug tag) name) in
  created_at <- orNow (Tag.created_at tag) ;;
  ret (Tag.mk (toInt (Tag.id tag)) (orStr name slug) slug created_at).

Definition migratePostTag (relation : PostTag.t) : PostTag.t :=
  PostTag.mk (toInt (PostTag.post_id relation))
    (toInt (PostTag.tag_id relation)).

Definition keepPostTag (relation : PostTag.t) : bool :=
  (PostTag.post_id relation >? 0) && (PostTag.tag_id relation >? 0).

Definition migrateBookmark (index : nat) (bookmark : Bookmark.t)
    : Clock Bookmark.t :=
  created_at <- orNow (Bookmark.created_at bookmark) ;;
  ret
    (Bookmark.mk (toInt (Bookmark.id bookmark))
       (toInt (Bookmark.user_id bookmark))
       (toInt (Bookmark.post_id bookmark)) created_at).

Definition keepBookmark (bookmark : Bookmark.t) : bool :=
  (Bookmark.id bookmark >? 0) && (Bookmark.user_id bookmark >? 0)
  && (Bookmark.post_id bookmark >? 0).

Definition migrateReaction (index : nat) (reaction : Reaction.t)
    : Clock Reaction.t :=
  created_at <- orNow (Reaction.created_at reaction) ;;
  ret
    (Reaction.mk (toInt (Reaction.id reaction))
       (toInt (Reaction.comment_id reaction))
       (toInt (Reaction.user_id reaction))
       (if isReaction (Reaction.reaction_type reaction)
        then Reaction.reaction_type reaction else "like")
       created_at).

Definition keepReaction (reaction : Reaction.t) : bool :=
  (Reaction.id reaction >? 0) && (Reaction.comment_id reaction >? 0)
  && (Reaction.user_id reaction >? 0).

Definition migrateReport (index : nat) (report : Report.t)
    : Clock Report.t :=
  created_at <- orNow (Report.created_at report) ;;
  ret
    (Report.mk (toInt (Report.id report))
       (toInt (Report.reporter_user_id report))
       (if isReportTarget (Report.target_type report)
        then Report.target_type report else "post")
       (toInt (Report.target_id report))
       (orStr (Report.reason_code report) "other")
       (Report.reason_text report)
       (if isReportStatus (Report.status report)
        then Report.status report else "open")
       (truthyId (Report.assigned_to_user_id report))
       created_at (orNull (Report.resolved_at report))).

Definition keepReport (report : Report.t) : bool :=
  (Report.id report >? 0) && (Report.reporter_user_id report >? 0)
  && (Report.target_id report >? 0).

Definition migrateAction (index : nat) (action : ModAction.t)
    : Clock ModAction.t :=
  created_at <- orNow (ModAction.created_at action) ;;
  ret
    (ModAction.mk (toInt (ModAction.id action))
       (toInt (ModAction.actor_user_id action))
       (orStr (ModAction.action_type action) "unknown")
       (orStr (ModAction.target_type action) "unknown")
       (toInt (ModAction.target_id action)) (ModAction.notes action)
       created_at).

Definition keepAction (action : ModAction.t) : bool :=
  (ModAction.id action >? 0) && (ModAction.actor_user_id action >? 0)
  && (ModAction.target_id action >? 0).

(** The two loops over [state.comments]. *)
Definition migrateComments (l : list Comment.t) : Clock (list Comment.t) :=
  normalized <- mapClock normalizeComment 0 l ;;
  let commentSeen := map Comment.id normalized in
  ret (map (repairComment commentSeen) normalized).

(** [migrateState()] *)
Definition migrateState (s : State.t) : Clock State.t :=
  let hasAdmin :=
    existsb (fun user => (User.role user =? "admin")%string)
      (State.users s) in
  users <- mapClock (migrateUser hasAdmin) 0 (State.users s) ;;
  let categories :=
    keepFirstSlug (fun _ => false) Category.slug []
      (mapIndexed migrateCategory 0 (State.categories s)) in
  posts <- mapClock migratePost 0 (State.posts s) ;;
  likes <- mapClock migrateLike 0 (State.likes s) ;;
  comments <- migrateComments (State.comments s) ;;
  tags <- mapClock migrateTag 0 (State.tags s) ;;
  let post_tags := filter keepPostTag (map migratePostTag (State.post_tags s)) in
  bookmarks <- mapClock migrateBookmark 0 (State.bookmarks s) ;;
  comment_reactions <- mapClock migrateReaction 0 (State.comment_reactions s) ;;
  reports <- mapClock migrateReport 0 (State.reports s) ;;
  moderation_actions <- mapClock migrateAction 0 (State.moderation_actions s) ;;
  ret
    (State.mk SCHEMA_VERSION (State.counters s) users categories posts
       (filter keepLike likes) comments
       (keepFirstSlug (fun tag => Tag.id tag =? 0) Tag.slug [] tags)
       post_tags (filter keepBookmark bookmarks)
       (filter keepReaction comment_reactions) (filter keepReport reports)
       (filter keepAction moderation_actions)
       (orNull (State.last_rebuild_at s))).

End Migrator.

(** ** State updates outside the collections above *)

Definition withUsers (v : list User.t) (s : State.t) : State.t :=
  State.mk (State.schema_version s) (State.counters s) v (State.categories s)
    (State.posts s) (State.likes s) (State.comments s) (State.tags s)
    (State.post_tags s) (State.bookmarks s) (State.comment_reactions s)
    (State.reports s) (State.moderation_actions s) (State.last_rebuild_at s).

Definition withCategories (v : list Category.t) (s : State.t) : State.t :=
  State.mk (State.schema_version s) (State.counters s) (State.users s) v
    (State.posts s) (State.likes s) (State.comments s) (State.tags s)
    (State.post_tags s) (State.bookmarks s) (State.comment_reactions s)
    (State.reports s) (State.moderation_actions s) (State.last_rebuild_at s).

Definition withPosts (v : list Post.t) (s : State.t) : State.t :=
  State.mk (State.schema_version s) (State.counters s) (State.users s)
    (State.categories s) v (State.likes s) (State.comments s) (State.tags s)
    (State.post_tags s) (State.bookmarks s) (State.comment_reactions s)
    (State.reports s) (State.moderation_actions s) (State.last_rebuild_at s).

Definition withTags (v : list Tag.t) (s : State.t) : State.t :=
  State.mk (State.schema_version s) (State.counters s) (State.users s)
    (State.categories s) (State.posts s) (State.likes s) (State.comments s) v
    (State.post_tags s) (State.bookmarks s) (State.comment_reactions s)
    (State.reports s) (State.moderation_actions s) (State.last_rebuild_at s).

Definition withPostTags (v : list PostTag.t) (s : State.t) : State.t :=
  State.mk (State.schema_version s) (State.counters s) (State.users s)
    (State.categories s) (State.posts s) (State.likes s) (State.comments s)
    (State.tags s) v (State.bookmarks s) (State.comment_reactions s)
    (State.reports s) (State.moderation_actions s) (State.last_rebuild_at s).

Definition withActions (v : list ModAction.t) (s : State.t) : State.t :=
  State.mk (State.schema_version s) (State.counters s) (State.users s)
    (State.categories s) (State.posts s) (State.likes s) (State.comments s)
    (State.tags s) (State.post_tags s) (State.bookmarks s)
    (State.comment_reactions s) (State.reports s) v (State.last_rebuild_at s).

Definition withLastRebuild (v : option string) (s : State.t) : State.t :=
  State.mk (State.schema_version s) (State.counters s) (State.users s)
    (State.categories s) (State.posts s) (State.likes s) (State.comments s)
    (State.tags s) (State.post_tags s) (State.bookmarks s)
    (State.comment_reactions s) (State.reports s) (State.moderation_actions s)
    v.

(** ** Counters at load time *)

(** [maxId(items)]: the largest id above 0, read through [getId]. *)
Definition maxId {A : Type} (getId : A -> Z) (items : list A) : Z :=
  fold_left (fun max item => if getId item >? max then getId item else max)
    items 0.

(** [hydrateCounters(current)] *)
Definition hydrateCounters (current : State.t) : State.t :=
  let c := State.counters current in
  State.setCounters
    (Counters.mk
       (Z.max (toInt (Counters.users c)) (maxId User.id (State.users current)))
       (Z.max (toInt (Counters.categories c))
          (maxId Category.id (State.categories current)))
       (Z.max (toInt (Counters.posts c)) (maxId Post.id (State.posts current)))
       (Z.max (toInt (Counters.likes c)) (maxId Like.id (State.likes current)))
       (Z.max (toInt (Counters.comments c))
          (maxId Comment.id (State.comments current)))
       (Z.max (toInt (Counters.tags c)) (maxId Tag.id (State.tags current)))
       (Z.max (toInt (Counters.bookmarks c))
          (maxId Bookmark.id (State.bookmarks current)))
       (Z.max (toInt (Counters.comment_reactions c))
          (maxId Reaction.id (State.comment_reactions current)))
       (Z.max (toInt (Counters.reports c))
          (maxId Report.id (State.reports current)))
       (Z.max (toInt (Counters.moderation_actions c))
          (maxId ModAction.id (State.moderation_actions current))))
    current.

Module Seed.
Record t : Type := mk {
  name : string;
  slug : string;
  description : string;
  sort_order : Z
}.
End Seed.

Definition categorySeed : list Seed.t :=
  [Seed.mk "Videography" "videography"
     "Filmmaking, reels, edits, and camera movement." 1;
   Seed.mk "Photography" "photography"
     "Portraits, street, studio, and color grading." 2;
   Seed.mk "Creators" "creators"
     "Creator economy, growth, and production workflows." 3;
   Seed.mk "Post-Production" "post-production"
     "Editing, sound design, VFX, and finishing." 4;
   Seed.mk "Gear" "gear" "Cameras, lenses, lights, drones, and reviews." 5;
   Seed.mk "Industry" "industry"
     "Media business, agencies, and production trends." 6;
   Seed.mk "Inspiration" "inspiration"
     "Reference projects and visual storytelling ideas." 7].

(** One turn of the loop of [ensureCategoriesSeeded]. *)
Definition seedCategory (s : State.t) (item : Seed.t) : State.t :=
  let (id, s1) := nextId Entity.categories s in
  withCategories
    (State.categories s1
       ++ [Category.mk id (Seed.name item) (Seed.slug item)
             (Seed.description item) (Seed.sort_order item)]) s1.

(** [ensureCategoriesSeeded()] *)
Definition ensureCategoriesSeeded (s : State.t) : State.t :=
  if (0 <? List.length (State.categories s))%nat then s
  else fold_left seedCategory categorySeed s.

(** The steps of [loadState()] that follow the reading and the
    sanitization of the snapshot: migration, seeding, counters. *)
Definition loadState (wall : nat -> string) (sanitized : State.t)
    : Clock State.t :=
  migrated <- migrateState wall sanitized ;;
  ret (hydrateCounters (ensureCategoriesSeeded migrated)).

(** ** User accounts *)

(** [toPublicUser(user)], [null] included. *)
Definition toPublicUserOpt (user : option User.t) : option PublicUser.t :=
  option_map toPublicUser user.

Definition isAdminRole (role : string) : bool := (role =? "admin")%string.

(** [canUserModerate(user)] on a viewer object. *)
Definition canUserModerate (user : option PublicUser.t) : bool :=
  match user with
  | Some u => isModeratorRole (PublicUser.role u)
  | None => false
  end.

(** [canUserAdmin(user)] on a viewer object. *)
Definition canUserAdmin (user : option PublicUser.t) : bool :=
  match user with
  | Some u => isAdminRole (PublicUser.role u)
  | None => false
  end.

Definition getUserByEmail (s : State.t) (email : string) : option User.t :=
  find (fun user => (User.email user =? normalizeText email)%string)
    (State.users s).

Definition getUserByUsername (s : State.t) (username : string)
    : option User.t :=
  find
    (fun user =>
       (Js.toLowerCase (User.username user) =? normalizeText username)%string)
    (State.users s).

(** [createUser({ username, email, password_hash })] *)
Definition createUser (now username email password_hash : string)
    (s : State.t) : User.t * State.t :=
  let userCount := List.length (State.users s) in
  let (id, s1) := nextId Entity.users s in
  let user :=
    User.mk id (Js.trim username) (normalizeText email) password_hash "" ""
      now (if (userCount =? 0)%nat then "admin" else "user") "active"
      (Some false) None None None None in
  (user, withUsers (State.users s1 ++ [user]) s1).

Definition isUser (id : Z) (user : User.t) : bool :=
  User.id user =? toInt id.

Definition setRole (role : string) (u : User.t) : User.t :=
  User.mk (User.id u) (User.username u) (User.email u) (User.password_hash u)
    (User.bio u) (User.avatar_url u) (User.created_at u) role (User.status u)
    (User.email_verified u) (User.verification_token_hash u)
    (User.verification_expires_at u) (User.reset_token_hash u)
    (User.reset_expires_at u).

Definition setStatus (status : string) (u : User.t) : User.t :=
  User.mk (User.id u) (User.username u) (User.email u) (User.password_hash u)
    (User.bio u) (User.avatar_url u) (User.created_at u) (User.role u) status
    (User.email_verified u) (User.verification_token_hash u)
    (User.verification_expires_at u) (User.reset_token_hash u)
    (User.reset_expires_at u).

Definition setProfile (bio avatar_url : string) (u : User.t) : User.t :=
  User.mk (User.id u) (User.username u) (User.email u) (User.password_hash u)
    bio avatar_url (User.created_at u) (User.role u) (User.status u)
    (User.email_verified u) (User.verification_token_hash u)
    (User.verification_expires_at u) (User.reset_token_hash u)
    (User.reset_expires_at u).

Definition setVerification (verified : option bool)
    (tokenHash expiresAt : option string) (u : User.t) : User.t :=
  User.mk (User.id u) (User.username u) (User.email u) (User.password_hash u)
    (User.bio u) (User.avatar_url u) (User.created_at u) (User.role u)
    (User.status u) verified tokenHash expiresAt (User.reset_token_hash u)
    (User.reset_expires_at u).

Definition setReset (password_hash : string)
    (tokenHash expiresAt : option string) (u : User.t) : User.t :=
  User.mk (User.id u) (User.username u) (User.email u) password_hash
    (User.bio u) (User.avatar_url u) (User.created_at u) (User.role u)
    (User.status u) (User.email_verified u) (User.verification_token_hash u)
    (User.verification_expires_at u) tokenHash expiresAt.

(** [updateUserProfile(id, { bio, avatar_url })] *)
Definition updateUserProfile (id : Z) (bio avatar_url : string) (s : State.t)
    : option PublicUser.t * State.t :=
  match getUserById s id with
  | None => (None, s)
  | Some user =>
      (Some (toPublicUser (setProfile bio avatar_url user)),
       withUsers
         (updateFirst (isUser id) (setProfile bio avatar_url) (State.users s))
         s)
  end.

(** [updateUserRole(id, role)] *)
Definition updateUserRole (id : Z) (role : string) (s : State.t)
    : option User.t * State.t :=
  match getUserById s id with
  | None => (None, s)
  | Some user =>
      if negb (isRole role) then (None, s)
      else
        (Some (setRole role user),
         withUsers (updateFirst (isUser id) (setRole role) (State.users s)) s)
  end.

(** [updateUserStatus(id, status)] *)
Definition updateUserStatus (id : Z) (status : string) (s : State.t)
    : option User.t * State.t :=
  match getUserById s id with
  | None => (None, s)
  | Some user =>
      if negb (isUserStatus status) then (None, s)
      else
        (Some (setStatus status user),
         withUsers
           (updateFirst (isUser id) (setStatus status) (State.users s)) s)
  end.

(** [setVerificationToken(userId, { tokenHash, expiresAt })] *)
Definition setVerificationToken (userId : Z) (tokenHash expiresAt : string)
    (s : State.t) : option User.t * State.t :=
  match getUserById s userId with
  | None => (None, s)
  | Some user =>
      let set u :=
        setVerification (User.email_verified u) (Some tokenHash)
          (Some expiresAt) u in
      (Some (set user),
       withUsers (updateFirst (isUser userId) set (State.users s)) s)
  end.

(** [setResetToken(userId, { tokenHash, expiresAt })] *)
Definition setResetToken (userId : Z) (tokenHash expiresAt : string)
    (s : State.t) : option User.t * State.t :=
  match getUserById s userId with
  | None => (None, s)
  | Some user =>
      let set u :=
        setReset (User.password_hash u) (Some tokenHash) (Some expiresAt) u in
      (Some (set user),
       withUsers (updateFirst (isUser userId) set (State.users s)) s)
  end.

Section Tokens.

(** [new Date(text).getTime()] *)
Variable getTime : string -> Z.

(** The test shared by the two token searches: the stored hash is set and
    equal to [tokenHash], the expiry is set and not before [now]. *)
Definition tokenValid (now : Z) (tokenHash : string)
    (stored expires : option string) : bool :=
  match stored with
  | None => false
  | Some h =>
      if (h =? "")%string then false
      else if negb (h =? tokenHash)%string then false
      else
        match expires with
        | None => false
        | Some e => if (e =? "")%string then false else getTime e >=? now
        end
  end.

Definition holdsVerification (now : Z) (tokenHash : string) (item : User.t)
    : bool :=
  tokenValid now tokenHash (User.verification_token_hash item)
    (User.verification_expires_at item).

Definition holdsReset (now : Z) (tokenHash : string) (item : User.t) : bool :=
  tokenValid now tokenHash (User.reset_token_hash item)
    (User.reset_expires_at item).

(** [verifyUserByTokenHash(tokenHash)]; [now] is [Date.now()]. *)
Definition verifyUserByTokenHash (now : Z) (tokenHash : string) (s : State.t)
    : option User.t * State.t :=
  match find (holdsVerification now tokenHash) (State.users s) with
  | None => (None, s)
  | Some user =>
      (Some (setVerification (Some true) None None user),
       withUsers
         (updateFirst (holdsVerification now tokenHash)
            (setVerification (Some true) None None) (State.users s)) s)
  end.

(** [getUserByResetTokenHash(tokenHash)] *)
Definition getUserByResetTokenHash (now : Z) (tokenHash : string)
    (s : State.t) : option User.t :=
  find (holdsReset now tokenHash) (State.users s).

(** [resetPasswordByTokenHash(tokenHash, passwordHash)] *)
Definition resetPasswordByTokenHash (now : Z) (tokenHash passwordHash : string)
    (s : State.t) : option User.t * State.t :=
  match getUserByResetTokenHash now tokenHash s with
  | None => (None, s)
  | Some user =>
      (Some (setReset passwordHash None None user),
       withUsers
         (updateFirst (holdsReset now tokenHash)
            (setReset passwordHash None None) (State.users s)) s)
  end.

End Tokens.

(** ** Categories and tags *)

Definition getCategoryById (s : State.t) (id : Z) : option Category.t :=
  find (fun category => Category.id category =? toInt id)
    (State.categories s).

Definition getCategoryBySlug (s : State.t) (slug : string)
    : option Category.t :=
  find (fun category => (Category.slug category =? slug)%string)
    (State.categories s).

Definition getTagBySlug (s : State.t) (slug : string) : option Tag.t :=
  find (fun tag => (Tag.slug tag =? slug)%string) (State.tags s).

Definition getTagById (s : State.t) (id : Z) : option Tag.t :=
  find (fun tag => Tag.id tag =? toInt id) (State.tags s).

(** The loop of [getOrCreateTag] that looks for a free slug; [fuel] bounds
    the number of turns. *)
Fixpoint freeSlug (fuel : nat) (tags : list Tag.t) (slugBase : string)
    (index : Z) (slug : string) : string :=
  match fuel with
  | O => slug
  | S k =>
      if existsb (fun tag => (Tag.slug tag =? slug)%string) tags
      then
        freeSlug k tags slugBase (index + 1)
          (slugBase ++ "-" ++ Js.stringOfInt (index + 1))%string
      else slug
  end.

(** [getOrCreateTag(nameInput)]; the loop gets one turn more than there
    are tags. *)
Definition getOrCreateTag (wall : nat -> string) (nameInput : string)
    (s : State.t) : Clock (option Tag.t * State.t) :=
  let name := Js.trim nameInput in
  if (name =? "")%string then ret (None, s)
  else
    let slugBase := slugify name in
    if (slugBase =? "")%string then ret (None, s)
    else
      match find (fun tag => (Tag.slug tag =? slugBase)%string)
              (State.tags s) with
      | Some existing => ret (Some existing, s)
      | None =>
          let slug :=
            freeSlug (S (List.length (State.tags s))) (State.tags s) slugBase
              1 slugBase in
          let (id, s1) := nextId Entity.tags s in
          created_at <- nowIso wall ;;
          let existing := Tag.mk id name slug created_at in
          ret (Some existing, withTags (State.tags s1 ++ [existing]) s1)
      end.

(** The first loop of [setPostTags]: the names trimmed and lower-cased,
    without empty ones and repetitions, five at most. [uniqueNames] also
    stands for the set [seen], which holds the same names. *)
Fixpoint uniqueTagNames (uniqueNames : list string) (tagNames : list string)
    : list string :=
  match tagNames with
  | [] => uniqueNames
  | rawName :: rest =>
      let normalized := Js.toLowerCase (Js.trim rawName) in
      if (normalized =? "")%string then uniqueTagNames uniqueNames rest
      else if includes uniqueNames normalized
           then uniqueTagNames uniqueNames rest
           else
             let pushed := uniqueNames ++ [normalized] in
             if (5 <=? List.length pushed)%nat then pushed
             else uniqueTagNames pushed rest
  end.

(** The second loop of [setPostTags]. *)
Fixpoint attachTags (wall : nat -> string) (postId : Z)
    (names : list string) (s : State.t) : Clock State.t :=
  match names with
  | [] => ret s
  | item :: rest =>
      found <- getOrCreateTag wall item s ;;
      match found with
      | (None, s1) => attachTags wall postId rest s1
      | (Some tag, s1) =>
          attachTags wall postId rest
            (withPostTags
               (State.post_tags s1
                  ++ [PostTag.mk (toInt postId) (Tag.id tag)]) s1)
      end
  end.

(** [setPostTags(postId, tagNames)] *)
Definition setPostTags (wall : nat -> string) (postId : Z)
    (tagNames : list string) (s : State.t) : Clock State.t :=
  let uniqueNames := uniqueTagNames [] tagNames in
  attachTags wall postId uniqueNames
    (withPostTags
       (filter (fun item => negb (PostTag.post_id item =? toInt postId))
          (State.post_tags s)) s).

(** ** Posts *)

Definition countBookmarks (s : State.t) (postId : Z) : Z :=
  Z.of_nat
    (List.length
       (filter (fun bookmark => Bookmark.post_id bookmark =? toInt postId)
          (State.bookmarks s))).

(** [createPost({ ... })] *)
Definition createPost (wall : nat -> string) (user_id category_id : Z)
    (title markdown_body rendered_html excerpt : string)
    (reading_time_minutes : Z) (media_url media_type : string)
    (tag_names : list string) (s : State.t) : Clock (Post.t * State.t) :=
  let (id, s1) := nextId Entity.posts s in
  created_at <- nowIso wall ;;
  let post :=
    Post.mk id (toInt user_id) (toInt category_id) (Js.trim title) ""
      markdown_body rendered_html (orStr excerpt (summarize markdown_body))
      (orInt reading_time_minutes (computeReadingTime markdown_body))
      media_url
      (if includes MEDIA_TYPES media_type then media_type else "none")
      false "" created_at in
  s2 <- setPostTags wall (Post.id post) tag_names
          (withPosts (State.posts s1 ++ [post]) s1) ;;
  rebuilt <- nowIso wall ;;
  ret (post, withLastRebuild (Some rebuilt) s2).

(** [getPostByIdForModeration(postId)] *)
Definition getPostByIdForModeration (s : State.t) (postId : Z)
    : option Post.t := getPostRawById s postId.

Definition isPost (postId : Z) (post : Post.t) : bool :=
  Post.id post =? toInt postId.

Definition setPostHidden (flag : bool) (reason : string) (p : Post.t)
    : Post.t :=
  Post.mk (Post.id p) (Post.user_id p) (Post.category_id p) (Post.title p)
    (Post.body p) (Post.markdown_body p) (Post.rendered_html p)
    (Post.excerpt p) (Post.reading_time_minutes p) (Post.media_url p)
    (Post.media_type p) flag reason (Post.created_at p).

(** [hidePost(postId, reason = "")] *)
Definition hidePost (postId : Z) (reason : string) (s : State.t)
    : option Post.t * State.t :=
  match getPostRawById s postId with
  | None => (None, s)
  | Some post =>
      (Some (setPostHidden true reason post),
       withPosts
         (updateFirst (isPost postId) (setPostHidden true reason)
            (State.posts s)) s)
  end.

(** [unhidePost(postId)] *)
Definition unhidePost (postId : Z) (s : State.t) : option Post.t * State.t :=
  match getPostRawById s postId with
  | None => (None, s)
  | Some post =>
      (Some (setPostHidden false "" post),
       withPosts
         (updateFirst (isPost postId) (setPostHidden false "")
            (State.posts s)) s)
  end.

(** [haystack.includes(needle)] *)
Definition strIncludes (haystack needle : string) : bool :=
  match String.index 0 needle haystack with
  | Some _ => true
  | None => false
  end.

Module TagRef.
Record t : Type := mk {
  id : Z;
  name : string;
  slug : string
}.
End TagRef.

(** The object returned by [decoratePost]. *)
Module PostView.
Record t : Type := mk {
  id : Z;
  title : string;
  markdown_body : string;
  rendered_html : string;
  excerpt : string;
  reading_time_minutes : Z;
  media_url : string;
  media_type : string;
  created_at : string;
  is_hidden : bool;
  hidden_reason : string;
  author_id : option Z;
  author_username : string;
  author_avatar_url : string;
  author_status : string;
  category_name : string;
  category_slug : string;
  like_count : Z;
  comment_count : Z;
  bookmark_count : Z;
  liked_by_me : Z;
  bookmarked_by_me : Z;
  tags : list TagRef.t
}.
End PostView.

Module Creator.
Record t : Type := mk {
  username : string;
  avatar_url : string;
  post_count : Z;
  received_likes : Z;
  role : string;
  created_at : string
}.
End Creator.

Module CreatorRow.
Record t : Type := mk {
  username : string;
  avatar_url : string;
  post_count : Z;
  received_likes : Z;
  role : string
}.
End CreatorRow.

Module TagUsage.
Record t : Type := mk {
  id : Z;
  name : string;
  slug : string;
  usage_count : Z
}.
End TagUsage.

(** A [Map] from tag ids to counts, in insertion order. *)
Fixpoint mapGet (usage : list (Z * Z)) (key : Z) : option Z :=
  match usage with
  | [] => None
  | (k, v) :: rest => if k =? key then Some v else mapGet rest key
  end.

Fixpoint mapSet (usage : list (Z * Z)) (key value : Z) : list (Z * Z) :=
  match usage with
  | [] => [(key, value)]
  | (k, v) :: rest =>
      if k =? key then (k, value) :: rest else (k, v) :: mapSet rest key value
  end.

(** [value || 0] on the result of [Map.get]. *)
Definition orZero (value : option Z) : Z :=
  match value with
  | Some v => v
  | None => 0
  end.

(** The viewer of a request: [viewerId ? toPublicUser(getUserById(viewerId))
    : null]. *)
Definition viewerOf (s : State.t) (viewerId : option Z)
    : option PublicUser.t :=
  match truthyId viewerId with
  | Some id => toPublicUserOpt (getUserById s id)
  | None => None
  end.

Section Feed.

(** [new Date(text).getTime()] *)
Variable getTime : string -> Z.

(** [a.localeCompare(b)] on names: the collation of the host. *)
Variable collate : string -> string -> Z.

(** [getTagsForPost(postId)] *)
Definition getTagsForPost (s : State.t) (postId : Z) : list TagRef.t :=
  let relations :=
    filter (fun item => PostTag.post_id item =? toInt postId)
      (State.post_tags s) in
  let tags :=
    flat_map
      (fun relation =>
         match getTagById s (PostTag.tag_id relation) with
         | Some tag => [TagRef.mk (Tag.id tag) (Tag.name tag) (Tag.slug tag)]
         | None => []
         end) relations in
  Js.sort (fun a b => collate (TagRef.name a) (TagRef.name b)) tags.

(** [countVisibleComments(postId, viewer)] *)
Definition countVisibleComments (s : State.t) (postId : Z)
    (viewer : option PublicUser.t) : Z :=
  Z.of_nat (List.length (getVisibleCommentsForPost getTime s postId viewer)).

(** [buildSearchText(post)] *)
Definition buildSearchText (s : State.t) (post : Post.t) : string :=
  let author := getUserById s (Post.user_id post) in
  let category := getCategoryById s (Post.category_id post) in
  let tags := getTagsForPost s (Post.id post) in
  let parts :=
    [Post.title post; Post.markdown_body post;
     match author with Some a => User.username a | None => "" end;
     match category with Some c => Category.name c | None => "" end]
      ++ map TagRef.name tags in
  normalizeText (String.concat " " parts).

(** [decoratePost(post, viewerId)] *)
Definition decoratePost (s : State.t) (post : Post.t) (viewerId : option Z)
    : PostView.t :=
  let viewer := viewerOf s viewerId in
  let author := getUserById s (Post.user_id post) in
  let category := getCategoryById s (Post.category_id post) in
  let tags := getTagsForPost s (Post.id post) in
  let likeCount := countLikes s (Post.id post) in
  let bookmarkCount := countBookmarks s (Post.id post) in
  let commentCount := countVisibleComments s (Post.id post) viewer in
  let likedByMe :=
    match viewer with
    | Some v =>
        existsb
          (fun like =>
             (Like.post_id like =? Post.id post)
             && (Like.user_id like =? PublicUser.id v)) (State.likes s)
    | None => false
    end in
  let bookmarkedByMe :=
    match viewer with
    | Some v =>
        existsb
          (fun bookmark =>
             (Bookmark.post_id bookmark =? Post.id post)
             && (Bookmark.user_id bookmark =? PublicUser.id v))
          (State.bookmarks s)
    | None => false
    end in
  PostView.mk (Post.id post) (Post.title post) (Post.markdown_body post)
    (Post.rendered_html post) (Post.excerpt post)
    (Post.reading_time_minutes post) (Post.media_url post)
    (Post.media_type post) (Post.created_at post) (Post.is_hidden post)
    (orStr (Post.hidden_reason post) "")
    (match author with Some a => Some (User.id a) | None => None end)
    (match author with Some a => User.username a | None => "deleted" end)
    (match author with Some a => orStr (User.avatar_url a) "" | None => "" end)
    (match author with Some a => User.status a | None => "active" end)
    (match category with Some c => Category.name c | None => "Unknown" end)
    (match category with Some c => Category.slug c | None => "unknown" end)
    likeCount commentCount bookmarkCount (if likedByMe then 1 else 0)
    (if bookmarkedByMe then 1 else 0) tags.

(** The test of the filter of [filterPostsForFeed]. *)
Definition feedKeeps (s : State.t) (viewer : option PublicUser.t)
    (category : option Category.t) (tag : option Tag.t)
    (tagPostIds : list Z) (normQuery : string) (post : Post.t) : bool :=
  if negb (canSeeHiddenPost post viewer) then false
  else if match category with
          | Some c => negb (Post.category_id post =? Category.id c)
          | None => false
          end then false
  else if match tag with
          | Some _ => negb (existsb (Z.eqb (Post.id post)) tagPostIds)
          | None => false
          end then false
  else if negb (normQuery =? "")%string
          && negb (strIncludes (buildSearchText s post) normQuery) then false
  else true.

Definition newestFirst (a b : Post.t) : Z :=
  getTime (Post.created_at b) - getTime (Post.created_at a).

(** [filterPostsForFeed({ viewerId, categorySlug, tagSlug, query })]; an
    absent slug or query is the empty string. *)
Definition filterPostsForFeed (s : State.t) (viewerId : option Z)
    (categorySlug tagSlug query : string) : list Post.t :=
  let viewer := viewerOf s viewerId in
  let category :=
    if (categorySlug =? "")%string then None
    else getCategoryBySlug s categorySlug in
  let tag :=
    if (tagSlug =? "")%string then None else getTagBySlug s tagSlug in
  let normQuery := normalizeText query in
  let tagPostIds :=
    match tag with
    | Some t =>
        map PostTag.post_id
          (filter (fun item => PostTag.tag_id item =? Tag.id t)
             (State.post_tags s))
    | None => []
    end in
  Js.sort newestFirst
    (filter (feedKeeps s viewer category tag tagPostIds normQuery)
       (State.posts s)).

(** [getFeedPosts({ viewerId, categorySlug, tagSlug, query, page,
    pageSize })] *)
Definition getFeedPosts (s : State.t) (viewerId : option Z)
    (categorySlug tagSlug query : string) (page pageSize : Z)
    : Page.t PostView.t :=
  let filtered := filterPostsForFeed s viewerId categorySlug tagSlug query in
  let result := paginate filtered page pageSize in
  Page.mk (map (fun post => decoratePost s post viewerId) (Page.items result))
    (Page.total result) (Page.pages result) (Page.page result)
    (Page.pageSize result).

(** [getSearchPosts({ viewerId, query, page, pageSize })] *)
Definition getSearchPosts (s : State.t) (viewerId : option Z)
    (query : string) (page pageSize : Z) : Page.t PostView.t :=
  getFeedPosts s viewerId "" "" query page pageSize.

(** [getPostById({ postId, viewerId })] *)
Definition getPostById (s : State.t) (postId : Z) (viewerId : option Z)
    : option PostView.t :=
  match getPostRawById s postId with
  | None => None
  | Some post =>
      let viewer := viewerOf s viewerId in
      if negb (canSeeHiddenPost post viewer) then None
      else Some (decoratePost s post viewerId)
  end.

(** [getUserPosts(userId, viewerId)] *)
Definition getUserPosts (s : State.t) (userId : Z) (viewerId : option Z)
    : list PostView.t :=
  let viewer := viewerOf s viewerId in
  let posts :=
    filter (fun post => canSeeHiddenPost post viewer)
      (Js.sort newestFirst
         (filter (fun post => Post.user_id post =? toInt userId)
            (State.posts s))) in
  map (fun post => decoratePost s post viewerId) posts.

(** [getUserBookmarks(userId, { page, pageSize })] *)
Definition getUserBookmarks (s : State.t) (userId : Z) (page pageSize : Z)
    : Page.t PostView.t :=
  let viewer := toPublicUserOpt (getUserById s userId) in
  let postIds :=
    map Bookmark.post_id
      (Js.sort
         (fun a b =>
            getTime (Bookmark.created_at b) - getTime (Bookmark.created_at a))
         (filter (fun bookmark => Bookmark.user_id bookmark =? toInt userId)
            (State.bookmarks s))) in
  let posts :=
    filter (fun post => canSeeHiddenPost post viewer)
      (flat_map
         (fun postId =>
            match getPostRawById s postId with
            | Some post => [post]
            | None => []
            end) postIds) in
  let paged := paginate posts page pageSize in
  Page.mk
    (map (fun post => decoratePost s post (Some userId)) (Page.items paged))
    (Page.total paged) (Page.pages paged) (Page.page paged)
    (Page.pageSize paged).

Definition creatorOf (s : State.t) (user : User.t) : Creator.t :=
  let posts :=
    filter
      (fun post =>
         (Post.user_id post =? User.id user) && negb (Post.is_hidden post))
      (State.posts s) in
  let likes :=
    fold_left (fun sum post => sum + countLikes s (Post.id post)) posts 0 in
  Creator.mk (User.username user) (orStr (User.avatar_url user) "")
    (Z.of_nat (List.length posts)) likes (User.role user)
    (User.created_at user).

Definition compareCreators (a b : Creator.t) : Z :=
  if Creator.received_likes b =? Creator.received_likes a
  then
    if Creator.post_count b =? Creator.post_count a
    then getTime (Creator.created_at b) - getTime (Creator.created_at a)
    else Creator.post_count b - Creator.post_count a
  else Creator.received_likes b - Creator.received_likes a.

(** [getTopCreators(limit = 5)] *)
Definition getTopCreators (s : State.t) (limit : Z) : list CreatorRow.t :=
  map
    (fun c =>
       CreatorRow.mk (Creator.username c) (Creator.avatar_url c)
         (Creator.post_count c) (Creator.received_likes c) (Creator.role c))
    (Js.slice (Js.sort compareCreators (map (creatorOf s) (State.users s)))
       0 limit).

(** The first loop of [getPopularTags]. *)
Definition tagUsage (relations : list PostTag.t) : list (Z * Z) :=
  fold_left
    (fun usage relation =>
       mapSet usage (PostTag.tag_id relation)
         (orInt (orZero (mapGet usage (PostTag.tag_id relation))) 0 + 1))
    relations [].

Definition compareUsage (a b : TagUsage.t) : Z :=
  if TagUsage.usage_count b =? TagUsage.usage_count a
  then collate (TagUsage.name a) (TagUsage.name b)
  else TagUsage.usage_count b - TagUsage.usage_count a.

(** [getPopularTags(limit = 20)] *)
Definition getPopularTags (s : State.t) (limit : Z) : list TagUsage.t :=
  let usage := tagUsage (State.post_tags s) in
  Js.slice
    (Js.sort compareUsage
       (map
          (fun tag =>
             TagUsage.mk (Tag.id tag) (Tag.name tag) (Tag.slug tag)
               (orInt (orZero (mapGet usage (Tag.id tag))) 0))
          (State.tags s)))
    0 limit.

End Feed.

(** ** Reactions and comment rows *)

Module ReactionCounts.
Record t : Type := mk {
  like : Z;
  heart : Z;
  fire : Z;
  clap : Z
}.
End ReactionCounts.

(** [counts[reaction_type] += 1] for a type of the list. *)
Definition bumpCount (counts : ReactionCounts.t) (reaction_type : string)
    : ReactionCounts.t :=
  if (reaction_type =? "like")%string then
    ReactionCounts.mk (ReactionCounts.like counts + 1)
      (ReactionCounts.heart counts) (ReactionCounts.fire counts)
      (ReactionCounts.clap counts)
  else if (reaction_type =? "heart")%string then
    ReactionCounts.mk (ReactionCounts.like counts)
      (ReactionCounts.heart counts + 1) (ReactionCounts.fire counts)
      (ReactionCounts.clap counts)
  else if (reaction_type =? "fire")%string then
    ReactionCounts.mk (ReactionCounts.like counts)
      (ReactionCounts.heart counts) (ReactionCounts.fire counts + 1)
      (ReactionCounts.clap counts)
  else
    ReactionCounts.mk (ReactionCounts.like counts)
      (ReactionCounts.heart counts) (ReactionCounts.fire counts)
      (ReactionCounts.clap counts + 1).

(** [getCommentReactions(commentId)] *)
Definition getCommentReactions (s : State.t) (commentId : Z)
    : ReactionCounts.t :=
  fold_left
    (fun counts reaction =>
       if negb (Reaction.comment_id reaction =? toInt commentId) then counts
       else if isReaction (Reaction.reaction_type reaction)
            then bumpCount counts (Reaction.reaction_type reaction)
            else counts)
    (State.comment_reactions s) (ReactionCounts.mk 0 0 0 0).

(** [getViewerCommentReactions(commentId, viewerId)] *)
Definition getViewerCommentReactions (s : State.t) (commentId : Z)
    (viewerId : option Z) : list string :=
  match truthyId viewerId with
  | None => []
  | Some id =>
      map Reaction.reaction_type
        (filter
           (fun reaction =>
              (Reaction.comment_id reaction =? toInt commentId)
              && (Reaction.user_id reaction =? toInt id))
           (State.comment_reactions s))
  end.

(** The object returned by [getPostComments] for one comment. *)
Module CommentView.
Record t : Type := mk {
  id : Z;
  body : string;
  created_at : string;
  post_id : Z;
  parent_comment_id : option Z;
  depth : Z;
  path : string;
  is_hidden : bool;
  hidden_reason : string;
  author_id : option Z;
  author_username : string;
  author_avatar_url : string;
  reactions : ReactionCounts.t;
  viewer_reactions : list string
}.
End CommentView.

Definition commentView (s : State.t) (viewerId : option Z)
    (comment : Comment.t) : CommentView.t :=
  let author := getUserById s (Comment.user_id comment) in
  CommentView.mk (Comment.id comment) (Comment.body comment)
    (Comment.created_at comment) (Comment.post_id comment)
    (Comment.parent_comment_id comment) (Comment.depth comment)
    (Comment.path comment) (Comment.is_hidden comment)
    (Comment.hidden_reason comment)
    (match author with Some a => Some (User.id a) | None => None end)
    (match author with Some a => User.username a | None => "deleted" end)
    (match author with Some a => orStr (User.avatar_url a) "" | None => "" end)
    (getCommentReactions s (Comment.id comment))
    (getViewerCommentReactions s (Comment.id comment) viewerId).

(** [getPostComments(postId, viewerId)] *)
Definition getPostComments (getTime : string -> Z) (s : State.t)
    (postId : Z) (viewerId : option Z) : list CommentView.t :=
  let viewer := viewerOf s viewerId in
  map (commentView s viewerId)
    (getVisibleCommentsForPost getTime s postId viewer).

(** ** Reports and the moderation log *)

(** [createReport({ reporter_user_id, target_type, target_id, reason_code,
    reason_text })] *)
Definition createReport (now : string) (reporter_user_id : Z)
    (target_type : string) (target_id : Z) (reason_code reason_text : string)
    (s : State.t) : Report.t * State.t :=
  let (id, s1) := nextId Entity.reports s in
  let report :=
    Report.mk id (toInt reporter_user_id) target_type (toInt target_id)
      (orStr reason_code "other") reason_text "open" None now None in
  (report, State.setReports (State.reports s1 ++ [report]) s1).

(** [addModerationAction({ actor_user_id, action_type, target_type,
    target_id, notes })] *)
Definition addModerationAction (now : string) (actor_user_id : Z)
    (action_type target_type : string) (target_id : Z) (notes : string)
    (s : State.t) : ModAction.t * State.t :=
  let (id, s1) := nextId Entity.moderation_actions s in
  let action :=
    ModAction.mk id (toInt actor_user_id) (orStr action_type "unknown")
      (orStr target_type "unknown") (toInt target_id) notes now in
  (action, withActions (State.moderation_actions s1 ++ [action]) s1).

(** A report with the names [getReports] adds to it. *)
Module ReportView.
Record t : Type := mk {
  report : Report.t;
  reporter_username : string;
  assignee_username : string
}.
End ReportView.

(** A log entry with the name [getModerationActionsForTarget] adds. *)
Module ActionView.
Record t : Type := mk {
  action : ModAction.t;
  actor_username : string
}.
End ActionView.

Definition reportView (s : State.t) (report : Report.t) : ReportView.t :=
  let reporter := getUserById s (Report.reporter_user_id report) in
  let assignee :=
    match truthyId (Report.assigned_to_user_id report) with
    | Some id => getUserById s id
    | None => None
    end in
  ReportView.mk report
    (match reporter with Some u => User.username u | None => "deleted" end)
    (match assignee with Some u => User.username u | None => "" end).

Definition actionView (s : State.t) (action : ModAction.t) : ActionView.t :=
  let actor := getUserById s (ModAction.actor_user_id action) in
  ActionView.mk action
    (match actor with Some u => User.username u | None => "deleted" end).

(** [getBookmarkCountForUser(userId)] *)
Definition getBookmarkCountForUser (s : State.t) (userId : Z) : Z :=
  Z.of_nat
    (List.length
       (filter (fun bookmark => Bookmark.user_id bookmark =? toInt userId)
          (State.bookmarks s))).

Section Queues.

(** [new Date(text).getTime()] *)
Variable getTime : string -> Z.

(** [getReports({ status = "open", page = 1, pageSize = 20 })] *)
Definition getReports (s : State.t) (status : string) (page pageSize : Z)
    : Page.t ReportView.t :=
  let filtered :=
    Js.sort
      (fun a b =>
         getTime (Report.created_at b) - getTime (Report.created_at a))
      (filter
         (fun report =>
            if (status =? "all")%string then true
            else (Report.status report =? status)%string)
         (State.reports s)) in
  let paged := paginate filtered page pageSize in
  Page.mk (map (reportView s) (Page.items paged)) (Page.total paged)
    (Page.pages paged) (Page.page paged) (Page.pageSize paged).

(** [getModerationActionsForTarget(targetType, targetId, limit = 30)] *)
Definition getModerationActionsForTarget (s : State.t) (targetType : string)
    (targetId : Z) (limit : Z) : list ActionView.t :=
  map (actionView s)
    (Js.slice
       (Js.sort
          (fun a b =>
             getTime (ModAction.created_at b)
             - getTime (ModAction.created_at a))
          (filter
             (fun item =>
                (ModAction.target_type item =? targetType)%string
                && (ModAction.target_id item =? toInt targetId))
             (State.moderation_actions s)))
       0 limit).

End Queues.

(** ** Helpers of the request handlers (server.js) *)

(** [raw.split(",")] on the characters of [raw]; [current] is the piece
    being read. *)
Fixpoint splitCommas (current : list ascii) (raw : list ascii)
    : list string :=
  match raw with
  | [] => [string_of_list_ascii (rev current)]
  | c :: rest =>
      if Ascii.eqb c "," then
        string_of_list_ascii (rev current) :: splitCommas [] rest
      else splitCommas (c :: current) rest
  end.

(** [parseTags(raw)] *)
Definition parseTags (raw : string) : list string :=
  if (raw =? "")%string then []
  else
    Js.slice
      (filter (fun item => negb (item =? "")%string)
         (map (fun item => Js.toLowerCase (Js.trim item))
            (splitCommas [] (list_ascii_of_string raw))))
      0 5.

(** The table of [relativeTime]: label and length in seconds. *)
Definition timeUnits : list (string * Z) :=
  [("y", 31536000); ("mo", 2592000); ("d", 86400); ("h", 3600); ("m", 60)].

(** [relativeTime(input)]; [value] is [new Date(input).getTime()] and [now]
    is [Date.now()]. *)
Definition relativeTime (now value : Z) : string :=
  let diffSec := Z.max 1 ((now - value) / 1000) in
  match find (fun unit => diffSec >=? snd unit) timeUnits with
  | Some unit =>
      (Js.stringOfInt (diffSec / snd unit) ++ fst unit ++ " ago")%string
  | None => "just now"
  end.

(** ** Snapshots with mistyped identifiers *)

(** A stored value as the coercions of the migrator see it: through its
    truthiness and through [Number(value)]. A value of the data model is
    [falsy] (null, 0) or [whole n] with [n] other than 0; a damaged
    snapshot may also hold a text such as "0" ([whole 0], truthy), or a
    value that is no integer at all. *)
Module Raw.
Inductive t : Type :=
| falsy
| whole (n : Z)
| other.

(** [toInt(value)]: [Number(value)] when it is an integer, 0 otherwise. *)
Definition toInt (value : t) : Z :=
  match value with
  | whole n => n
  | falsy | other => 0
  end.

(** The value of a nullable identifier of the data model. *)
Definition ofId (value : option Z) : t :=
  match value with
  | Some n => if n =? 0 then falsy else whole n
  | None => falsy
  end.
End Raw.

(** [value ? toInt(value) : null] *)
Definition coerceId (value : Raw.t) : option Z :=
  match value with
  | Raw.falsy => None
  | Raw.whole _ | Raw.other => Some (Raw.toInt value)
  end.

(** A stored comment whose [parent_comment_id] may hold any value; the
    other fields are those of [rest], whose own parent field is not read. *)
Module RawComment.
Record t : Type := mk {
  parent_comment_id : Raw.t;
  rest : Comment.t
}.
End RawComment.

(** A comment of the data model as a stored comment. *)
Definition rawComment (comment : Comment.t) : RawComment.t :=
  RawComment.mk (Raw.ofId (Comment.parent_comment_id comment)) comment.

Section RawMigrator.

Variable wall : nat -> string.

(** The first loop over the comments, on stored comments. *)
Definition normalizeRawComment (index : nat) (stored : RawComment.t)
    : Clock Comment.t :=
  let comment := RawComment.rest stored in
  created_at <- orNow wall (Comment.created_at comment) ;;
  ret
    (Comment.mk (toInt (Comment.id comment))
       (toInt (Comment.user_id comment)) (toInt (Comment.post_id comment))
       (coerceId (RawComment.parent_comment_id stored))
       (Comment.depth comment) (Comment.path comment)
       (Comment.body comment) (Comment.is_hidden comment)
       (Comment.hidden_reason comment) created_at).

(** The two loops over [state.comments], on stored comments. *)
Definition migrateRawComments (l : list RawComment.t)
    : Clock (list Comment.t) :=
  normalized <- mapClock normalizeRawComment 0 l ;;
  let commentSeen := map Comment.id normalized in
  ret (map (repairComment commentSeen) normalized).

(** [migrateState()] on a snapshot whose comments are [stored]; the other
    collections are those of [s]. *)
Definition migrateRawState (stored : list RawComment.t) (s : State.t)
    : Clock State.t :=
  let hasAdmin :=
    existsb (fun user => (User.role user =? "admin")%string)
      (State.users s) in
  users <- mapClock (migrateUser wall hasAdmin) 0 (State.users s) ;;
  let categories :=
    keepFirstSlug (fun _ => false) Category.slug []
      (mapIndexed migrateCategory 0 (State.categories s)) in
  posts <- mapClock (migratePost wall) 0 (State.posts s) ;;
  likes <- mapClock (migrateLike wall) 0 (State.likes s) ;;
  comments <- migrateRawComments stored ;;
  tags <- mapClock (migrateTag wall) 0 (State.tags s) ;;
  let post_tags := filter keepPostTag (map migratePostTag (State.post_tags s)) in
  bookmarks <- mapClock (migrateBookmark wall) 0 (State.bookmarks s) ;;
  comment_reactions <-
    mapClock (migrateReaction wall) 0 (State.comment_reactions s) ;;
  reports <- mapClock (migrateReport wall) 0 (State.reports s) ;;
  moderation_actions <-
    mapClock (migrateAction wall) 0 (State.moderation_actions s) ;;
  ret
    (State.mk SCHEMA_VERSION (State.counters s) users categories posts
       (filter keepLike likes) comments
       (keepFirstSlug (fun tag => Tag.id tag =? 0) Tag.slug [] tags)
       post_tags (filter keepBookmark bookmarks)
       (filter keepReaction comment_reactions) (filter keepReport reports)
       (filter keepAction moderation_actions)
       (orNull (State.last_rebuild_at s))).

End RawMigrator.

(** ** The path asked for by the data model *)

(** The materialized path as the data model words it: the padded ids of
    the ancestor chain, root first, ending in the comment's own id.
    [fuel] bounds the walk up the parent links. *)
Fixpoint specAncestorPath (fuel : nat) (all : list Comment.t)
    (c : Comment.t) : string :=
  match fuel with
  | O => padId (Comment.id c)
  | S k =>
      match truthyId (Comment.parent_comment_id c) with
      | Some p =>
          match find (fun x => Comment.id x =? p) all with
          | Some parent =>
              (specAncestorPath k all parent ++ "."
                 ++ padId (Comment.id c))%string
          | None => padId (Comment.id c)
          end
      | None => padId (Comment.id c)
      end
  end.

(** ** Sample data *)

Definition sampleWall (n : nat) : string := "2026-01-01T00:00:00.000Z".

Definition sampleTime (text : string) : Z := 0.

Definition sampleViewer (id : Z) (role : string) : PublicUser.t :=
  PublicUser.mk id "viewer" "viewer@example.org" "" "" "2026-01-01" role
    "active" true.

Definition sampleComment (id user_id post_id : Z) (parent : option Z)
    (depth : Z) (path : string) (is_hidden : bool) : Comment.t :=
  Comment.mk id user_id post_id parent depth path "text" is_hidden ""
    "2026-01-01T00:00:00.000Z".

(** A root comment by user 1, hidden, and a hidden reply to it by user 2. *)
Definition hiddenThread : State.t :=
  State.setComments
    [sampleComment 1 1 1 None 0 "0000000001" true;
     sampleComment 2 2 1 (Some 1) 1 "0000000001.0000000002" true]
    (State.setCounters (Counters.mk 0 0 0 0 2 0 0 0 0 0) baseState).

(** A version 1 thread of three nested comments stored without paths. *)
Definition legacyThread : State.t :=
  State.setComments
    [sampleComment 1 1 1 None 0 "" false;
     sampleComment 2 2 1 (Some 1) 1 "" false;
     sampleComment 3 1 1 (Some 2) 2 "" false]
    baseState.

Definition sampleReport (id : Z) (status : string) : Report.t :=
  Report.mk id 1 "post" 1 "spam" "" status None
    "2026-01-01T00:00:00.000Z" None.

Definition resolvedQueue : State.t :=
  State.setReports [sampleReport 1 "resolved"] baseState.

Definition openQueue : State.t :=
  State.setReports [sampleReport 1 "open"] baseState.

(** A store in which user 1 likes post 1. *)
Definition likedOnce : State.t :=
  State.setLikes [Like.mk 1 1 1 "2026-01-01T00:00:00.000Z"]
    (State.setCounters (Counters.mk 0 0 0 1 0 0 0 0 0 0) baseState).

Definition samplePost (id user_id : Z) (is_hidden : bool) : Post.t :=
  Post.mk id user_id 1 "title" "" "text" "<p>text</p>" "text" 1 "" "none"
    is_hidden "" "2026-01-01T00:00:00.000Z".

(** A visible post and a hidden one, both by user 1. *)
Definition twoPosts : State.t :=
  State.mk SCHEMA_VERSION (Counters.mk 0 0 2 0 0 0 0 0 0 0) [] []
    [samplePost 1 1 false; samplePost 2 1 true] [] [] [] [] [] [] [] [] None.

(** A version 1 snapshot: no role, no time stamps, a duplicated category,
    rows with id 0, an unknown report status and a reply to a comment that
    is not there. *)
Definition legacyStore : State.t :=
  State.mk 1 (Counters.mk 0 0 0 0 0 0 0 0 0 0)
    [User.mk 1 " Ann " "Ann@Example.ORG " "hash" "" "" "" "" "" None None
       None None None]
    [Category.mk 1 "Video" "" "" 0; Category.mk 2 "video" "" "" 0]
    [Post.mk 1 1 1 " Hello " "old  body" "" "" "" 0 "" "" false "" ""]
    [Like.mk 1 1 1 ""; Like.mk 0 1 1 ""]
    [Comment.mk 1 1 1 (Some 9) 3 "" "first" false "" ""]
    [Tag.mk 1 " Street Photo " "" ""]
    [PostTag.mk 1 1; PostTag.mk 0 1]
    [Bookmark.mk 1 1 1 ""]
    [Reaction.mk 1 1 1 "wow" ""]
    [Report.mk 1 1 "weird" 1 "" "" "unknown" (Some 0) "" (Some "")]
    [ModAction.mk 1 1 "" "" 1 "" ""]
    (Some "").

(** ** Frames *)

(** The collections other than the comments, and the counters, agree. *)
Definition sameOutsideComments (s s' : State.t) : Prop :=
  State.schema_version s' = State.schema_version s
  /\ State.counters s' = State.counters s
  /\ State.users s' = State.users s
  /\ State.categories s' = State.categories s
  /\ State.posts s' = State.posts s
  /\ State.likes s' = State.likes s
  /\ State.tags s' = State.tags s
  /\ State.post_tags s' = State.post_tags s
  /\ State.bookmarks s' = State.bookmarks s
  /\ State.comment_reactions s' = State.comment_reactions s
  /\ State.reports s' = State.reports s
  /\ State.moderation_actions s' = State.moderation_actions s
  /\ State.last_rebuild_at s' = State.last_rebuild_at s.

(** The fields of a comment other than the hidden flag and reason agree. *)
Definition sameOutsideHidden (c c' : Comment.t) : Prop :=
  Comment.id c' = Comment.id c
  /\ Comment.user_id c' = Comment.user_id c
  /\ Comment.post_id c' = Comment.post_id c
  /\ Comment.parent_comment_id c' = Comment.parent_comment_id c
  /\ Comment.depth c' = Comment.depth c
  /\ Comment.path c' = Comment.path c
  /\ Comment.body c' = Comment.body c
  /\ Comment.created_at c' = Comment.created_at c.

(** ** Pruning *)

(** The comment is hidden and the viewer may not see it. *)
Definition prunes (viewer : option PublicUser.t) (a : Comment.t) : bool :=
  Comment.is_hidden a && negb (canViewHidden viewer (Comment.user_id a)).

Definition covered (hiddenPrefixes : list string) (c : Comment.t) : bool :=
  existsb (fun prefix => Js.startsWith (Comment.path c) prefix)
    hiddenPrefixes.

(** ** Shape of a slug *)

(** Slug characters separated by single dashes; [prevDash] tells that the
    previous character was a dash. *)
Fixpoint sluggy (prevDash : bool) (l : list ascii) : bool :=
  match l with
  | [] => true
  | c :: r =>
      if notSlugChar c then isDash c && negb prevDash && sluggy true r
      else sluggy false r
  end.

(** The list is empty or starts with a character outside [p]. *)
Definition startsOutside (p : ascii -> bool) (l : list ascii) : Prop :=
  match l with
  | [] => True
  | c :: _ => p c = false
  end.

(** ** Records a loop leaves alone *)

(** The loop body [f] returns [x] as it is, without reading the clock. *)
Definition stable {A : Type} (f : nat -> A -> Clock A) (x : A) : Prop :=
  forall i m, f i x m = (x, m).

(** ** The step shared by the toggles *)

(** What [toggleLike], [toggleBookmark] and [toggleCommentReaction] do to
    their collection: the rows carrying the id of the first matching row
    are removed, or [row] is appended when no row matches. *)
Definition toggleRows {A : Type} (matches : A -> bool) (getId : A -> Z)
    (rows : list A) (row : A) : list A :=
  match find matches rows with
  | Some existing => filter (fun x => negb (getId x =? getId existing)) rows
  | None => rows ++ [row]
  end.

(** ** Identifiers and counters *)

(** The ids held by the collection of an entity. *)
Definition idsOf (e : Entity.t) (s : State.t) : list Z :=
  match e with
  | Entity.users => map User.id (State.users s)
  | Entity.categories => map Category.id (State.categories s)
  | Entity.posts => map Post.id (State.posts s)
  | Entity.likes => map Like.id (State.likes s)
  | Entity.comments => map Comment.id (State.comments s)
  | Entity.tags => map Tag.id (State.tags s)
  | Entity.bookmarks => map Bookmark.id (State.bookmarks s)
  | Entity.comment_reactions => map Reaction.id (State.comment_reactions s)
  | Entity.reports => map Report.id (State.reports s)
  | Entity.moderation_actions =>
      map ModAction.id (State.moderation_actions s)
  end.

(** No id of a collection is above the counter of its entity. *)
Definition countersCover (s : State.t) : Prop :=
  forall e id, In id (idsOf e s) -> id <= Counters.get e (State.counters s).

(** A store with two users, the second one a plain user. *)
Definition twoUsers : State.t :=
  withUsers
    [User.mk 1 "ann" "ann@example.org" "h1" "" "" "2026-01-01T00:00:00.000Z"
       "admin" "active" (Some true) None None None None;
     User.mk 2 "bob" "bob@example.org" "h2" "" "" "2026-01-02T00:00:00.000Z"
       "user" "active" (Some false) None None None None]
    (State.setCounters (Counters.mk 2 0 0 0 0 0 0 0 0 0) baseState).

(** A token hash and an expiry date for the token examples. *)
Definition sampleHash : string := "3f9a".

Definition sampleExpiry : string := "2026-02-01T00:00:00.000Z".

(** A category, a tag on post 1, and the two posts of [twoPosts] written by
    the first user of [twoUsers]. *)
Definition smallSite : State.t :=
  State.mk SCHEMA_VERSION (Counters.mk 2 1 2 0 0 1 1 0 0 0)
    (State.users twoUsers)
    [Category.mk 1 "Gear" "gear" "" 1]
    [samplePost 1 1 false; samplePost 2 1 true] [] []
    [Tag.mk 1 "drone" "drone" "2026-01-01T00:00:00.000Z"]
    [PostTag.mk 1 1]
    [Bookmark.mk 1 2 1 "2026-01-03T00:00:00.000Z"] [] [] [] None.

Definition sampleCollate (a b : string) : Z := Js.localeCompare a b.

(** ** Reaction counts *)

(** [counts[reaction_type]] for a type of the list [REACTIONS]. *)
Definition reactionCount (counts : ReactionCounts.t) (reaction_type : string)
    : Z :=
  if (reaction_type =? "like")%string then ReactionCounts.like counts
  else if (reaction_type =? "heart")%string then ReactionCounts.heart counts
  else if (reaction_type =? "fire")%string then ReactionCounts.fire counts
  else ReactionCounts.clap counts.

(** The reactions of one type stored for a comment. *)
Definition reactionsOfType (s : State.t) (commentId : Z)
    (reaction_type : string) : list Reaction.t :=
  filter
    (fun reaction =>
       (Reaction.comment_id reaction =? commentId)
       && (Reaction.reaction_type reaction =? reaction_type)%string)
    (State.comment_reactions s).

(** A like of user 2 on post 1 and a bookmark of the same post. *)
Definition likedAndSaved : State.t :=
  State.setLikes [Like.mk 1 2 1 "2026-01-03T00:00:00.000Z"]
    (State.setCounters (Counters.mk 2 1 2 1 0 1 1 0 0 0) smallSite).

(** Three reactions on comment 1: two likes and a clap. *)
Definition reactedThread : State.t :=
  State.setReactions
    [Reaction.mk 1 1 1 "like" "2026-01-03T00:00:00.000Z";
     Reaction.mk 2 1 2 "like" "2026-01-03T00:00:00.000Z";
     Reaction.mk 3 1 2 "clap" "2026-01-03T00:00:00.000Z"]
    (State.setCounters (Counters.mk 0 0 0 0 2 0 0 3 0 0) hiddenThread).

(** The comments of [hiddenThread] in the store of [twoUsers], whose first
    user is an admin. *)
Definition staffThread : State.t :=
  State.setComments (State.comments hiddenThread)
    (State.setCounters (Counters.mk 2 0 0 0 2 0 0 0 0 0) twoUsers).

(** [smallSite] after the admin has hidden post 2 and a comment. *)
Definition loggedSite : State.t :=
  withActions
    [ModAction.mk 1 1 "hide_post" "post" 2 "spam" "2026-01-05T00:00:00.000Z";
     ModAction.mk 2 1 "hide_comment" "comment" 2 ""
       "2026-01-06T00:00:00.000Z"]
    (State.setCounters (Counters.mk 2 1 2 0 0 1 1 0 0 2) smallSite).

(** ** Calls that write to the store *)

(** A call of one of the exported functions that write to the store. A
    function that reads the clock once takes the time stamp read; one that
    reads it several times takes the position of the clock. *)
Module Call.
Inductive t : Type :=
| createUser (now username email password_hash : string)
| setVerificationToken (userId : Z) (tokenHash expiresAt : string)
| verifyUserByTokenHash (now : Z) (tokenHash : string)
| setResetToken (userId : Z) (tokenHash expiresAt : string)
| resetPasswordByTokenHash (now : Z) (tokenHash passwordHash : string)
| updateUserProfile (id : Z) (bio avatar_url : string)
| updateUserRole (id : Z) (role : string)
| updateUserStatus (id : Z) (status : string)
| getOrCreateTag (clock : nat) (nameInput : string)
| setPostTags (clock : nat) (postId : Z) (tagNames : list string)
| createPost (clock : nat) (user_id category_id : Z)
    (title markdown_body rendered_html excerpt : string)
    (reading_time_minutes : Z) (media_url media_type : string)
    (tag_names : list string)
| hidePost (postId : Z) (reason : string)
| unhidePost (postId : Z)
| toggleLike (now : string) (userId postId : Z)
| toggleBookmark (now : string) (userId postId : Z)
| toggleCommentReaction (now : string) (userId commentId : Z)
    (reactionType : string)
| addComment (now : string) (user_id post_id : Z) (body : string)
    (parent_comment_id : option Z)
| hideComment (commentId : Z) (reason : string)
| unhideComment (commentId : Z)
| createReport (now : string) (reporter_user_id : Z) (target_type : string)
    (target_id : Z) (reason_code reason_text : string)
| addModerationAction (now : string) (actor_user_id : Z)
    (action_type target_type : string) (target_id : Z) (notes : string)
| assignReport (reportId moderatorId : Z)
| resolveReport (now : string) (reportId : Z) (status : string).
End Call.

Section Calls.

Variable getTime : string -> Z.
Variable wall : nat -> string.

(** The store after a call. *)
Definition applyCall (call : Call.t) (s : State.t) : State.t :=
  match call with
  | Call.createUser now username email password_hash =>
      snd (createUser now username email password_hash s)
  | Call.setVerificationToken userId tokenHash expiresAt =>
      snd (setVerificationToken userId tokenHash expiresAt s)
  | Call.verifyUserByTokenHash now tokenHash =>
      snd (verifyUserByTokenHash getTime now tokenHash s)
  | Call.setResetToken userId tokenHash expiresAt =>
      snd (setResetToken userId tokenHash expiresAt s)
  | Call.resetPasswordByTokenHash now tokenHash passwordHash =>
      snd (resetPasswordByTokenHash getTime now tokenHash passwordHash s)
  | Call.updateUserProfile id bio avatar_url =>
      snd (updateUserProfile id bio avatar_url s)
  | Call.updateUserRole id role => snd (updateUserRole id role s)
  | Call.updateUserStatus id status => snd (updateUserStatus id status s)
  | Call.getOrCreateTag clock nameInput =>
      snd (fst (getOrCreateTag wall nameInput s clock))
  | Call.setPostTags clock postId tagNames =>
      fst (setPostTags wall postId tagNames s clock)
  | Call.createPost clock user_id category_id title markdown_body
      rendered_html excerpt reading_time_minutes media_url media_type
      tag_names =>
      snd (fst (createPost wall user_id category_id title markdown_body
                  rendered_html excerpt reading_time_minutes media_url
                  media_type tag_names s clock))
  | Call.hidePost postId reason => snd (hidePost postId reason s)
  | Call.unhidePost postId => snd (unhidePost postId s)
  | Call.toggleLike now userId postId => snd (toggleLike now userId postId s)
  | Call.toggleBookmark now userId postId =>
      snd (toggleBookmark now userId postId s)
  | Call.toggleCommentReaction now userId commentId reactionType =>
      snd (toggleCommentReaction now userId commentId reactionType s)
  | Call.addComment now user_id post_id body parent_comment_id =>
      snd (addComment now user_id post_id body parent_comment_id s)
  | Call.hideComment commentId reason => snd (hideComment commentId reason s)
  | Call.unhideComment commentId => snd (unhideComment commentId s)
  | Call.createReport now reporter_user_id target_type target_id reason_code
      reason_text =>
      snd (createReport now reporter_user_id target_type target_id
             reason_code reason_text s)
  | Call.addModerationAction now actor_user_id action_type target_type
      target_id notes =>
      snd (addModerationAction now actor_user_id action_type target_type
             target_id notes s)
  | Call.assignReport reportId moderatorId =>
      snd (assignReport reportId moderatorId s)
  | Call.resolveReport now reportId status =>
      snd (resolveReport now reportId status s)
  end.

(** The store after a sequence of calls. *)
Definition applyCalls (calls : list Call.t) (s : State.t) : State.t :=
  fold_left (fun acc call => applyCall call acc) calls s.

End Calls.

(** ** Numbering *)

(** The entities whose records no function removes: all but the likes,
    the bookmarks and the reactions, which the toggles take back. *)
Definition persistent (e : Entity.t) : bool :=
  match e with
  | Entity.likes | Entity.bookmarks | Entity.comment_reactions => false
  | _ => true
  end.

(** Ids are pairwise distinct and not above the counter of their entity. *)
Definition wellNumbered (s : State.t) : Prop :=
  countersCover s /\ forall e, NoDup (idsOf e s).

(** The ids of [s'] come after the ids of [s]: no counter has gone down,
    and the ids of each collection are ids of [s] that were kept, in their
    order, followed by distinct ids handed out above the old counter. *)
Definition renumbers (s s' : State.t) : Prop :=
  forall e,
    Counters.get e (State.counters s) <= Counters.get e (State.counters s')
    /\ exists keep fresh,
         idsOf e s' = filter keep (idsOf e s) ++ fresh
         /\ NoDup fresh
         /\ Forall
              (fun id =>
                 Counters.get e (State.counters s) < id
                 <= Counters.get e (State.counters s')) fresh
         /\ (persistent e = true -> forall id, keep id = true).

(** [s'] follows [s]: the ids come after the ids of [s], and the
    moderation log of [s] is the beginning of the log of [s']. *)
Definition follows (s s' : State.t) : Prop :=
  renumbers s s'
  /\ exists more,
       State.moderation_actions s' = State.moderation_actions s ++ more.

(** ** Safe integers *)

(** [Number.MAX_SAFE_INTEGER], 2^53 - 1. *)
Definition MAX_SAFE_INTEGER : Z := 9007199254740991.

(** [Number.isSafeInteger(n)]. The source adds on doubles: for a safe
    [n] its [n + 1] is the integer [n + 1] of this development, while from
    2^53 on the sum of the source is rounded ([2^53 + 1] is [2^53]). The
    properties that need a fresh id ask for safe counters. *)
Definition isSafeInteger (n : Z) : Prop :=
  - MAX_SAFE_INTEGER <= n <= MAX_SAFE_INTEGER.

(** No counter of [s'] is more than [k] above the counter of [s]. *)
Definition bumps (k : Z) (s s' : State.t) : Prop :=
  forall e,
    Counters.get e (State.counters s')
    <= Counters.get e (State.counters s) + k.

(** [smallSite] with a like of user 2 on each post, the second of which is
    hidden. *)
Definition likedHidden : State.t :=
  State.setLikes
    [Like.mk 1 2 1 "2026-01-03T00:00:00.000Z";
     Like.mk 2 2 2 "2026-01-03T00:00:00.000Z"]
    (State.setCounters (Counters.mk 2 1 2 2 0 1 1 0 0 0) smallSite).

(** * Properties *)

(** ** Lists *)

Lemma find_split {A : Type} (p : A -> bool) (l : list A) (x : A) :
  find p l = Some x ->
  exists before after,
    l = before ++ x :: after /\ p x = true
    /\ Forall (fun y => p y = false) before.
Proof.
  induction l as [|y r IH]; simpl; [discriminate|].
  destruct (p y) eqn:Hy.
  - intros [= ->]. exists [], r. repeat split; auto.
  - intros H. destruct (IH H) as (b & a & -> & Hx & Hb).
    exists (y :: b), a. repeat split; auto.
Qed.

Lemma updateFirst_split {A : Type} (p : A -> bool) (f : A -> A)
    (before after : list A) (x : A) :
  Forall (fun y => p y = false) before -> p x = true ->
  updateFirst p f (before ++ x :: after) = before ++ f x :: after.
Proof.
  induction 1 as [|y r Hy _ IH]; simpl; intros Hx.
  - now rewrite Hx.
  - rewrite Hy. now rewrite IH.
Qed.

Lemma updateFirst_none {A : Type} (p : A -> bool) (f : A -> A) (l : list A) :
  find p l = None -> updateFirst p f l = l.
Proof.
  induction l as [|y r IH]; simpl; auto.
  destruct (p y); [discriminate|]. intros H. now rewrite IH.
Qed.

Lemma updateFirst_nth {A : Type} (p : A -> bool) (f : A -> A) (l : list A)
    (i : nat) (x : A) :
  nth_error l i = Some x ->
  nth_error (updateFirst p f l) i = Some x
  \/ nth_error (updateFirst p f l) i = Some (f x).
Proof.
  revert i. induction l as [|y r IH]; intros [|i]; simpl; try discriminate.
  - intros [= ->]. destruct (p x); auto.
  - intros H. destruct (p y); simpl; auto.
Qed.

Lemma In_insertSorted {A : Type} (cmp : A -> A -> Z) (x y : A) (l : list A) :
  In y (Js.insertSorted cmp x l) <-> y = x \/ In y l.
Proof.
  induction l as [|z r IH]; simpl.
  - intuition.
  - destruct (cmp x z <=? 0); simpl; [intuition|]. rewrite IH. intuition.
Qed.

Lemma In_sort {A : Type} (cmp : A -> A -> Z) (y : A) (l : list A) :
  In y (Js.sort cmp l) <-> In y l.
Proof.
  induction l as [|x r IH]; simpl; [tauto|].
  rewrite In_insertSorted, IH. intuition.
Qed.

Lemma In_firstn_skipn {A : Type} (l : list A) (n m : nat) (y : A) :
  In y (firstn n (skipn m l)) -> In y l.
Proof.
  intros H. rewrite <- (firstn_skipn m l). apply in_or_app. right.
  rewrite <- (firstn_skipn n (skipn m l)). apply in_or_app. now left.
Qed.

Lemma In_slice {A : Type} (l : list A) (start stop : Z) (y : A) :
  In y (Js.slice l start stop) -> In y l.
Proof. unfold Js.slice. apply In_firstn_skipn. Qed.

Lemma length_slice {A : Type} (l : list A) (start size : Z) :
  0 <= start -> 0 <= size ->
  Z.of_nat (List.length (Js.slice l start (start + size))) <= size.
Proof.
  intros Hs Hz. unfold Js.slice.
  destruct (start <? 0) eqn:E1; [apply Z.ltb_lt in E1; lia|].
  destruct (start + size <? 0) eqn:E2; [apply Z.ltb_lt in E2; lia|].
  rewrite length_firstn. lia.
Qed.

(** ** Pagination *)

Lemma ceilDiv_spec (total size : Z) :
  1 <= size ->
  (ceilDiv total size - 1) * size < total <= ceilDiv total size * size.
Proof.
  intros Hs. unfold ceilDiv.
  pose proof (Z.div_mod (total + size - 1) size ltac:(lia)) as Hd.
  pose proof (Z.mod_pos_bound (total + size - 1) size ltac:(lia)) as Hm.
  nia.
Qed.

(** C5. For every list and all integers [page] and [pageSize], [paginate]
    works with a page size in [1, 30] (the requested one clamped, 0 standing
    for the default 10) and a page equal to the requested one clamped into
    [1, pages], where [pages] is [max 1 (ceil (total / pageSize))]; the
    slice returned holds at most [pageSize] items and
    [1 <= page <= pages]. *)
Theorem paginate_bounds {A : Type} (items : list A) (page pageSize : Z) :
  let r := paginate items page pageSize in
  Page.pageSize r
  = Z.min (Z.max (if pageSize =? 0 then 10 else pageSize) 1) 30
  /\ 1 <= Page.pageSize r <= 30
  /\ Page.total r = Z.of_nat (List.length items)
  /\ Page.pages r = Z.max 1 (ceilDiv (Page.total r) (Page.pageSize r))
  /\ (ceilDiv (Page.total r) (Page.pageSize r) - 1) * Page.pageSize r
     < Page.total r
     <= ceilDiv (Page.total r) (Page.pageSize r) * Page.pageSize r
  /\ Page.page r = Z.min (Z.max page 1) (Page.pages r)
  /\ 1 <= Page.page r <= Page.pages r
  /\ Page.items r
     = firstn (Z.to_nat (Page.pageSize r))
         (skipn (Z.to_nat ((Page.page r - 1) * Page.pageSize r)) items)
  /\ 0 <= Z.of_nat (List.length (Page.items r)) <= Page.pageSize r.
Proof.
  cbv zeta. unfold paginate. cbn [Page.pageSize Page.total Page.pages
    Page.page Page.items]. unfold orInt, MAX_PAGE_SIZE.
  set (size := Z.min (Z.max (if pageSize =? 0 then 10 else pageSize) 1) 30).
  set (total := Z.of_nat (List.length items)).
  set (pages := Z.max 1 (ceilDiv total size)).
  set (safePage := Z.min (Z.max (if page =? 0 then 1 else page) 1) pages).
  assert (Hsize : 1 <= size <= 30) by (unfold size; lia).
  assert (Hpage : 1 <= safePage <= pages) by (unfold safePage, pages; lia).
  assert (Hclamp : safePage = Z.min (Z.max page 1) pages).
  { unfold safePage. destruct (Z.eqb_spec page 0); lia. }
  pose proof (ceilDiv_spec total size ltac:(lia)) as Hceil.
  repeat split; try lia.
  - unfold Js.slice. fold total.
    destruct ((safePage - 1) * size <? 0) eqn:E1;
      [apply Z.ltb_lt in E1; nia|].
    destruct ((safePage - 1) * size + size <? 0) eqn:E2;
      [apply Z.ltb_lt in E2; nia|].
    assert (Hstart : (safePage - 1) * size <= total).
    { unfold pages in Hpage. nia. }
    rewrite (Z.min_l _ _ Hstart).
    set (start := (safePage - 1) * size) in *.
    destruct (Z.le_gt_cases (start + size) total) as [Hle|Hgt].
    + rewrite Z.min_l by lia. f_equal. lia.
    + rewrite Z.min_r by lia.
      rewrite !firstn_all2; auto; rewrite length_skipn; lia.
  - apply length_slice; nia.
Qed.

(** ** Creating comments *)

Lemma nextId_comments (s : State.t) :
  nextId Entity.comments s
  = (Counters.comments (State.counters s) + 1,
     State.setCounters
       (Counters.set Entity.comments
          (Counters.comments (State.counters s) + 1) (State.counters s)) s).
Proof.
  unfold nextId, orInt, toInt. cbn [Counters.get].
  now destruct (Counters.comments (State.counters s) =? 0) eqn:E;
    [apply Z.eqb_eq in E; rewrite E|].
Qed.

(** C6. A reply whose parent exists and belongs to the same post is
    created with [path = parent.path + "." + padId(id)] and
    [depth = parent.depth + 1]; a comment created without parent has
    [path = padId(id)] and [depth = 0]. In both cases the call succeeds,
    the id is the bumped counter and the comment is appended. *)
Theorem addComment_path_depth (now : string) (user_id post_id : Z)
    (body : string) (s : State.t) :
  (forall (parentId : Z) (parent : Comment.t),
      parentId <> 0 ->
      getCommentRawById s parentId = Some parent ->
      Comment.post_id parent = post_id ->
      exists child s',
        addComment now user_id post_id body (Some parentId) s
        = (Some child, s')
        /\ Comment.id child = Counters.comments (State.counters s) + 1
        /\ Comment.path child
           = (Comment.path parent ++ "." ++ padId (Comment.id child))%string
        /\ Comment.depth child = Comment.depth parent + 1
        /\ Comment.parent_comment_id child = Some (Comment.id parent)
        /\ State.comments s' = State.comments s ++ [child])
  /\ (exists child s',
        addComment now user_id post_id body None s = (Some child, s')
        /\ Comment.id child = Counters.comments (State.counters s) + 1
        /\ Comment.path child = padId (Comment.id child)
        /\ Comment.depth child = 0
        /\ Comment.parent_comment_id child = None
        /\ State.comments s' = State.comments s ++ [child]).
Proof.
  split.
  - intros parentId parent Hnz Hfind Hpost.
    unfold addComment. cbn [truthyId].
    destruct (Z.eqb_spec parentId 0) as [|_]; [contradiction|].
    rewrite Hfind, Hpost. unfold toInt at 1. rewrite Z.eqb_refl.
    cbn [negb]. rewrite nextId_comments.
    eexists _, _. split; [reflexivity|]. cbn.
    repeat split. unfold orInt.
    destruct (Z.eqb_spec (Comment.depth parent) 0) as [->|]; reflexivity.
  - unfold addComment. cbn [truthyId]. rewrite nextId_comments.
    eexists _, _. split; [reflexivity|]. cbn. repeat split.
Qed.

(** A reply to a comment of another post is refused and nothing changes. *)
Lemma addComment_foreign_parent (now : string) (user_id post_id : Z)
    (body : string) (parentId : Z) (parent : Comment.t) (s : State.t) :
  parentId <> 0 ->
  getCommentRawById s parentId = Some parent ->
  Comment.post_id parent <> post_id ->
  addComment now user_id post_id body (Some parentId) s = (None, s).
Proof.
  intros Hnz Hfind Hpost. unfold addComment. cbn [truthyId].
  destruct (Z.eqb_spec parentId 0) as [|_]; [contradiction|].
  rewrite Hfind. unfold toInt.
  destruct (Z.eqb_spec (Comment.post_id parent) post_id); [contradiction|].
  reflexivity.
Qed.

(** C2, at the input where the code departs from it. A reply to comment 55
    in a store without comments is not refused: [addComment] returns a new
    root comment, appends it and bumps the counter. *)
Theorem addComment_missing_parent_creates_root :
  getCommentRawById baseState 55 = None
  /\ addComment "2026-01-01T00:00:00.000Z" 7 1 "hello" (Some 55) baseState
     = (Some
          (Comment.mk 1 7 1 None 0 "0000000001" "hello" false ""
             "2026-01-01T00:00:00.000Z"),
        State.setComments
          [Comment.mk 1 7 1 None 0 "0000000001" "hello" false ""
             "2026-01-01T00:00:00.000Z"]
          (State.setCounters (Counters.mk 0 0 0 0 1 0 0 0 0 0) baseState)).
Proof. split; reflexivity. Qed.

(** ** Hiding comments *)

Lemma setHidden_frame (flag : bool) (reason : string) (c : Comment.t) :
  sameOutsideHidden c (setHidden flag reason c)
  /\ Comment.is_hidden (setHidden flag reason c) = flag
  /\ Comment.hidden_reason (setHidden flag reason c) = reason.
Proof. unfold sameOutsideHidden. cbn. repeat split. Qed.

Lemma setComments_frame (l : list Comment.t) (s : State.t) :
  sameOutsideComments s (State.setComments l s)
  /\ State.comments (State.setComments l s) = l.
Proof. unfold sameOutsideComments. cbn. repeat split. Qed.

(** C9. For a comment that exists, [hideComment] and [unhideComment]
    replace the first comment of that id by one that differs from it in
    [is_hidden] and [hidden_reason] only; the comments before and after it
    and every other collection and the counters stay as they were. *)
Theorem hide_unhide_comment_frame (s : State.t) (commentId : Z)
    (reason : string) (c : Comment.t) :
  getCommentRawById s commentId = Some c ->
  exists before after hiddenC shownC sh su,
    State.comments s = before ++ c :: after
    /\ Forall (fun x => Comment.id x <> commentId) before
    /\ hideComment commentId reason s = (Some hiddenC, sh)
    /\ unhideComment commentId s = (Some shownC, su)
    /\ State.comments sh = before ++ hiddenC :: after
    /\ State.comments su = before ++ shownC :: after
    /\ sameOutsideHidden c hiddenC /\ sameOutsideHidden c shownC
    /\ Comment.is_hidden hiddenC = true
    /\ Comment.hidden_reason hiddenC = reason
    /\ Comment.is_hidden shownC = false
    /\ Comment.hidden_reason shownC = ""
    /\ sameOutsideComments s sh /\ sameOutsideComments s su.
Proof.
  intros Hfind. unfold hideComment, unhideComment. rewrite Hfind.
  unfold getCommentRawById in Hfind.
  destruct (find_split _ _ _ Hfind) as (before & after & Hl & Hc & Hb).
  exists before, after, (setHidden true reason c), (setHidden false "" c).
  eexists _, _.
  assert (Hb' : Forall (fun y => isComment commentId y = false) before)
    by exact Hb.
  split; [exact Hl|]. split.
  { eapply Forall_impl; [|exact Hb]. intros x Hx Heq. cbn in Hx.
    unfold toInt in Hx. rewrite Heq, Z.eqb_refl in Hx. discriminate. }
  split; [reflexivity|]. split; [reflexivity|].
  rewrite Hl.
  rewrite !(updateFirst_split (isComment commentId)) by assumption.
  pose proof (setHidden_frame true reason c) as (H1 & H2 & H3).
  pose proof (setHidden_frame false "" c) as (H4 & H5 & H6).
  repeat split; try assumption; try apply setComments_frame;
    try apply H1; try apply H4.
Qed.

(** ** The report life cycle *)

Lemma find_updateFirst {A : Type} (p : A -> bool) (f : A -> A) (l : list A)
    (x : A) :
  find p l = Some x -> p (f x) = true ->
  find p (updateFirst p f l) = Some (f x).
Proof.
  induction l as [|y r IH]; simpl; [discriminate|].
  destruct (p y) eqn:Hy.
  - intros [= ->] Hf. simpl. now rewrite Hf.
  - intros H Hf. simpl. rewrite Hy. now apply IH.
Qed.

Lemma statusRank_assigned (moderatorId : Z) (r : Report.t) :
  (statusRank (Report.status r)
   <= statusRank (Report.status (assigned moderatorId r)))%nat.
Proof.
  cbn. destruct (String.eqb_spec (Report.status r) "open") as [->|];
    [cbn; lia|lia].
Qed.

Lemma statusRank_le_2 (status : string) : (statusRank status <= 2)%nat.
Proof.
  unfold statusRank.
  destruct (status =? "in_review")%string;
    destruct ((status =? "resolved")%string || (status =? "dismissed")%string);
    lia.
Qed.

Lemma statusRank_closed (status : string) :
  statusRank status = 2%nat <-> status = "resolved" \/ status = "dismissed".
Proof.
  unfold statusRank.
  destruct (String.eqb_spec status "in_review") as [->|]; cbn.
  - split; [discriminate|intros [H|H]; discriminate].
  - destruct (String.eqb_spec status "resolved");
      destruct (String.eqb_spec status "dismissed"); cbn;
      split; auto; try discriminate; tauto.
Qed.

Lemma includes_closed (status : string) :
  includes ["resolved"; "dismissed"] status = true
  <-> status = "resolved" \/ status = "dismissed".
Proof.
  unfold includes. cbn.
  destruct (String.eqb_spec status "resolved");
    destruct (String.eqb_spec status "dismissed"); cbn;
    split; auto; try discriminate; tauto.
Qed.

Lemma runCall_rank (call : ReportCall) (s : State.t) (i : nat)
    (r : Report.t) :
  nth_error (State.reports s) i = Some r ->
  exists r',
    nth_error (State.reports (runCall call s)) i = Some r'
    /\ Report.id r' = Report.id r
    /\ (statusRank (Report.status r)
        <= statusRank (Report.status r'))%nat.
Proof.
  intros Hi. destruct call as [reportId moderatorId|now reportId status].
  - cbn [runCall]. unfold assignReport.
    destruct (getReportById s reportId); cbn [snd]; [|eauto].
    cbn [State.reports State.setReports].
    destruct (updateFirst_nth (isReport reportId) (assigned moderatorId)
                _ _ _ Hi) as [H|H]; rewrite H; eexists; split; eauto.
    split; [reflexivity|apply statusRank_assigned].
  - cbn [runCall]. unfold resolveReport.
    destruct (getReportById s reportId); cbn [snd]; [|eauto].
    destruct (includes ["resolved"; "dismissed"] status) eqn:Hin;
      cbn [negb snd]; [|eauto].
    cbn [State.reports State.setReports].
    destruct (updateFirst_nth (isReport reportId) (resolved now status)
                _ _ _ Hi) as [H|H]; rewrite H; eexists; split; eauto.
    split; [reflexivity|]. cbn.
    apply includes_closed, statusRank_closed in Hin. rewrite Hin.
    apply statusRank_le_2.
Qed.

Lemma runCalls_rank (calls : list ReportCall) (s : State.t) (i : nat)
    (r : Report.t) :
  nth_error (State.reports s) i = Some r ->
  exists r',
    nth_error (State.reports (runCalls calls s)) i = Some r'
    /\ Report.id r' = Report.id r
    /\ (statusRank (Report.status r)
        <= statusRank (Report.status r'))%nat.
Proof.
  revert s r. induction calls as [|call rest IH]; intros s r Hi.
  - exists r. cbn. auto.
  - destruct (runCall_rank call s i r Hi) as (r1 & H1 & Hid1 & Hr1).
    destruct (IH _ _ H1) as (r2 & H2 & Hid2 & Hr2).
    exists r2. cbn. split; [exact H2|]. split; [congruence|lia].
Qed.

(** C3, as the code has it. [assignReport] turns an open report into
    in_review and leaves any other status alone; [resolveReport] accepts the
    targets resolved and dismissed only, from any current status, writes the
    target and stamps [resolved_at]; any other target is refused and the
    state is unchanged; and along every sequence of calls the status of a
    report never moves back in open, in_review, closed: a report that is
    resolved or dismissed stays resolved or dismissed. *)
Theorem report_status_never_regresses :
  (forall (reportId moderatorId : Z) (s : State.t) (r : Report.t),
      getReportById s reportId = Some r ->
      exists r' s',
        assignReport reportId moderatorId s = (Some r', s')
        /\ getReportById s' reportId = Some r'
        /\ Report.status r'
           = (if (Report.status r =? "open")%string then "in_review"
              else Report.status r))
  /\ (forall (now : string) (reportId : Z) (status : string) (s : State.t)
        (r : Report.t),
        getReportById s reportId = Some r ->
        status = "resolved" \/ status = "dismissed" ->
        exists r' s',
          resolveReport now reportId status s = (Some r', s')
          /\ getReportById s' reportId = Some r'
          /\ Report.status r' = status
          /\ Report.resolved_at r' = Some now)
  /\ (forall (now : string) (reportId : Z) (status : string) (s : State.t),
        status <> "resolved" -> status <> "dismissed" ->
        resolveReport now reportId status s = (None, s))
  /\ (forall (calls : list ReportCall) (s : State.t) (i : nat)
        (r : Report.t),
        nth_error (State.reports s) i = Some r ->
        exists r',
          nth_error (State.reports (runCalls calls s)) i = Some r'
          /\ Report.id r' = Report.id r
          /\ (statusRank (Report.status r)
              <= statusRank (Report.status r'))%nat
          /\ (Report.status r = "resolved" \/ Report.status r = "dismissed" ->
              Report.status r' = "resolved"
              \/ Report.status r' = "dismissed")).
Proof.
  split; [|split; [|split]].
  - intros reportId moderatorId s r Hfind. unfold assignReport.
    rewrite Hfind. eexists _, _. split; [reflexivity|]. split.
    + cbn. apply find_updateFirst; [exact Hfind|]. cbn.
      unfold getReportById in Hfind. apply find_some in Hfind. tauto.
    + reflexivity.
  - intros now reportId status s r Hfind Hst. unfold resolveReport.
    rewrite Hfind. apply includes_closed in Hst. rewrite Hst. cbn [negb].
    eexists _, _. split; [reflexivity|]. split.
    + cbn. apply find_updateFirst; [exact Hfind|]. cbn.
      unfold getReportById in Hfind. apply find_some in Hfind. tauto.
    + split; reflexivity.
  - intros now reportId status s H1 H2. unfold resolveReport.
    destruct (getReportById s reportId); [|reflexivity].
    destruct (includes ["resolved"; "dismissed"] status) eqn:Hin;
      [|reflexivity].
    apply includes_closed in Hin. tauto.
  - intros calls s i r Hi.
    destruct (runCalls_rank calls s i r Hi) as (r' & H1 & H2 & H3).
    exists r'. repeat split; auto.
    intros Hc. apply statusRank_closed. apply statusRank_closed in Hc.
    pose proof (statusRank_le_2 (Report.status r')). lia.
Qed.

(** The life cycle on a queue of one report. *)
Lemma report_status_never_regresses_witness :
  (exists r' s',
      assignReport 1 9 openQueue = (Some r', s')
      /\ getReportById s' 1 = Some r'
      /\ Report.status r' = "in_review")
  /\ (exists r' s',
        resolveReport "2026-01-02T00:00:00.000Z" 1 "dismissed" openQueue
        = (Some r', s')
        /\ getReportById s' 1 = Some r'
        /\ Report.status r' = "dismissed"
        /\ Report.resolved_at r' = Some "2026-01-02T00:00:00.000Z")
  /\ resolveReport "2026-01-02T00:00:00.000Z" 1 "open" resolvedQueue
     = (None, resolvedQueue)
  /\ (exists r',
        nth_error
          (State.reports
             (runCalls
                [Assign 1 9; Resolve "2026-01-02T00:00:00.000Z" 1 "open";
                 Resolve "2026-01-03T00:00:00.000Z" 1 "dismissed"]
                resolvedQueue)) 0
        = Some r'
        /\ Report.id r' = 1
        /\ (2 <= statusRank (Report.status r'))%nat
        /\ (Report.status r' = "resolved"
            \/ Report.status r' = "dismissed")).
Proof.
  destruct report_status_never_regresses as (Hassign & Hres & Hrej & Hrun).
  split; [|split; [|split]].
  - exact (Hassign 1 9 openQueue (sampleReport 1 "open") eq_refl).
  - exact (Hres "2026-01-02T00:00:00.000Z" 1 "dismissed" openQueue
             (sampleReport 1 "open") eq_refl (or_intror eq_refl)).
  - apply Hrej; discriminate.
  - destruct (Hrun
                [Assign 1 9; Resolve "2026-01-02T00:00:00.000Z" 1 "open";
                 Resolve "2026-01-03T00:00:00.000Z" 1 "dismissed"]
                resolvedQueue 0%nat (sampleReport 1 "resolved") eq_refl)
      as (r' & H1 & H2 & H3 & H4).
    exists r'. split; [exact H1|]. split; [exact H2|]. split; [exact H3|].
    apply H4. left. reflexivity.
Defined.

(** C3 as stated fails: a report that has reached resolved changes status
    again when [resolveReport] is called with dismissed. *)
Lemma resolved_report_redismissed :
  ~ (forall (now : string) (reportId : Z) (status : string) (s : State.t)
       (r r' : Report.t),
       getReportById s reportId = Some r ->
       Report.status r = "resolved" \/ Report.status r = "dismissed" ->
       getReportById (snd (resolveReport now reportId status s)) reportId
       = Some r' ->
       Report.status r' = Report.status r).
Proof.
  intros H.
  specialize (H "2026-01-02T00:00:00.000Z" 1 "dismissed" resolvedQueue
                (sampleReport 1 "resolved")
                (resolved "2026-01-02T00:00:00.000Z" "dismissed"
                   (sampleReport 1 "resolved"))
                eq_refl (or_introl eq_refl) eq_refl).
  discriminate H.
Qed.

(** ** Toggles *)

Section ToggleRows.

Context {A : Type}.
Variable matches : A -> bool.
Variable getId : A -> Z.

Lemma find_none_filter (l : list A) :
  find matches l = None -> filter matches l = [].
Proof.
  induction l as [|x r IH]; simpl; auto.
  destruct (matches x); [discriminate|auto].
Qed.

Lemma existsb_filter (l : list A) :
  existsb matches l = negb (Nat.eqb (List.length (filter matches l)) 0).
Proof.
  induction l as [|x r IH]; simpl; auto.
  destruct (matches x); simpl; auto.
Qed.

Lemma filter_nil_sub (keep : A -> bool) (l : list A) :
  filter matches l = [] -> filter matches (filter keep l) = [].
Proof.
  induction l as [|x r IH]; simpl; auto.
  destruct (matches x) eqn:Hx; [discriminate|].
  intros H. destruct (keep x); simpl; [rewrite Hx|]; auto.
Qed.

(** Removing the rows that carry the id of the row found leaves no
    matching row, when at most one row matched. *)
Lemma filter_removed (l : list A) (existing : A) :
  find matches l = Some existing ->
  (List.length (filter matches l) <= 1)%nat ->
  filter matches
    (filter (fun x => negb (getId x =? getId existing)) l) = [].
Proof.
  induction l as [|x r IH]; simpl; [discriminate|].
  destruct (matches x) eqn:Hx.
  - intros [= ->] Hlen. rewrite Z.eqb_refl. cbn [negb].
    apply filter_nil_sub. simpl in Hlen.
    destruct (filter matches r); [reflexivity|simpl in Hlen; lia].
  - intros Hfind Hlen.
    destruct (negb (getId x =? getId existing)); simpl;
      [rewrite Hx|]; auto.
Qed.

(** Appending a matching row where none matched gives exactly one. *)
Lemma filter_added (l : list A) (row : A) :
  find matches l = None -> matches row = true ->
  filter matches (l ++ [row]) = [row]
  /\ find matches (l ++ [row]) = Some row.
Proof.
  intros Hnone Hrow. split.
  - rewrite filter_app, (find_none_filter _ Hnone). simpl. now rewrite Hrow.
  - induction l as [|x r IH]; simpl in *; [now rewrite Hrow|].
    destruct (matches x); [discriminate|auto].
Qed.

Lemma toggleRows_flip (l : list A) (row : A) :
  matches row = true ->
  (List.length (filter matches l) <= 1)%nat ->
  existsb matches (toggleRows matches getId l row)
  = negb (existsb matches l)
  /\ (List.length (filter matches (toggleRows matches getId l row))
      <= 1)%nat.
Proof.
  intros Hrow Hlen. unfold toggleRows. rewrite !existsb_filter.
  destruct (find matches l) as [existing|] eqn:Hfind.
  - rewrite (filter_removed _ _ Hfind Hlen).
    apply find_some in Hfind. destruct Hfind as [Hin Hm].
    assert (Hex : In existing (filter matches l))
      by (apply filter_In; auto).
    destruct (filter matches l); [destruct Hex|]. cbn. split; [auto|lia].
  - destruct (filter_added l row Hfind Hrow) as [Hf _].
    rewrite Hf, (find_none_filter _ Hfind). cbn. split; [auto|lia].
Qed.

End ToggleRows.

Lemma likes_toggleLike (now : string) (userId postId : Z) (s : State.t) :
  State.likes (snd (toggleLike now userId postId s))
  = toggleRows (likeMatches userId postId) Like.id (State.likes s)
      (Like.mk (Counters.likes (State.counters s) + 1) userId postId now).
Proof.
  unfold toggleLike, toggleRows, nextId, orInt, toInt.
  cbn [Counters.get].
  destruct (find (likeMatches userId postId) (State.likes s));
    [reflexivity|].
  destruct (Z.eqb_spec (Counters.likes (State.counters s)) 0) as [->|];
    reflexivity.
Qed.

Lemma bookmarks_toggleBookmark (now : string) (userId postId : Z)
    (s : State.t) :
  State.bookmarks (snd (toggleBookmark now userId postId s))
  = toggleRows (bookmarkMatches userId postId) Bookmark.id
      (State.bookmarks s)
      (Bookmark.mk (Counters.bookmarks (State.counters s) + 1) userId postId
         now).
Proof.
  unfold toggleBookmark, toggleRows, nextId, orInt, toInt.
  cbn [Counters.get].
  destruct (find (bookmarkMatches userId postId) (State.bookmarks s));
    [reflexivity|].
  destruct (Z.eqb_spec (Counters.bookmarks (State.counters s)) 0) as [->|];
    reflexivity.
Qed.

Lemma reactions_toggleCommentReaction (now : string) (userId commentId : Z)
    (reactionType : string) (s : State.t) :
  State.comment_reactions
    (snd (toggleCommentReaction now userId commentId reactionType s))
  = if isReaction reactionType
    then
      toggleRows (reactionMatches userId commentId reactionType) Reaction.id
        (State.comment_reactions s)
        (Reaction.mk (Counters.comment_reactions (State.counters s) + 1)
           commentId userId reactionType now)
    else State.comment_reactions s.
Proof.
  unfold toggleCommentReaction, toggleRows, nextId, orInt, toInt.
  cbn [Counters.get].
  destruct (isReaction reactionType); [|reflexivity]. cbn [negb].
  destruct (find (reactionMatches userId commentId reactionType)
              (State.comment_reactions s)); [reflexivity|].
  destruct (Z.eqb_spec (Counters.comment_reactions (State.counters s)) 0)
    as [->|]; reflexivity.
Qed.

(** C8. In a state that holds at most one row for the pair (user, target),
    a toggle flips the presence of the row, a second toggle restores it,
    and after each of them at most one such row exists. This holds for
    likes, for bookmarks and for the reactions of a given type; a reaction
    type outside the list leaves the state as it is. *)
Theorem toggle_twice_restores (now1 now2 : string) (userId targetId : Z)
    (reactionType : string) (s : State.t) :
  ((List.length (filter (likeMatches userId targetId) (State.likes s))
    <= 1)%nat ->
   let s1 := snd (toggleLike now1 userId targetId s) in
   let s2 := snd (toggleLike now2 userId targetId s1) in
   hasLike s1 userId targetId = negb (hasLike s userId targetId)
   /\ hasLike s2 userId targetId = hasLike s userId targetId
   /\ (List.length (filter (likeMatches userId targetId) (State.likes s1))
       <= 1)%nat
   /\ (List.length (filter (likeMatches userId targetId) (State.likes s2))
       <= 1)%nat)
  /\ ((List.length
         (filter (bookmarkMatches userId targetId) (State.bookmarks s))
       <= 1)%nat ->
      let s1 := snd (toggleBookmark now1 userId targetId s) in
      let s2 := snd (toggleBookmark now2 userId targetId s1) in
      hasBookmark s1 userId targetId = negb (hasBookmark s userId targetId)
      /\ hasBookmark s2 userId targetId = hasBookmark s userId targetId
      /\ (List.length
            (filter (bookmarkMatches userId targetId) (State.bookmarks s1))
          <= 1)%nat
      /\ (List.length
            (filter (bookmarkMatches userId targetId) (State.bookmarks s2))
          <= 1)%nat)
  /\ ((List.length
         (filter (reactionMatches userId targetId reactionType)
            (State.comment_reactions s))
       <= 1)%nat ->
      let s1 :=
        snd (toggleCommentReaction now1 userId targetId reactionType s) in
      let s2 :=
        snd (toggleCommentReaction now2 userId targetId reactionType s1) in
      hasReaction s1 userId targetId reactionType
      = (if isReaction reactionType
         then negb (hasReaction s userId targetId reactionType)
         else hasReaction s userId targetId reactionType)
      /\ hasReaction s2 userId targetId reactionType
         = hasReaction s userId targetId reactionType
      /\ (List.length
            (filter (reactionMatches userId targetId reactionType)
               (State.comment_reactions s1))
          <= 1)%nat
      /\ (List.length
            (filter (reactionMatches userId targetId reactionType)
               (State.comment_reactions s2))
          <= 1)%nat).
Proof.
  split; [|split].
  - intros Hlen. cbv zeta. unfold hasLike. rewrite !likes_toggleLike.
    set (m := likeMatches userId targetId).
    assert (Hm : forall id now, m (Like.mk id userId targetId now) = true).
    { intros. unfold m, likeMatches, toInt. cbn. now rewrite !Z.eqb_refl. }
    destruct (toggleRows_flip m Like.id (State.likes s) _
                (Hm (Counters.likes (State.counters s) + 1) now1) Hlen)
      as [H1 L1].
    match goal with
    | |- context [toggleRows m Like.id (toggleRows m Like.id ?l ?r) ?r2] =>
        destruct (toggleRows_flip m Like.id (toggleRows m Like.id l r) r2
                    (Hm _ _) L1) as [H2 L2]
    end.
    rewrite H2, H1, negb_involutive. auto.
  - intros Hlen. cbv zeta. unfold hasBookmark.
    rewrite !bookmarks_toggleBookmark.
    set (m := bookmarkMatches userId targetId).
    assert (Hm : forall id now,
               m (Bookmark.mk id userId targetId now) = true).
    { intros. unfold m, bookmarkMatches, toInt. cbn.
      now rewrite !Z.eqb_refl. }
    destruct (toggleRows_flip m Bookmark.id (State.bookmarks s) _
                (Hm (Counters.bookmarks (State.counters s) + 1) now1) Hlen)
      as [H1 L1].
    match goal with
    | |- context [toggleRows m Bookmark.id
                    (toggleRows m Bookmark.id ?l ?r) ?r2] =>
        destruct (toggleRows_flip m Bookmark.id
                    (toggleRows m Bookmark.id l r) r2 (Hm _ _) L1)
          as [H2 L2]
    end.
    rewrite H2, H1, negb_involutive. auto.
  - intros Hlen. cbv zeta. unfold hasReaction.
    rewrite !reactions_toggleCommentReaction.
    destruct (isReaction reactionType); [|auto].
    set (m := reactionMatches userId targetId reactionType).
    assert (Hm : forall id now,
               m (Reaction.mk id targetId userId reactionType now) = true).
    { intros. unfold m, reactionMatches, toInt. cbn.
      now rewrite !Z.eqb_refl, String.eqb_refl. }
    destruct (toggleRows_flip m Reaction.id (State.comment_reactions s) _
                (Hm (Counters.comment_reactions (State.counters s) + 1) now1)
                Hlen) as [H1 L1].
    match goal with
    | |- context [toggleRows m Reaction.id
                    (toggleRows m Reaction.id ?l ?r) ?r2] =>
        destruct (toggleRows_flip m Reaction.id
                    (toggleRows m Reaction.id l r) r2 (Hm _ _) L1)
          as [H2 L2]
    end.
    rewrite H2, H1, negb_involutive. auto.
Qed.

(** The three toggles on a store in which user 1 likes post 1. *)
Lemma toggle_twice_restores_witness :
  (hasLike (snd (toggleLike "2026-01-02" 1 1 likedOnce)) 1 1 = false
   /\ hasLike
        (snd
           (toggleLike "2026-01-03" 1 1
              (snd (toggleLike "2026-01-02" 1 1 likedOnce)))) 1 1
      = true)
  /\ (hasBookmark (snd (toggleBookmark "2026-01-02" 1 1 likedOnce)) 1 1
      = true
      /\ hasBookmark
           (snd
              (toggleBookmark "2026-01-03" 1 1
                 (snd (toggleBookmark "2026-01-02" 1 1 likedOnce)))) 1 1
         = false)
  /\ (hasReaction
        (snd (toggleCommentReaction "2026-01-02" 1 1 "fire" likedOnce))
        1 1 "fire" = true
      /\ hasReaction
           (snd
              (toggleCommentReaction "2026-01-03" 1 1 "fire"
                 (snd
                    (toggleCommentReaction "2026-01-02" 1 1 "fire"
                       likedOnce)))) 1 1 "fire"
         = false).
Proof.
  destruct (toggle_twice_restores "2026-01-02" "2026-01-03" 1 1 "fire"
              likedOnce) as (HL & HB & HR).
  split; [|split].
  - destruct (HL ltac:(cbn; lia)) as (H1 & H2 & _). split; assumption.
  - destruct (HB ltac:(cbn; lia)) as (H1 & H2 & _). split; assumption.
  - destruct (HR ltac:(cbn; lia)) as (H1 & H2 & _). split; assumption.
Defined.

(** ** Trending posts *)

(** C10. Every row of [getTrendingPosts] is built from a post of the store
    whose [is_hidden] flag is not set, whatever the limit; the function has
    no viewer argument. A hidden post whose id is carried by hidden posts
    only therefore never shows in the list. *)
Theorem trending_excludes_hidden (getTime : string -> Z) (s : State.t)
    (limit : Z) (row : TrendingRow.t) :
  In row (getTrendingPosts getTime s limit) ->
  (exists post,
      In post (State.posts s)
      /\ Post.is_hidden post = false
      /\ TrendingRow.id row = Post.id post
      /\ TrendingRow.title row = Post.title post
      /\ TrendingRow.like_count row = countLikes s (Post.id post))
  /\ (forall hiddenPost,
        In hiddenPost (State.posts s) ->
        (forall q, In q (State.posts s) ->
                   Post.id q = Post.id hiddenPost ->
                   Post.is_hidden q = true) ->
        TrendingRow.id row <> Post.id hiddenPost).
Proof.
  unfold getTrendingPosts. intros Hin.
  apply in_map_iff in Hin. destruct Hin as (e & <- & He).
  apply In_slice, In_sort, in_map_iff in He.
  destruct He as (post & <- & Hp). apply filter_In in Hp.
  destruct Hp as [Hp Hvis]. apply negb_true_iff in Hvis.
  split.
  - exists post. cbn. auto.
  - intros hiddenPost Hh Hall Heq. cbn in Heq.
    rewrite (Hall post Hp Heq) in Hvis. discriminate.
Qed.

(** The trending row of the visible post of [twoPosts]. *)
Lemma trending_excludes_hidden_witness :
  (exists post,
      In post (State.posts twoPosts)
      /\ Post.is_hidden post = false
      /\ 1 = Post.id post
      /\ "title" = Post.title post
      /\ 0 = countLikes twoPosts (Post.id post))
  /\ 1 <> 2.
Proof.
  destruct (trending_excludes_hidden sampleTime twoPosts 6
              (TrendingRow.mk 1 "title" "deleted" 0))
    as [H1 H2].
  - cbn. left. reflexivity.
  - split; [exact H1|].
    apply (H2 (samplePost 2 1 true)).
    + cbn. right. left. reflexivity.
    + intros q [<-|[<-|[]]]; cbn; [discriminate|reflexivity].
Defined.

(** ** Order of the paths *)

Lemma ascii_compare_refl (a : ascii) : Ascii.compare a a = Eq.
Proof. unfold Ascii.compare. apply N.compare_refl. Qed.

Lemma ascii_compare_lt_trans (a b c : ascii) :
  Ascii.compare a b = Lt -> Ascii.compare b c = Lt -> Ascii.compare a c = Lt.
Proof.
  unfold Ascii.compare. rewrite !N.compare_lt_iff. apply N.lt_trans.
Qed.

Lemma string_compare_refl (s : string) : String.compare s s = Eq.
Proof.
  induction s as [|a s IH]; simpl; auto. now rewrite ascii_compare_refl.
Qed.

Lemma string_compare_lt_trans (s1 s2 s3 : string) :
  String.compare s1 s2 = Lt -> String.compare s2 s3 = Lt ->
  String.compare s1 s3 = Lt.
Proof.
  revert s2 s3. induction s1 as [|a s1 IH]; intros [|b s2] [|c s3]; simpl;
    try discriminate; auto.
  destruct (Ascii.compare a b) eqn:Hab; try discriminate.
  - apply Ascii.compare_eq_iff in Hab. subst b.
    destruct (Ascii.compare a c); auto. apply IH.
  - intros _. destruct (Ascii.compare b c) eqn:Hbc; try discriminate.
    + apply Ascii.compare_eq_iff in Hbc. subst c. now rewrite Hab.
    + intros _. now rewrite (ascii_compare_lt_trans _ _ _ Hab Hbc).
Qed.

Lemma string_compare_gt_lt (s1 s2 : string) :
  String.compare s1 s2 = Gt <-> String.compare s2 s1 = Lt.
Proof.
  rewrite (String.compare_antisym s1 s2).
  destruct (String.compare s2 s1); cbn; split; congruence.
Qed.

(** A path sorts strictly before the paths of its descendants. *)
Lemma prefix_dot_compare (a d : string) :
  Js.startsWith d (a ++ ".")%string = true -> String.compare a d = Lt.
Proof.
  unfold Js.startsWith. revert d.
  induction a as [|c a IH]; intros [|e d]; simpl; try discriminate; auto.
  destruct (ascii_dec c e) as [->|]; [|discriminate].
  rewrite ascii_compare_refl. apply IH.
Qed.

Lemma startsWith_trans (p a d : string) :
  Js.startsWith a p = true -> Js.startsWith d (a ++ ".")%string = true ->
  Js.startsWith d p = true.
Proof.
  unfold Js.startsWith. revert a d.
  induction p as [|c p IH]; intros a d.
  - destruct d; reflexivity.
  - destruct a as [|c1 a]; simpl; [discriminate|].
    destruct (ascii_dec c c1) as [->|]; [|discriminate].
    destruct d as [|c2 d]; simpl; [discriminate|].
    destruct (ascii_dec c1 c2) as [->|]; [|discriminate]. apply IH.
Qed.

(** ** The stable sort *)

Section SortOrder.

Context {A : Type}.
Variable cmp : A -> A -> Z.
Hypothesis cmp_total : forall x y, cmp x y <= 0 \/ cmp y x <= 0.
Hypothesis cmp_trans :
  forall x y z, cmp x y <= 0 -> cmp y z <= 0 -> cmp x z <= 0.

Lemma insertSorted_sorted (x : A) (l : list A) :
  StronglySorted (fun a b => cmp a b <= 0) l ->
  StronglySorted (fun a b => cmp a b <= 0) (Js.insertSorted cmp x l).
Proof.
  induction 1 as [|y r Hr IH Hy]; simpl.
  - constructor; constructor.
  - destruct (Z.leb_spec (cmp x y) 0) as [Hxy|Hxy].
    + constructor; [constructor; assumption|].
      constructor; [assumption|].
      eapply Forall_impl; [|exact Hy]. intros z Hz. eauto.
    + constructor; [assumption|].
      apply Forall_forall. intros z Hz. apply In_insertSorted in Hz.
      destruct Hz as [->|Hz].
      * destruct (cmp_total y x); [assumption|lia].
      * rewrite Forall_forall in Hy. auto.
Qed.

Lemma sort_sorted (l : list A) :
  StronglySorted (fun a b => cmp a b <= 0) (Js.sort cmp l).
Proof.
  induction l as [|x r IH]; simpl; [constructor|].
  now apply insertSorted_sorted.
Qed.

End SortOrder.

Lemma sort_permutation {A : Type} (cmp : A -> A -> Z) (l : list A) :
  Permutation l (Js.sort cmp l).
Proof.
  induction l as [|x r IH]; simpl; [constructor|].
  transitivity (x :: Js.sort cmp r); [now constructor|].
  generalize (Js.sort cmp r). intros m.
  induction m as [|y m IHm]; simpl; [reflexivity|].
  destruct (cmp x y <=? 0); [reflexivity|].
  transitivity (y :: x :: m); [constructor|now constructor].
Qed.

Section CommentOrder.

Variable getTime : string -> Z.

Lemma compareComments_le (a b : Comment.t) :
  compareComments getTime a b <= 0
  <-> (Comment.path a = Comment.path b
       /\ getTime (Comment.created_at a) <= getTime (Comment.created_at b))
      \/ String.compare (Comment.path a) (Comment.path b) = Lt.
Proof.
  unfold compareComments, Js.localeCompare.
  destruct (String.eqb_spec (Comment.path a) (Comment.path b)) as [E|E].
  - rewrite E, string_compare_refl. split; [intros; left; split; auto; lia|].
    intros [[_ H]|H]; [lia|discriminate].
  - destruct (String.compare (Comment.path a) (Comment.path b)) eqn:C.
    + apply String.compare_eq_iff in C. contradiction.
    + split; [auto|lia].
    + split; [lia|]. intros [[H _]|H]; [contradiction|discriminate].
Qed.

Lemma compareComments_total (a b : Comment.t) :
  compareComments getTime a b <= 0 \/ compareComments getTime b a <= 0.
Proof.
  rewrite !compareComments_le.
  destruct (String.compare (Comment.path a) (Comment.path b)) eqn:C.
  - apply String.compare_eq_iff in C.
    destruct (Z.le_ge_cases (getTime (Comment.created_at a))
                (getTime (Comment.created_at b))); [left|right]; left; auto.
  - left. right. reflexivity.
  - right. right. now apply string_compare_gt_lt.
Qed.

Lemma compareComments_trans (a b c : Comment.t) :
  compareComments getTime a b <= 0 -> compareComments getTime b c <= 0 ->
  compareComments getTime a c <= 0.
Proof.
  rewrite !compareComments_le.
  intros [[E1 T1]|L1] [[E2 T2]|L2].
  - left. split; [congruence|lia].
  - right. now rewrite E1.
  - right. now rewrite <- E2.
  - right. eapply string_compare_lt_trans; eassumption.
Qed.

End CommentOrder.

(** ** Visible comments *)

Lemma visibleLoop_sound (viewer : option PublicUser.t) (d : Comment.t)
    (l : list Comment.t) :
  forall hiddenPrefixes,
    In d (visibleLoop viewer hiddenPrefixes l) ->
    covered hiddenPrefixes d = false /\ In d l /\ prunes viewer d = false.
Proof.
  induction l as [|x r IH]; intros hp; simpl; [tauto|].
  fold (covered hp x). fold (prunes viewer x).
  destruct (covered hp x) eqn:Hc.
  - intros H. apply IH in H. tauto.
  - destruct (prunes viewer x) eqn:Hp.
    + intros H. apply IH in H. destruct H as (H1 & H2 & H3).
      unfold covered in H1. rewrite existsb_app in H1.
      apply orb_false_iff in H1. unfold covered. tauto.
    + intros [<-|H]; [auto|]. apply IH in H. tauto.
Qed.

(** In a sorted list a pruning ancestor is met before its descendants, so
    none of them is kept. *)
Lemma visibleLoop_prunes (getTime : string -> Z)
    (viewer : option PublicUser.t) (d a : Comment.t) (l : list Comment.t) :
  StronglySorted (fun x y => compareComments getTime x y <= 0) l ->
  prunes viewer a = true ->
  Js.startsWith (Comment.path d) (Comment.path a ++ ".")%string = true ->
  In a l ->
  forall hiddenPrefixes, ~ In d (visibleLoop viewer hiddenPrefixes l).
Proof.
  intros Hsorted Ha Hpre.
  induction Hsorted as [|x r Hr IH Hx]; intros Hin hp; simpl; [tauto|].
  fold (covered hp x). fold (prunes viewer x).
  destruct Hin as [->|Hin].
  - destruct (covered hp a) eqn:Hc.
    + intros H. apply visibleLoop_sound in H. destruct H as [H _].
      unfold covered in *. apply existsb_exists in Hc.
      destruct Hc as (p & Hp & Hpa).
      assert (Hd : existsb
                     (fun prefix => Js.startsWith (Comment.path d) prefix) hp
                   = true).
      { apply existsb_exists. exists p. split; [assumption|].
        eapply startsWith_trans; eassumption. }
      congruence.
    + rewrite Ha. intros H. apply visibleLoop_sound in H.
      destruct H as [H _]. unfold covered in H.
      rewrite existsb_app in H. apply orb_false_iff in H.
      destruct H as [_ H]. cbn in H. rewrite Hpre in H. discriminate.
  - destruct (covered hp x); [now apply IH|].
    destruct (prunes viewer x); [now apply IH|].
    intros [->|H]; [|revert H; now apply IH].
    rewrite Forall_forall in Hx. specialize (Hx a Hin).
    apply compareComments_le in Hx.
    apply prefix_dot_compare in Hpre.
    destruct Hx as [[E _]|L].
    + rewrite E, string_compare_refl in Hpre. discriminate.
    + apply string_compare_gt_lt in Hpre. congruence.
Qed.

(** A comment the viewer may see is kept unless a hidden prefix covers it. *)
Lemma visibleLoop_complete (viewer : option PublicUser.t) (c : Comment.t)
    (l : list Comment.t) :
  prunes viewer c = false ->
  (forall a, In a l -> prunes viewer a = true ->
             Js.startsWith (Comment.path c) (Comment.path a ++ ".")%string
             = false) ->
  In c l ->
  forall hiddenPrefixes,
    covered hiddenPrefixes c = false ->
    In c (visibleLoop viewer hiddenPrefixes l).
Proof.
  intros Hc. induction l as [|x r IH]; intros Hall Hin hp Hcov; simpl;
    [destruct Hin|].
  fold (covered hp x). fold (prunes viewer x).
  assert (Hall' : forall a, In a r -> prunes viewer a = true ->
            Js.startsWith (Comment.path c) (Comment.path a ++ ".")%string
            = false) by (intros; apply Hall; simpl; auto).
  destruct Hin as [->|Hin].
  - rewrite Hcov, Hc. simpl. auto.
  - destruct (covered hp x); [now apply IH|].
    destruct (prunes viewer x) eqn:Hp.
    + apply IH; auto. unfold covered. rewrite existsb_app.
      apply orb_false_iff. split; [exact Hcov|]. cbn.
      rewrite (Hall x); simpl; auto.
    + simpl. right. now apply IH.
Qed.

(** C1, as the code has it. The list returned for a post never holds a
    comment that has, in that post, a hidden ancestor the viewer may not
    see (a comment whose path followed by a dot starts its path); and it
    holds every comment of the post written by the viewer, hidden or not,
    that has no such ancestor. *)
Theorem visible_comments_pruned (getTime : string -> Z) (s : State.t)
    (postId : Z) (viewer : option PublicUser.t) :
  (forall d a,
      In a (State.comments s) ->
      Comment.post_id a = postId ->
      Comment.is_hidden a = true ->
      canViewHidden viewer (Comment.user_id a) = false ->
      Js.startsWith (Comment.path d) (Comment.path a ++ ".")%string = true ->
      ~ In d (getVisibleCommentsForPost getTime s postId viewer))
  /\ (forall v c,
        viewer = Some v ->
        In c (State.comments s) ->
        Comment.post_id c = postId ->
        Comment.user_id c = PublicUser.id v ->
        (forall a,
            In a (State.comments s) ->
            Comment.post_id a = postId ->
            Comment.is_hidden a = true ->
            canViewHidden viewer (Comment.user_id a) = false ->
            Js.startsWith (Comment.path c) (Comment.path a ++ ".")%string
            = false) ->
        In c (getVisibleCommentsForPost getTime s postId viewer)).
Proof.
  unfold getVisibleCommentsForPost, toInt. split.
  - intros d a Ha Hpost Hhid Hview Hpre.
    eapply (visibleLoop_prunes getTime viewer d a).
    + apply sort_sorted.
      * apply compareComments_total.
      * apply compareComments_trans.
    + unfold prunes. now rewrite Hhid, Hview.
    + exact Hpre.
    + apply In_sort, filter_In. split; [exact Ha|]. now apply Z.eqb_eq.
  - intros v c -> Hc Hpost Hown Hall.
    apply visibleLoop_complete.
    + unfold prunes, canViewHidden. rewrite Hown, Z.eqb_refl.
      apply andb_false_r.
    + intros a Ha Hp. apply In_sort, filter_In in Ha.
      destruct Ha as [Ha Hpa]. apply Z.eqb_eq in Hpa.
      unfold prunes in Hp. apply andb_true_iff in Hp.
      destruct Hp as [Hh Hv]. apply negb_true_iff in Hv. now apply Hall.
    + apply In_sort, filter_In. split; [exact Hc|]. now apply Z.eqb_eq.
    + reflexivity.
Qed.

(** The hidden thread seen by an anonymous viewer and by the author of
    its root. *)
Lemma visible_comments_pruned_witness :
  ~ In (sampleComment 2 2 1 (Some 1) 1 "0000000001.0000000002" true)
      (getVisibleCommentsForPost sampleTime hiddenThread 1 None)
  /\ In (sampleComment 1 1 1 None 0 "0000000001" true)
       (getVisibleCommentsForPost sampleTime hiddenThread 1
          (Some (sampleViewer 1 "user"))).
Proof.
  destruct (visible_comments_pruned sampleTime hiddenThread 1 None)
    as [Hprune _].
  destruct (visible_comments_pruned sampleTime hiddenThread 1
              (Some (sampleViewer 1 "user"))) as [_ Hown].
  split.
  - apply (Hprune _ (sampleComment 1 1 1 None 0 "0000000001" true)).
    + cbn. left. reflexivity.
    + reflexivity.
    + reflexivity.
    + reflexivity.
    + reflexivity.
  - apply (Hown (sampleViewer 1 "user")).
    + reflexivity.
    + cbn. left. reflexivity.
    + reflexivity.
    + reflexivity.
    + intros a [<-|[<-|[]]] _ _ _; reflexivity.
Defined.

(** C1 as stated fails in its second half: the viewer's own hidden reply
    is not returned when it lies under a hidden comment of somebody else
    that the viewer may not see. *)
Lemma own_hidden_reply_is_pruned :
  ~ (forall (s : State.t) (postId : Z) (v : PublicUser.t) (c : Comment.t),
       In c (State.comments s) ->
       Comment.post_id c = postId ->
       Comment.is_hidden c = true ->
       Comment.user_id c = PublicUser.id v ->
       In c (getVisibleCommentsForPost sampleTime s postId (Some v))).
Proof.
  intros H.
  specialize (H hiddenThread 1 (sampleViewer 2 "user")
                (sampleComment 2 2 1 (Some 1) 1 "0000000001.0000000002" true)).
  cbn in H. destruct H; auto.
Qed.

(** A reply to comment 2 of the hidden thread, and a new root. *)
Lemma addComment_path_depth_witness :
  (exists child s',
      addComment "2026-01-02T00:00:00.000Z" 3 1 "reply" (Some 2) hiddenThread
      = (Some child, s')
      /\ Comment.id child = 3
      /\ Comment.path child = "0000000001.0000000002.0000000003"
      /\ Comment.depth child = 2
      /\ Comment.parent_comment_id child = Some 2)
  /\ (exists child s',
        addComment "2026-01-02T00:00:00.000Z" 3 1 "root" None hiddenThread
        = (Some child, s')
        /\ Comment.id child = 3
        /\ Comment.path child = "0000000003"
        /\ Comment.depth child = 0).
Proof.
  destruct (addComment_path_depth "2026-01-02T00:00:00.000Z" 3 1 "reply"
              hiddenThread) as [Hreply _].
  destruct (addComment_path_depth "2026-01-02T00:00:00.000Z" 3 1 "root"
              hiddenThread) as [_ Hroot].
  split.
  - destruct (Hreply 2
                (sampleComment 2 2 1 (Some 1) 1 "0000000001.0000000002" true)
                ltac:(discriminate) eq_refl eq_refl)
      as (child & s' & H1 & H2 & H3 & H4 & H5 & _).
    exists child, s'. split; [exact H1|]. split; [exact H2|].
    split; [|split; [exact H4|exact H5]].
    rewrite H3, H2. reflexivity.
  - destruct Hroot as (child & s' & H1 & H2 & H3 & H4 & _).
    exists child, s'. split; [exact H1|]. split; [exact H2|].
    split; [|exact H4]. rewrite H3, H2. reflexivity.
Defined.

(** Hiding and showing comment 2 of the hidden thread. *)
Lemma hide_unhide_comment_frame_witness :
  exists before after hiddenC shownC sh su,
    State.comments hiddenThread
    = before
        ++ sampleComment 2 2 1 (Some 1) 1 "0000000001.0000000002" true
        :: after
    /\ hideComment 2 "spam" hiddenThread = (Some hiddenC, sh)
    /\ unhideComment 2 hiddenThread = (Some shownC, su)
    /\ State.comments sh = before ++ hiddenC :: after
    /\ State.comments su = before ++ shownC :: after
    /\ Comment.path hiddenC = "0000000001.0000000002"
    /\ Comment.depth shownC = 1
    /\ Comment.hidden_reason hiddenC = "spam"
    /\ Comment.is_hidden shownC = false
    /\ sameOutsideComments hiddenThread sh
    /\ sameOutsideComments hiddenThread su.
Proof.
  destruct (hide_unhide_comment_frame hiddenThread 2 "spam"
              (sampleComment 2 2 1 (Some 1) 1 "0000000001.0000000002" true)
              eq_refl)
    as (before & after & hiddenC & shownC & sh & su & H1 & _ & H3 & H4 & H5
        & H6 & H7 & H8 & _ & H10 & H11 & _ & H13 & H14).
  exists before, after, hiddenC, shownC, sh, su.
  destruct H7 as (_ & _ & _ & _ & _ & Hpath & _).
  destruct H8 as (_ & _ & _ & _ & Hdepth & _).
  split; [exact H1|]. split; [exact H3|]. split; [exact H4|].
  split; [exact H5|]. split; [exact H6|]. split; [exact Hpath|].
  split; [exact Hdepth|]. split; [exact H10|]. split; [exact H11|].
  split; [exact H13|exact H14].
Defined.

(** ** Strings: trimming, lower case and slugs *)

Section Strip.

Variable p : ascii -> bool.

Lemma dropWhile_startsOutside (l : list ascii) :
  startsOutside p (Js.dropWhile p l).
Proof.
  induction l as [|c r IH]; simpl; auto.
  destruct (p c) eqn:Hc; simpl; auto.
Qed.

Lemma dropWhile_id (l : list ascii) :
  startsOutside p l -> Js.dropWhile p l = l.
Proof. destruct l as [|c r]; simpl; auto. now intros ->. Qed.

Lemma dropWhileEnd_startsOutside (l : list ascii) :
  startsOutside p l -> startsOutside p (Js.dropWhileEnd p l).
Proof.
  destruct l as [|c r]; simpl; auto. intros Hc.
  destruct (Js.dropWhileEnd p r); [rewrite Hc|]; simpl; auto.
Qed.

Lemma dropWhileEnd_idem (l : list ascii) :
  Js.dropWhileEnd p (Js.dropWhileEnd p l) = Js.dropWhileEnd p l.
Proof.
  induction l as [|c r IH]; [reflexivity|].
  change (Js.dropWhileEnd p (c :: r))
    with (match Js.dropWhileEnd p r with
          | [] => if p c then [] else [c]
          | y :: r' => c :: y :: r'
          end).
  destruct (Js.dropWhileEnd p r) as [|y r'] eqn:E.
  - destruct (p c) eqn:Hc; cbn; rewrite ?Hc; reflexivity.
  - change (Js.dropWhileEnd p (c :: y :: r'))
      with (match Js.dropWhileEnd p (y :: r') with
            | [] => if p c then [] else [c]
            | z :: r0 => c :: z :: r0
            end).
    now rewrite IH.
Qed.

Lemma dropWhileEnd_id (l : list ascii) :
  Forall (fun c => p c = false) l -> Js.dropWhileEnd p l = l.
Proof.
  induction 1 as [|c r Hc _ IH]; simpl; auto.
  rewrite IH. destruct r; [now rewrite Hc|reflexivity].
Qed.

Lemma strip_idem (l : list ascii) :
  Js.strip p (Js.strip p l) = Js.strip p l.
Proof.
  unfold Js.strip.
  rewrite (dropWhile_id (Js.dropWhileEnd p (Js.dropWhile p l))).
  - apply dropWhileEnd_idem.
  - apply dropWhileEnd_startsOutside, dropWhile_startsOutside.
Qed.

Lemma strip_id (l : list ascii) :
  Forall (fun c => p c = false) l -> Js.strip p l = l.
Proof.
  intros H. unfold Js.strip. rewrite dropWhile_id.
  - now apply dropWhileEnd_id.
  - destruct H; simpl; auto.
Qed.

Lemma dropWhile_map (f : ascii -> ascii) (l : list ascii) :
  (forall c, p (f c) = p c) ->
  Js.dropWhile p (map f l) = map f (Js.dropWhile p l).
Proof.
  intros Hf. induction l as [|c r IH]; simpl; auto.
  rewrite Hf. destruct (p c); auto.
Qed.

Lemma dropWhileEnd_map (f : ascii -> ascii) (l : list ascii) :
  (forall c, p (f c) = p c) ->
  Js.dropWhileEnd p (map f l) = map f (Js.dropWhileEnd p l).
Proof.
  intros Hf. induction l as [|c r IH]; simpl; auto.
  rewrite IH, Hf.
  destruct (Js.dropWhileEnd p r); simpl; auto. destruct (p c); auto.
Qed.

Lemma strip_map (f : ascii -> ascii) (l : list ascii) :
  (forall c, p (f c) = p c) ->
  Js.strip p (map f l) = map f (Js.strip p l).
Proof.
  intros Hf. unfold Js.strip.
  now rewrite dropWhile_map, dropWhileEnd_map.
Qed.

End Strip.

Lemma lowerChar_idem (c : ascii) : Js.lowerChar (Js.lowerChar c) = Js.lowerChar c.
Proof. destruct c as [[] [] [] [] [] [] [] []]; reflexivity. Qed.

Lemma isSpace_lowerChar (c : ascii) : Js.isSpace (Js.lowerChar c) = Js.isSpace c.
Proof. destruct c as [[] [] [] [] [] [] [] []]; reflexivity. Qed.

Lemma slugChar_lower (c : ascii) :
  notSlugChar c = false -> Js.lowerChar c = c.
Proof. destruct c as [[] [] [] [] [] [] [] []]; cbn; congruence. Qed.

Lemma slugChar_space (c : ascii) :
  notSlugChar c = false -> Js.isSpace c = false.
Proof. destruct c as [[] [] [] [] [] [] [] []]; cbn; congruence. Qed.

Lemma isDash_eq (c : ascii) : isDash c = true -> c = "-"%char.
Proof. unfold isDash. apply Ascii.eqb_eq. Qed.

Lemma trim_idem (s : string) : Js.trim (Js.trim s) = Js.trim s.
Proof.
  unfold Js.trim. now rewrite list_ascii_of_string_of_list_ascii, strip_idem.
Qed.

Lemma normalizeText_idem (s : string) :
  normalizeText (normalizeText s) = normalizeText s.
Proof.
  unfold normalizeText, Js.trim, Js.toLowerCase.
  rewrite !list_ascii_of_string_of_list_ascii.
  rewrite <- (strip_map Js.isSpace Js.lowerChar) by apply isSpace_lowerChar.
  rewrite strip_idem, map_map.
  f_equal. f_equal. apply map_ext. intros c. apply lowerChar_idem.
Qed.

Lemma sluggy_weaken (l : list ascii) :
  sluggy true l = true -> sluggy false l = true.
Proof.
  destruct l as [|c r]; simpl; auto.
  destruct (notSlugChar c); auto. rewrite andb_false_r. discriminate.
Qed.

Lemma sluggy_replaceRuns (inRun : bool) (l : list ascii) :
  sluggy inRun (Js.replaceRuns notSlugChar "-" inRun l) = true.
Proof.
  revert inRun. induction l as [|c r IH]; intros inRun; simpl; auto.
  destruct (notSlugChar c) eqn:Hc.
  - destruct inRun; [apply IH|]. simpl. now rewrite IH.
  - simpl. rewrite Hc. apply IH.
Qed.

Lemma sluggy_dropWhile (b : bool) (l : list ascii) :
  sluggy b l = true -> sluggy false (Js.dropWhile isDash l) = true.
Proof.
  revert b. induction l as [|c r IH]; intros b; simpl; auto.
  destruct (notSlugChar c) eqn:Hc.
  - intros H. apply andb_true_iff in H. destruct H as [H Hr].
    apply andb_true_iff in H. destruct H as [Hd _]. rewrite Hd.
    now apply (IH true).
  - intros Hr. destruct (isDash c) eqn:Hd.
    + apply isDash_eq in Hd. subst c. discriminate.
    + simpl. now rewrite Hc.
Qed.

Lemma sluggy_dropWhileEnd (b : bool) (l : list ascii) :
  sluggy b l = true -> sluggy b (Js.dropWhileEnd isDash l) = true.
Proof.
  revert b. induction l as [|c r IH]; intros b; simpl; auto.
  destruct (notSlugChar c) eqn:Hc.
  - intros H. apply andb_true_iff in H. destruct H as [H Hr].
    apply IH in Hr.
    destruct (Js.dropWhileEnd isDash r) as [|y r'].
    + apply andb_true_iff in H. destruct H as [Hd _]. now rewrite Hd.
    + cbn [sluggy] in *. rewrite Hc, H. exact Hr.
  - intros Hr. apply IH in Hr.
    destruct (Js.dropWhileEnd isDash r) as [|y r'].
    + destruct (isDash c); simpl; auto. now rewrite Hc.
    + cbn [sluggy]. now rewrite Hc.
Qed.

Lemma sluggy_fixes_replaceRuns (b : bool) (l : list ascii) :
  sluggy b l = true -> Js.replaceRuns notSlugChar "-" b l = l.
Proof.
  revert b. induction l as [|c r IH]; intros b; simpl; auto.
  destruct (notSlugChar c) eqn:Hc.
  - intros H. apply andb_true_iff in H. destruct H as [H Hr].
    apply andb_true_iff in H. destruct H as [Hd Hb].
    apply negb_true_iff in Hb. subst b. apply isDash_eq in Hd. subst c.
    now rewrite IH.
  - intros Hr. now rewrite IH.
Qed.

Lemma sluggy_chars (b : bool) (l : list ascii) :
  sluggy b l = true ->
  Forall (fun c => Js.isSpace c = false) l /\ map Js.lowerChar l = l.
Proof.
  revert b. induction l as [|c r IH]; intros b; simpl; auto.
  destruct (notSlugChar c) eqn:Hc.
  - intros H. apply andb_true_iff in H. destruct H as [H Hr].
    apply andb_true_iff in H. destruct H as [Hd _].
    apply isDash_eq in Hd. subst c. destruct (IH _ Hr) as [H1 H2].
    split; [constructor; auto|]. now rewrite H2.
  - intros Hr. destruct (IH _ Hr) as [H1 H2]. split.
    + constructor; auto. now apply slugChar_space.
    + now rewrite H2, slugChar_lower.
Qed.

(** The list of characters of a slug. *)
Lemma slugify_sluggy (input : string) :
  sluggy false (list_ascii_of_string (slugify input)) = true.
Proof.
  unfold slugify. rewrite list_ascii_of_string_of_list_ascii.
  unfold Js.strip. apply sluggy_dropWhileEnd.
  eapply sluggy_dropWhile. apply (sluggy_replaceRuns false).
Qed.

Lemma slugify_idem (input : string) : slugify (slugify input) = slugify input.
Proof.
  pose proof (slugify_sluggy input) as Hs.
  destruct (sluggy_chars _ _ Hs) as [Hspace Hlower].
  unfold slugify at 1. rewrite Hlower, (strip_id _ _ Hspace).
  rewrite (sluggy_fixes_replaceRuns _ _ Hs).
  unfold slugify. rewrite list_ascii_of_string_of_list_ascii.
  now rewrite strip_idem.
Qed.

Lemma trim_slugify (input : string) : Js.trim (slugify input) = slugify input.
Proof.
  pose proof (slugify_sluggy input) as Hs.
  destruct (sluggy_chars _ _ Hs) as [Hspace _].
  unfold Js.trim. rewrite (strip_id _ _ Hspace).
  apply string_of_list_ascii_of_string.
Qed.

(** ** Loops that read the clock *)

Lemma mapClock_stable {A : Type} (f : nat -> A -> Clock A) (l : list A) :
  Forall (stable f) l -> forall k m, mapClock f k l m = (l, m).
Proof.
  induction 1 as [|x r Hx _ IH]; intros k m; simpl; [reflexivity|].
  unfold bind, ret. now rewrite Hx, IH.
Qed.

Lemma mapClock_Forall {A B : Type} (f : nat -> A -> Clock B)
    (P : B -> Prop) :
  (forall i x m, P (fst (f i x m))) ->
  forall l k m, Forall P (fst (mapClock f k l m)).
Proof.
  intros HP. induction l as [|x r IH]; intros k m; simpl; [constructor|].
  unfold bind, ret. specialize (HP k x m).
  destruct (f k x m) as [y m1]. specialize (IH (S k) m1).
  destruct (mapClock f (S k) r m1) as [ys m2]. cbn in *.
  now constructor.
Qed.

Lemma mapClock_map {A B C : Type} (f : nat -> A -> Clock B) (g : B -> C)
    (h : A -> C) :
  (forall i x m, g (fst (f i x m)) = h x) ->
  forall l k m, map g (fst (mapClock f k l m)) = map h l.
Proof.
  intros Hg. induction l as [|x r IH]; intros k m; simpl; [reflexivity|].
  unfold bind, ret. specialize (Hg k x m).
  destruct (f k x m) as [y m1]. specialize (IH (S k) m1).
  destruct (mapClock f (S k) r m1) as [ys m2]. cbn in *. congruence.
Qed.

Lemma mapClock_nth {A B : Type} (f : nat -> A -> Clock B) (l : list A)
    (i : nat) (x : A) :
  nth_error l i = Some x ->
  forall k m,
  exists m', nth_error (fst (mapClock f k l m)) i
             = Some (fst (f (k + i)%nat x m')).
Proof.
  revert i. induction l as [|y r IH]; intros [|i]; simpl; try discriminate.
  - intros [= ->] k m. exists m. unfold bind, ret.
    rewrite Nat.add_0_r. destruct (f k x m) as [z m1].
    now destruct (mapClock f (S k) r m1).
  - intros Hi k m. unfold bind, ret.
    destruct (f k y m) as [z m1].
    destruct (IH i Hi (S k) m1) as [m' Hm].
    destruct (mapClock f (S k) r m1) as [ys m2]. cbn in *.
    exists m'. now rewrite Nat.add_succ_r.
Qed.

Lemma filter_idem {A : Type} (p : A -> bool) (l : list A) :
  filter p (filter p l) = filter p l.
Proof.
  induction l as [|x r IH]; simpl; auto.
  destruct (p x) eqn:Hx; simpl; [rewrite Hx, IH|]; auto.
Qed.

Lemma Forall_filter {A : Type} (P : A -> Prop) (p : A -> bool) (l : list A) :
  Forall P l -> Forall P (filter p l).
Proof.
  induction 1 as [|x r Hx _ IH]; simpl; auto.
  destruct (p x); auto.
Qed.

(** ** Values that survive a second coercion *)

Lemma orStr_orStr (value fallback : string) :
  orStr (orStr value fallback) fallback = orStr value fallback.
Proof.
  unfold orStr. destruct (String.eqb_spec value "") as [->|Hv].
  - destruct (fallback =? "")%string; reflexivity.
  - apply String.eqb_neq in Hv. now rewrite Hv.
Qed.

Lemma orStr_nonempty (value fallback other : string) :
  fallback <> "" -> orStr (orStr value fallback) other = orStr value fallback.
Proof.
  intros Hf. unfold orStr.
  destruct (String.eqb_spec value "") as [->|Hv].
  - apply String.eqb_neq in Hf. now rewrite Hf.
  - apply String.eqb_neq in Hv. now rewrite Hv.
Qed.

Lemma orInt_nonzero (value fallback other : Z) :
  fallback <> 0 -> orInt (orInt value fallback) other = orInt value fallback.
Proof.
  intros Hf. unfold orInt. destruct (Z.eqb_spec value 0) as [->|Hv].
  - apply Z.eqb_neq in Hf. now rewrite Hf.
  - apply Z.eqb_neq in Hv. now rewrite Hv.
Qed.

Lemma orNull_idem (value : option string) :
  orNull (orNull value) = orNull value.
Proof.
  destruct value as [v|]; cbn; auto.
  destruct (v =? "")%string eqn:E; cbn; [|rewrite E]; auto.
Qed.

Lemma truthyId_idem (value : option Z) :
  truthyId (truthyId value) = truthyId value.
Proof.
  destruct value as [v|]; cbn; auto.
  destruct (v =? 0) eqn:E; cbn; [|rewrite E]; auto.
Qed.

Lemma includes_default (l : list string) (value fallback : string) :
  includes l fallback = true ->
  includes l (if includes l value then value else fallback) = true.
Proof. intros H. destruct (includes l value) eqn:E; auto. Qed.

Lemma choose_idem (l : list string) (value fallback : string) :
  includes l fallback = true ->
  let v := if includes l value then value else fallback in
  (if includes l v then v else fallback) = v.
Proof. intros H v. unfold v. now rewrite includes_default. Qed.

Lemma padStart0_nonempty (s : string) : Js.padStart0 s 10 <> "".
Proof.
  unfold Js.padStart0. destruct s as [|c s]; [discriminate|].
  cbn [String.length]. destruct (10 - S (String.length s))%nat; discriminate.
Qed.

Lemma append_dot_nonempty (a b : string) : (a ++ "." ++ b)%string <> "".
Proof. destruct a; discriminate. Qed.

(** Reduction of the projections of the entity records. *)
Ltac fields :=
  cbn [User.id User.username User.email User.password_hash User.bio
       User.avatar_url User.created_at User.role User.status
       User.email_verified User.verification_token_hash
       User.verification_expires_at User.reset_token_hash
       User.reset_expires_at
       Category.id Category.name Category.slug Category.description
       Category.sort_order
       Post.id Post.user_id Post.category_id Post.title Post.body
       Post.markdown_body Post.rendered_html Post.excerpt
       Post.reading_time_minutes Post.media_url Post.media_type
       Post.is_hidden Post.hidden_reason Post.created_at
       Like.id Like.user_id Like.post_id Like.created_at
       Bookmark.id Bookmark.user_id Bookmark.post_id Bookmark.created_at
       Comment.id Comment.user_id Comment.post_id Comment.parent_comment_id
       Comment.depth Comment.path Comment.body Comment.is_hidden
       Comment.hidden_reason Comment.created_at
       Tag.id Tag.name Tag.slug Tag.created_at
       PostTag.post_id PostTag.tag_id
       Reaction.id Reaction.comment_id Reaction.user_id
       Reaction.reaction_type Reaction.created_at
       Report.id Report.reporter_user_id Report.target_type Report.target_id
       Report.reason_code Report.reason_text Report.status
       Report.assigned_to_user_id Report.created_at Report.resolved_at
       ModAction.id ModAction.actor_user_id ModAction.action_type
       ModAction.target_type ModAction.target_id ModAction.notes
       ModAction.created_at].

Section Rerun.

Variables wall wall' : nat -> string.
Hypothesis wall_nonempty : forall n, wall n <> "".

Lemma orNow_run (value : string) (m : nat) :
  exists v m',
    orNow wall value m = (v, m') /\ v <> ""
    /\ forall k, orNow wall' v k = (v, k).
Proof.
  unfold orNow, nowIso, ret.
  destruct (String.eqb_spec value "") as [->|Hv].
  - exists (wall m), (S m). split; [reflexivity|]. split; [auto|].
    intros k. specialize (wall_nonempty m).
    apply String.eqb_neq in wall_nonempty. now rewrite wall_nonempty.
  - exists value, m. split; [reflexivity|]. split; [auto|].
    intros k. apply String.eqb_neq in Hv. now rewrite Hv.
Qed.

Ltac run_clock field m :=
  let v := fresh "v" in
  let m' := fresh "m" in
  let E := fresh "E" in
  let Hne := fresh "Hne" in
  let Hst := fresh "Hst" in
  unfold stable, bind, ret;
  destruct (orNow_run field m) as (v & m' & E & Hne & Hst);
  rewrite E; cbn [fst]; intros ? ?; unfold bind, ret; fields;
  rewrite Hst; unfold toInt.

Lemma migrateUser_stable (hasAdmin : bool) (i : nat) (user : User.t)
    (m : nat) :
  stable (migrateUser wall' true) (fst (migrateUser wall hasAdmin i user m)).
Proof.
  unfold migrateUser at 2. unfold migrateUser at 1. run_clock (User.created_at user) m.
  rewrite trim_idem, normalizeText_idem, !orNull_idem.
  f_equal. f_equal.
  - destruct (negb hasAdmin && (i =? 0)%nat); [reflexivity|].
    apply (choose_idem ROLES (User.role user) "user"). reflexivity.
  - apply (choose_idem USER_STATUS (User.status user) "active"). reflexivity.
  - now destruct (User.email_verified user).
Qed.

Lemma migratePost_stable (i : nat) (post : Post.t) (m : nat) :
  stable (migratePost wall') (fst (migratePost wall i post m)).
Proof.
  unfold migratePost at 2. unfold migratePost at 1. run_clock (Post.created_at post) m.
  rewrite trim_idem.
  replace (orStr (Post.body post) "") with (Post.body post)
    by (unfold orStr; now destruct (String.eqb_spec (Post.body post) "")).
  rewrite !orStr_orStr.
  rewrite (orInt_nonzero (Post.reading_time_minutes post))
    by (unfold computeReadingTime; lia).
  f_equal. f_equal.
  apply (choose_idem MEDIA_TYPES (Post.media_type post) "none"). reflexivity.
Qed.

Lemma migrateLike_stable (i : nat) (like : Like.t) (m : nat) :
  stable (migrateLike wall') (fst (migrateLike wall i like m)).
Proof. unfold migrateLike at 2. unfold migrateLike at 1. run_clock (Like.created_at like) m. reflexivity. Qed.

Lemma migrateBookmark_stable (i : nat) (bookmark : Bookmark.t) (m : nat) :
  stable (migrateBookmark wall') (fst (migrateBookmark wall i bookmark m)).
Proof.
  unfold migrateBookmark at 2. unfold migrateBookmark at 1. run_clock (Bookmark.created_at bookmark) m.
  reflexivity.
Qed.

Lemma migrateReaction_stable (i : nat) (reaction : Reaction.t) (m : nat) :
  stable (migrateReaction wall') (fst (migrateReaction wall i reaction m)).
Proof.
  unfold migrateReaction at 2. unfold migrateReaction at 1. run_clock (Reaction.created_at reaction) m.
  f_equal. f_equal.
  apply (choose_idem REACTIONS (Reaction.reaction_type reaction) "like").
  reflexivity.
Qed.

Lemma migrateReport_stable (i : nat) (report : Report.t) (m : nat) :
  stable (migrateReport wall') (fst (migrateReport wall i report m)).
Proof.
  unfold migrateReport at 2. unfold migrateReport at 1. run_clock (Report.created_at report) m.
  rewrite truthyId_idem, orNull_idem, orStr_orStr.
  f_equal. f_equal.
  - apply (choose_idem REPORT_TARGETS (Report.target_type report) "post").
    reflexivity.
  - apply (choose_idem REPORT_STATUS (Report.status report) "open").
    reflexivity.
Qed.

Lemma migrateAction_stable (i : nat) (action : ModAction.t) (m : nat) :
  stable (migrateAction wall') (fst (migrateAction wall i action m)).
Proof.
  unfold migrateAction at 2. unfold migrateAction at 1. run_clock (ModAction.created_at action) m.
  now rewrite !orStr_orStr.
Qed.

End Rerun.

(** ** Categories, tags and the slug filter *)

Lemma mapIndexed_Forall {A B : Type} (f : nat -> A -> B) (P : B -> Prop) :
  (forall i x, P (f i x)) -> forall l k, Forall P (mapIndexed f k l).
Proof.
  intros HP. induction l as [|x r IH]; intros k; simpl; constructor; auto.
Qed.

Lemma mapIndexed_fixed {A : Type} (f : nat -> A -> A) (l : list A) :
  Forall (fun x => forall j, f j x = x) l -> forall k, mapIndexed f k l = l.
Proof.
  induction 1 as [|x r Hx _ IH]; intros k; simpl; [reflexivity|].
  now rewrite Hx, IH.
Qed.

Section SlugFilter.

Context {A : Type}.
Variable bad : A -> bool.
Variable slug : A -> string.

Lemma keepFirstSlug_Forall (P : A -> Prop) (l : list A) :
  Forall P l ->
  forall seen,
    Forall (fun x => P x /\ slug x <> "") (keepFirstSlug bad slug seen l).
Proof.
  induction 1 as [|x r Hx _ IH]; intros seen; simpl; [constructor|].
  destruct (bad x); cbn [orb]; [apply IH|].
  destruct (String.eqb_spec (slug x) "") as [|Hs]; cbn [orb]; [apply IH|].
  destruct (includes seen (slug x)); [apply IH|].
  constructor; auto.
Qed.

Lemma keepFirstSlug_idem (l : list A) :
  forall seen seen',
    (forall k, includes seen' k = true -> includes seen k = true) ->
    keepFirstSlug bad slug seen' (keepFirstSlug bad slug seen l)
    = keepFirstSlug bad slug seen l.
Proof.
  induction l as [|x r IH]; intros seen seen' Hsub; simpl; [reflexivity|].
  destruct (bad x || (slug x =? "")%string || includes seen (slug x))
    eqn:Hdrop; [now apply IH|].
  simpl.
  apply orb_false_iff in Hdrop. destruct Hdrop as [Hdrop Hseen].
  rewrite Hdrop. cbn [orb].
  destruct (includes seen' (slug x)) eqn:Hs'.
  - apply Hsub in Hs'. congruence.
  - f_equal. apply IH. intros k. unfold includes. cbn [existsb].
    intros H. apply orb_true_iff in H. apply orb_true_iff.
    destruct H as [H|H]; [now left|right]. now apply Hsub.
Qed.

End SlugFilter.

Lemma migrateCategory_fixed (i j : nat) (category : Category.t) :
  Category.slug (migrateCategory i category) <> "" ->
  migrateCategory j (migrateCategory i category)
  = migrateCategory i category.
Proof.
  unfold migrateCategory. fields. intros Hslug. unfold toInt.
  rewrite orStr_nonempty by discriminate.
  rewrite orInt_nonzero by lia.
  set (slug1 := slugify _) in *.
  assert (Hs : forall other, orStr slug1 other = slug1).
  { intros other. unfold orStr. apply String.eqb_neq in Hslug.
    now rewrite Hslug. }
  rewrite Hs. unfold slug1. now rewrite slugify_idem.
Qed.

Lemma categories_rerun (l : list Category.t) :
  let kept :=
    keepFirstSlug (fun _ => false) Category.slug []
      (mapIndexed migrateCategory 0 l) in
  keepFirstSlug (fun _ => false) Category.slug []
    (mapIndexed migrateCategory 0 kept) = kept.
Proof.
  intros kept.
  assert (Hfix : mapIndexed migrateCategory 0 kept = kept).
  { apply mapIndexed_fixed. unfold kept.
    eapply Forall_impl;
      [|apply (keepFirstSlug_Forall _ _
                 (fun c => Category.slug c <> "" ->
                           forall j, migrateCategory j c = c))].
    - cbn. intros c [H1 H2]. auto.
    - apply mapIndexed_Forall. intros i x Hs j.
      now apply migrateCategory_fixed. }
  rewrite Hfix. unfold kept. apply keepFirstSlug_idem. auto.
Qed.

Section RerunTrees.

Variables wall wall' : nat -> string.
Hypothesis wall_nonempty : forall n, wall n <> "".

Lemma migrateTag_stable (i : nat) (tag : Tag.t) (m : nat) :
  Tag.slug (fst (migrateTag wall i tag m)) <> "" ->
  stable (migrateTag wall') (fst (migrateTag wall i tag m)).
Proof.
  unfold migrateTag at 1 3. unfold migrateTag at 1.
  unfold stable, bind, ret.
  destruct (orNow_run wall wall' wall_nonempty (Tag.created_at tag) m)
    as (v & m' & E & Hne & Hst).
  rewrite E. cbn [fst]. fields. intros Hslug i' k.
  unfold bind, ret. fields. rewrite Hst. unfold toInt.
  set (name := Js.trim (Tag.name tag)) in *.
  set (slug := slugify (orStr (Tag.slug tag) name)) in *.
  assert (Hname : Js.trim (orStr name slug) = orStr name slug).
  { unfold orStr. destruct (name =? "")%string.
    - apply trim_slugify.
    - apply trim_idem. }
  rewrite Hname.
  assert (Hslug' : slugify (orStr slug (orStr name slug)) = slug).
  { unfold orStr at 1. apply String.eqb_neq in Hslug. rewrite Hslug.
    apply slugify_idem. }
  rewrite Hslug'. now rewrite orStr_orStr.
Qed.

Lemma tags_rerun (l : list Tag.t) (n m : nat) :
  let kept :=
    keepFirstSlug (fun tag => Tag.id tag =? 0) Tag.slug []
      (fst (mapClock (migrateTag wall) 0 l n)) in
  mapClock (migrateTag wall') 0 kept m = (kept, m)
  /\ keepFirstSlug (fun tag => Tag.id tag =? 0) Tag.slug [] kept = kept.
Proof.
  intros kept. split.
  - apply mapClock_stable. unfold kept.
    eapply Forall_impl;
      [|apply (keepFirstSlug_Forall _ _
                 (fun t => Tag.slug t <> "" ->
                           stable (migrateTag wall') t))].
    + cbn. intros t [H1 H2]. auto.
    + apply mapClock_Forall. intros i x k. apply migrateTag_stable.
  - unfold kept. apply keepFirstSlug_idem. auto.
Qed.

Lemma repairComment_id (seen : list Z) (c : Comment.t) :
  Comment.id (repairComment seen c) = Comment.id c.
Proof. reflexivity. Qed.

Lemma repairComment_idem (seen : list Z) (c : Comment.t) :
  repairComment seen (repairComment seen c) = repairComment seen c.
Proof.
  unfold repairComment at 1. fields.
  set (c1 := repairComment seen c).
  assert (Hdangling :
    match truthyId (Comment.parent_comment_id c1) with
    | Some p => negb (existsb (Z.eqb p) seen)
    | None => false
    end = false).
  { unfold c1, repairComment. fields.
    destruct (truthyId (Comment.parent_comment_id c)) as [p|] eqn:Hp;
      [|now rewrite Hp].
    destruct (negb (existsb (Z.eqb p) seen)) eqn:Hd; [reflexivity|].
    now rewrite Hp, Hd. }
  rewrite Hdangling.
  assert (Hpath : (Comment.path c1 =? "")%string = false).
  { unfold c1, repairComment. fields. apply String.eqb_neq.
    destruct (String.eqb_spec (Comment.path c) "") as [E|E]; [|exact E].
    destruct (truthyId _); [apply append_dot_nonempty|].
    apply padStart0_nonempty. }
  rewrite Hpath. now destruct c1.
Qed.

Lemma normalizeComment_stable (seen : list Z) (i : nat) (c : Comment.t)
    (m : nat) :
  stable (normalizeComment wall')
    (repairComment seen (fst (normalizeComment wall i c m))).
Proof.
  unfold normalizeComment at 2. unfold stable, bind, ret.
  destruct (orNow_run wall wall' wall_nonempty (Comment.created_at c) m)
    as (v & m' & E & Hne & Hst).
  rewrite E. cbn [fst]. intros i' k.
  unfold normalizeComment, bind, ret.
  unfold repairComment at 1 2 3 4 5 6 7 8 9 10. fields.
  rewrite Hst. unfold toInt. f_equal.
  unfold repairComment. fields. f_equal.
  rewrite truthyId_idem.
  destruct (truthyId (Comment.parent_comment_id c)) as [p|] eqn:Hp;
    [|reflexivity].
  destruct (negb (existsb (Z.eqb p) seen)); [reflexivity|].
  rewrite <- Hp. apply truthyId_idem.
Qed.

Lemma comments_rerun (l : list Comment.t) (n m : nat) :
  migrateComments wall' (fst (migrateComments wall l n)) m
  = (fst (migrateComments wall l n), m).
Proof.
  unfold migrateComments at 2 3. unfold bind, ret.
  destruct (mapClock (normalizeComment wall) 0 l n) as [normalized n1] eqn:E.
  cbn [fst].
  set (seen := map Comment.id normalized).
  assert (Hst : Forall (stable (normalizeComment wall'))
                  (map (repairComment seen) normalized)).
  { apply Forall_map.
    replace normalized with (fst (mapClock (normalizeComment wall) 0 l n))
      by now rewrite E.
    apply mapClock_Forall. intros i x k. apply normalizeComment_stable. }
  unfold migrateComments, bind, ret.
  rewrite (mapClock_stable _ _ Hst). f_equal.
  rewrite map_map. cbn [Comment.id repairComment]. fold seen.
  rewrite map_map. apply map_ext. intros c. apply repairComment_idem.
Qed.

Lemma users_rerun (l : list User.t) (n m : nat) :
  let hasAdmin :=
    existsb (fun user => (User.role user =? "admin")%string) l in
  let migrated := fst (mapClock (migrateUser wall hasAdmin) 0 l n) in
  let hasAdmin' :=
    existsb (fun user => (User.role user =? "admin")%string) migrated in
  mapClock (migrateUser wall' hasAdmin') 0 migrated m = (migrated, m).
Proof.
  cbv zeta.
  destruct l as [|x r]; [reflexivity|].
  remember (existsb (fun user => (User.role user =? "admin")%string)
              (x :: r)) as hasAdmin eqn:Hhas.
  set (migrated := fst (mapClock (migrateUser wall hasAdmin) 0 (x :: r) n)).
  assert (Hadmin :
    existsb (fun user => (User.role user =? "admin")%string) migrated
    = true).
  { apply existsb_exists. destruct hasAdmin.
    - symmetry in Hhas. apply existsb_exists in Hhas.
      destruct Hhas as (u & Hin & Hrole).
      apply In_nth_error in Hin. destruct Hin as [i Hi].
      destruct (mapClock_nth (migrateUser wall true) _ _ _ Hi 0%nat n)
        as [k Hk].
      exists (fst (migrateUser wall true (0 + i) u k)). split.
      + eapply nth_error_In. exact Hk.
      + unfold migrateUser, bind, ret.
        destruct (orNow wall (User.created_at u) k). cbn.
        apply String.eqb_eq in Hrole. now rewrite Hrole.
    - unfold migrated. cbn [mapClock]. unfold bind, ret.
      destruct (migrateUser wall false 0 x n) as [y n1] eqn:Ey.
      destruct (mapClock (migrateUser wall false) 1 r n1) as [ys n2].
      cbn [fst]. exists y. split; [now left|].
      unfold migrateUser, bind, ret in Ey.
      destruct (orNow wall (User.created_at x) n).
      injection Ey as <- _. reflexivity. }
  rewrite Hadmin. apply mapClock_stable. unfold migrated.
  apply mapClock_Forall. intros i u k.
  now apply migrateUser_stable.
Qed.

End RerunTrees.

(** ** The migrator run twice *)

Lemma rerun_plain {A : Type} (f f' : nat -> A -> Clock A) (l : list A)
    (n m : nat) :
  (forall i x k, stable f' (fst (f i x k))) ->
  mapClock f' 0 (fst (mapClock f 0 l n)) m = (fst (mapClock f 0 l n), m).
Proof.
  intros H. apply mapClock_stable. now apply mapClock_Forall.
Qed.

Lemma rerun_filtered {A : Type} (f f' : nat -> A -> Clock A)
    (keep : A -> bool) (l : list A) (n m : nat) :
  (forall i x k, stable f' (fst (f i x k))) ->
  mapClock f' 0 (filter keep (fst (mapClock f 0 l n))) m
  = (filter keep (fst (mapClock f 0 l n)), m).
Proof.
  intros H. apply mapClock_stable, Forall_filter.
  now apply mapClock_Forall.
Qed.

Lemma postTags_rerun (l : list PostTag.t) :
  filter keepPostTag (map migratePostTag (filter keepPostTag (map migratePostTag l)))
  = filter keepPostTag (map migratePostTag l).
Proof.
  assert (Hid : forall l0, map migratePostTag l0 = l0).
  { intros l0. rewrite <- (map_id l0) at 2. apply map_ext.
    now intros []. }
  rewrite !Hid. apply filter_idem.
Qed.

(** The state and the clock produced by [migrateState], loop by loop. *)
Lemma migrateState_run (wall : nat -> string) (s : State.t) (n : nat) :
  let hasAdmin :=
    existsb (fun user => (User.role user =? "admin")%string)
      (State.users s) in
  let us := mapClock (migrateUser wall hasAdmin) 0 (State.users s) n in
  let ps := mapClock (migratePost wall) 0 (State.posts s) (snd us) in
  let ls := mapClock (migrateLike wall) 0 (State.likes s) (snd ps) in
  let cs := migrateComments wall (State.comments s) (snd ls) in
  let ts := mapClock (migrateTag wall) 0 (State.tags s) (snd cs) in
  let bs := mapClock (migrateBookmark wall) 0 (State.bookmarks s) (snd ts) in
  let rs :=
    mapClock (migrateReaction wall) 0 (State.comment_reactions s) (snd bs) in
  let qs := mapClock (migrateReport wall) 0 (State.reports s) (snd rs) in
  let ms :=
    mapClock (migrateAction wall) 0 (State.moderation_actions s) (snd qs) in
  migrateState wall s n
  = (State.mk SCHEMA_VERSION (State.counters s) (fst us)
       (keepFirstSlug (fun _ => false) Category.slug []
          (mapIndexed migrateCategory 0 (State.categories s)))
       (fst ps) (filter keepLike (fst ls)) (fst cs)
       (keepFirstSlug (fun tag => Tag.id tag =? 0) Tag.slug [] (fst ts))
       (filter keepPostTag (map migratePostTag (State.post_tags s)))
       (filter keepBookmark (fst bs)) (filter keepReaction (fst rs))
       (filter keepReport (fst qs)) (filter keepAction (fst ms))
       (orNull (State.last_rebuild_at s)),
     snd ms).
Proof.
  cbv zeta. unfold migrateState, bind, ret.
  destruct (mapClock (migrateUser wall _) 0 (State.users s) n) as [us n1].
  cbn [fst snd].
  destruct (mapClock (migratePost wall) 0 (State.posts s) n1) as [ps n2].
  cbn [fst snd].
  destruct (mapClock (migrateLike wall) 0 (State.likes s) n2) as [ls n3].
  cbn [fst snd].
  destruct (migrateComments wall (State.comments s) n3) as [cs n4].
  cbn [fst snd].
  destruct (mapClock (migrateTag wall) 0 (State.tags s) n4) as [ts n5].
  cbn [fst snd].
  destruct (mapClock (migrateBookmark wall) 0 (State.bookmarks s) n5)
    as [bs n6].
  cbn [fst snd].
  destruct (mapClock (migrateReaction wall) 0 (State.comment_reactions s) n6)
    as [rs n7].
  cbn [fst snd].
  destruct (mapClock (migrateReport wall) 0 (State.reports s) n7)
    as [qs n8].
  cbn [fst snd].
  destruct (mapClock (migrateAction wall) 0 (State.moderation_actions s) n8)
    as [ms n9].
  reflexivity.
Qed.

(** The fixed point on snapshots of the data model. When every field of
    the snapshot holds a value of its type, the run on the state a previous
    run produced returns that state: every collection, the counters and the
    version are the same, and the clock is not read. The readings of the
    clock are ISO time stamps, hence not empty; the second run may see
    another clock. *)
Theorem migrateState_fixed_point (wall wall' : nat -> string) (s : State.t)
    (n m : nat) :
  (forall k, wall k <> "") ->
  migrateState wall' (fst (migrateState wall s n)) m
  = (fst (migrateState wall s n), m).
Proof.
  intros Hwall. rewrite (migrateState_run wall s n). cbv zeta. cbn [fst].
  rewrite migrateState_run. cbv zeta.
  cbn [State.schema_version State.counters State.users State.categories
       State.posts State.likes State.comments State.tags State.post_tags
       State.bookmarks State.comment_reactions State.reports
       State.moderation_actions State.last_rebuild_at].
  rewrite (users_rerun wall wall' Hwall). cbn [fst snd].
  rewrite (rerun_plain (migratePost wall) (migratePost wall'))
    by (intros; now apply migratePost_stable).
  cbn [fst snd].
  rewrite (rerun_filtered (migrateLike wall) (migrateLike wall'))
    by (intros; now apply migrateLike_stable).
  cbn [fst snd].
  rewrite (comments_rerun wall wall' Hwall). cbn [fst snd].
  match goal with
  | |- context [mapClock (migrateTag wall') 0
                  (keepFirstSlug _ _ []
                     (fst (mapClock (migrateTag wall) 0 _ ?n0))) ?m0] =>
      destruct (tags_rerun wall wall' Hwall (State.tags s) n0 m0)
        as [Htags Hkept]
  end.
  rewrite Htags. cbn [fst snd]. rewrite Hkept.
  rewrite (rerun_filtered (migrateBookmark wall) (migrateBookmark wall'))
    by (intros; now apply migrateBookmark_stable).
  cbn [fst snd].
  rewrite (rerun_filtered (migrateReaction wall) (migrateReaction wall'))
    by (intros; now apply migrateReaction_stable).
  cbn [fst snd].
  rewrite (rerun_filtered (migrateReport wall) (migrateReport wall'))
    by (intros; now apply migrateReport_stable).
  cbn [fst snd].
  rewrite (rerun_filtered (migrateAction wall) (migrateAction wall'))
    by (intros; now apply migrateAction_stable).
  cbn [fst snd].
  rewrite categories_rerun, postTags_rerun, !filter_idem, orNull_idem.
  reflexivity.
Qed.

(** The version 1 snapshot migrated twice. *)
Lemma migrateState_fixed_point_witness :
  migrateState sampleWall (fst (migrateState sampleWall legacyStore 0%nat))
    7%nat
  = (fst (migrateState sampleWall legacyStore 0%nat), 7%nat).
Proof.
  apply (migrateState_fixed_point sampleWall sampleWall legacyStore 0 7).
  intros k. discriminate.
Defined.

(** ** Repair of the comment tree *)

(** The first half of C4: a reply whose parent is not in the set comes out
    of the migration as a root of depth 0. *)
Lemma migrate_dangling_parent_reset (wall : nat -> string) (s : State.t)
    (n i : nat) (c : Comment.t) (p : Z) :
  nth_error (State.comments s) i = Some c ->
  Comment.parent_comment_id c = Some p ->
  p <> 0 ->
  (forall x, In x (State.comments s) -> Comment.id x <> p) ->
  exists c',
    nth_error (State.comments (fst (migrateState wall s n))) i = Some c'
    /\ Comment.id c' = Comment.id c
    /\ Comment.parent_comment_id c' = None
    /\ Comment.depth c' = 0.
Proof.
  intros Hi Hparent Hp Hmissing.
  rewrite migrateState_run. cbv zeta. cbn [fst State.comments].
  unfold migrateComments, bind, ret.
  set (n0 := snd (mapClock (migrateLike wall) 0 _ _)).
  pose proof (mapClock_map (normalizeComment wall) Comment.id Comment.id)
    as Hids.
  specialize (Hids ltac:(intros j x k; unfold normalizeComment, bind, ret;
                          now destruct (orNow wall (Comment.created_at x) k))
                (State.comments s) 0%nat n0).
  destruct (mapClock_nth (normalizeComment wall) _ _ _ Hi 0%nat n0)
    as [k Hk].
  destruct (mapClock (normalizeComment wall) 0 (State.comments s) n0)
    as [normalized n1].
  cbn [fst] in *. rewrite nth_error_map, Hk. cbn [option_map].
  eexists. split; [reflexivity|].
  unfold normalizeComment, bind, ret.
  destruct (orNow wall (Comment.created_at c) k) as [v k'].
  cbn [fst]. unfold repairComment. fields. rewrite truthyId_idem, Hparent.
  cbn [truthyId]. apply Z.eqb_neq in Hp. rewrite Hp, Hids.
  assert (Hseen : existsb (Z.eqb p) (map Comment.id (State.comments s))
                  = false).
  { destruct (existsb (Z.eqb p) (map Comment.id (State.comments s))) eqn:E;
      [|reflexivity].
    apply existsb_exists in E. destruct E as (y & Hy & Heq).
    apply in_map_iff in Hy. destruct Hy as (x & <- & Hx).
    apply Z.eqb_eq in Heq. symmetry in Heq. now apply Hmissing in Heq. }
  rewrite Hseen. cbn [negb]. repeat split.
Qed.

(** C4, at the input where the code departs from it. In a version 1
    thread of three nested comments stored without paths, the migrated path
    of the innermost reply holds the id of its parent and its own id only,
    whereas its ancestor chain is 1, 2, 3. *)
Theorem migrate_nested_reply_path :
  exists c,
    nth_error
      (State.comments (fst (migrateState sampleWall legacyThread 0%nat))) 2
    = Some c
    /\ Comment.id c = 3
    /\ Comment.parent_comment_id c = Some 2
    /\ Comment.path c = "0000000002.0000000003"
    /\ specAncestorPath 3
         (State.comments (fst (migrateState sampleWall legacyThread 0%nat)))
         c
       = "0000000001.0000000002.0000000003".
Proof. eexists. repeat split. Qed.

(** ** Re-running the migrator on a damaged snapshot *)

Lemma coerceId_ofId (value : option Z) :
  coerceId (Raw.ofId value) = truthyId value.
Proof.
  destruct value as [n|]; cbn; [|reflexivity]. now destruct (n =? 0).
Qed.

Lemma normalizeRawComment_typed (wall : nat -> string) (l : list Comment.t) :
  forall index n,
    mapClock (normalizeRawComment wall) index (map rawComment l) n
    = mapClock (normalizeComment wall) index l n.
Proof.
  induction l as [|c r IH]; intros index n; cbn [map mapClock];
    [reflexivity|].
  unfold bind. unfold normalizeRawComment at 1, normalizeComment at 1.
  cbn [rawComment RawComment.rest RawComment.parent_comment_id].
  rewrite coerceId_ofId. unfold bind.
  destruct (orNow wall (Comment.created_at c) n) as [created_at n1].
  cbn [ret]. now rewrite IH.
Qed.

(** On the comments of the data model the migrator of the stored comments
    is the migrator. *)
Lemma migrateRawState_typed (wall : nat -> string) (s : State.t) (n : nat) :
  migrateRawState wall (map rawComment (State.comments s)) s n
  = migrateState wall s n.
Proof.
  unfold migrateRawState, migrateState, migrateRawComments, migrateComments,
    bind.
  destruct (mapClock (migrateUser wall _) 0 (State.users s) n) as [us n1].
  destruct (mapClock (migratePost wall) 0 (State.posts s) n1) as [ps n2].
  destruct (mapClock (migrateLike wall) 0 (State.likes s) n2) as [ls n3].
  now rewrite normalizeRawComment_typed.
Qed.

(** C7. The migrator is not a fixed point on its own output. The snapshot
    holds one comment whose parent is 1.5, a truthy value that is no
    integer ([Raw.other]; a text that is no number behaves alike). The
    first run writes 0 as the parent, which the repair loop takes for no
    parent and leaves alone; the run on that output replaces the 0 by null,
    so the second output differs from the first. *)
Theorem migrate_rerun_clears_mistyped_parent :
  let stored :=
    [RawComment.mk Raw.other (sampleComment 1 1 1 None 0 "" false)] in
  let first := fst (migrateRawState sampleWall stored baseState 0%nat) in
  let second := fst (migrateState sampleWall first 0%nat) in
  map Comment.parent_comment_id (State.comments first) = [Some 0]
  /\ map Comment.path (State.comments first) = ["0000000001"]
  /\ map Comment.parent_comment_id (State.comments second) = [None]
  /\ second <> first.
Proof.
  cbv zeta. split; [reflexivity|]. split; [reflexivity|].
  split; [reflexivity|]. intros H.
  apply (f_equal (fun s => map Comment.parent_comment_id (State.comments s)))
    in H.
  discriminate H.
Qed.

(** * Further properties of the datastore *)

(** ** Counters at load time *)

Lemma maxId_fold {A : Type} (getId : A -> Z) (items : list A) (acc : Z) :
  let m :=
    fold_left (fun max item => if getId item >? max then getId item else max)
      items acc in
  acc <= m /\ forall x, In x items -> getId x <= m.
Proof.
  revert acc. induction items as [|y r IH]; intros acc; cbn.
  - split; [lia|tauto].
  - destruct (IH (if getId y >? acc then getId y else acc)) as [H1 H2].
    destruct (Z.gtb_spec (getId y) acc).
    + split; [lia|]. intros x [<-|Hx]; [lia|auto].
    + split; [lia|]. intros x [<-|Hx]; [lia|auto].
Qed.

Lemma maxId_ge {A : Type} (getId : A -> Z) (items : list A) (id : Z) :
  In id (map getId items) -> id <= maxId getId items.
Proof.
  intros H. apply in_map_iff in H. destruct H as (x & <- & Hx).
  now apply (maxId_fold getId items 0).
Qed.

Lemma hydrateCounters_ids (e : Entity.t) (s : State.t) :
  idsOf e (hydrateCounters s) = idsOf e s.
Proof. now destruct e. Qed.

Lemma hydrateCounters_cover (s : State.t) : countersCover (hydrateCounters s).
Proof.
  intros e id Hin. rewrite hydrateCounters_ids in Hin.
  destruct e; cbn in *; apply maxId_ge in Hin; lia.
Qed.

Lemma nextId_value (e : Entity.t) (s : State.t) :
  fst (nextId e s) = Counters.get e (State.counters s) + 1.
Proof.
  unfold nextId, orInt, toInt. cbn [fst].
  destruct (Z.eqb_spec (Counters.get e (State.counters s)) 0) as [->|];
    reflexivity.
Qed.

Lemma maxId_fold_In {A : Type} (getId : A -> Z) (items : list A) (acc : Z) :
  let m :=
    fold_left (fun max item => if getId item >? max then getId item else max)
      items acc in
  m = acc \/ In m (map getId items).
Proof.
  revert acc. induction items as [|y r IH]; intros acc; cbn; [now left|].
  destruct (IH (if getId y >? acc then getId y else acc)) as [H|H];
    [|now right; right].
  rewrite H. destruct (getId y >? acc); [right; now left|now left].
Qed.

Lemma maxId_safe {A : Type} (getId : A -> Z) (items : list A) :
  (forall id, In id (map getId items) -> isSafeInteger id) ->
  isSafeInteger (maxId getId items).
Proof.
  intros H. destruct (maxId_fold_In getId items 0) as [E|E].
  - unfold maxId. rewrite E. unfold isSafeInteger, MAX_SAFE_INTEGER. lia.
  - now apply H.
Qed.

Lemma hydrateCounters_safe (s : State.t) (e : Entity.t) :
  isSafeInteger (Counters.get e (State.counters s)) ->
  (forall id, In id (idsOf e s) -> isSafeInteger id) ->
  isSafeInteger (Counters.get e (State.counters (hydrateCounters s))).
Proof.
  intros Hc Hids.
  assert (Hmax : forall a b, isSafeInteger a -> isSafeInteger b ->
                             isSafeInteger (Z.max a b)).
  { unfold isSafeInteger. intros; lia. }
  destruct e; cbn in *; unfold toInt; apply Hmax; try assumption;
    now apply maxId_safe.
Qed.

(** X1. After [hydrateCounters] no collection holds an id above the
    counter of its entity, no counter has gone down, and nothing but the
    counters has changed: putting the old counters back gives the old
    store. When the counter and the ids of a collection are safe integers
    (below 2^53 in size), so is the new counter, and the id [nextId] hands
    out next is carried by no record of the collection. *)
Theorem hydrateCounters_makes_ids_fresh (s : State.t) (e : Entity.t) :
  (forall id, In id (idsOf e s) ->
              id <= Counters.get e (State.counters (hydrateCounters s)))
  /\ Counters.get e (State.counters s)
     <= Counters.get e (State.counters (hydrateCounters s))
  /\ State.setCounters (State.counters s) (hydrateCounters s) = s
  /\ (isSafeInteger (Counters.get e (State.counters s)) ->
      (forall id, In id (idsOf e s) -> isSafeInteger id) ->
      isSafeInteger (Counters.get e (State.counters (hydrateCounters s)))
      /\ ~ In (fst (nextId e (hydrateCounters s)))
             (idsOf e (hydrateCounters s))).
Proof.
  pose proof (hydrateCounters_cover s) as Hcover.
  split; [|split; [|split]].
  - intros id Hin. apply Hcover. now rewrite hydrateCounters_ids.
  - destruct e; cbn; unfold toInt; lia.
  - now destruct s.
  - intros Hc Hids. split; [now apply hydrateCounters_safe|].
    intros Hin. apply Hcover in Hin. rewrite nextId_value in Hin. lia.
Qed.

(** ** Start-up *)

Lemma seeded_not_empty (s : State.t) :
  State.categories (ensureCategoriesSeeded s) <> [].
Proof.
  unfold ensureCategoriesSeeded.
  destruct (State.categories s) as [|c r] eqn:E; cbn; [|now rewrite E].
  unfold seedCategory, nextId. cbn. rewrite E. discriminate.
Qed.

(** X2. The start-up sequence (migration, seeding, counters) ends in a
    store whose category list is not empty and whose counters are not below
    the ids in use; seeding leaves a list that is not empty as it is. *)
Theorem loadState_ready (wall : nat -> string) (sanitized : State.t)
    (n : nat) :
  State.categories (fst (loadState wall sanitized n)) <> []
  /\ countersCover (fst (loadState wall sanitized n))
  /\ (forall s : State.t,
        State.categories s <> [] -> ensureCategoriesSeeded s = s).
Proof.
  unfold loadState, bind, ret.
  destruct (migrateState wall sanitized n) as [migrated n1]. cbn [fst].
  split; [|split].
  - change (State.categories (hydrateCounters ?x)) with (State.categories x).
    apply seeded_not_empty.
  - apply hydrateCounters_cover.
  - intros s Hs. unfold ensureCategoriesSeeded.
    destruct (State.categories s); [contradiction|reflexivity].
Qed.

(** The seeding of an empty store and of the store it produces. *)
Lemma loadState_ready_witness :
  ensureCategoriesSeeded (ensureCategoriesSeeded baseState)
  = ensureCategoriesSeeded baseState.
Proof.
  destruct (loadState_ready sampleWall baseState 0) as (_ & _ & H).
  apply H. discriminate.
Defined.

(** ** User accounts *)

Lemma find_app_none {A : Type} (p : A -> bool) (l : list A) (x : A) :
  find p l = None -> find p (l ++ [x]) = if p x then Some x else None.
Proof.
  induction l as [|y r IH]; cbn; [reflexivity|].
  destruct (p y); [discriminate|exact IH].
Qed.

Lemma find_app_some {A : Type} (p : A -> bool) (l r : list A) (x : A) :
  find p l = Some x -> find p (l ++ r) = Some x.
Proof.
  induction l as [|y t IH]; cbn; [discriminate|].
  destruct (p y); auto.
Qed.

(** X3. [createUser] makes the new user an admin exactly when the store
    holds no user yet. When the counter of the users is a safe integer
    (below 2^53 in size, so that the source adds 1 to it exactly) and no
    stored user id is above it, the new user is found again under its id,
    and every user found before is still found. *)
Theorem createUser_lookup (now username email password_hash : string)
    (s : State.t) :
  isSafeInteger (Counters.users (State.counters s)) ->
  (forall u, In u (State.users s) ->
             User.id u <= Counters.users (State.counters s)) ->
  let user := fst (createUser now username email password_hash s) in
  let s' := snd (createUser now username email password_hash s) in
  User.id user = Counters.users (State.counters s) + 1
  /\ - MAX_SAFE_INTEGER < User.id user <= MAX_SAFE_INTEGER + 1
  /\ (User.role user = "admin" <-> State.users s = [])
  /\ (User.role user = "user" <-> State.users s <> [])
  /\ User.email user = normalizeText email
  /\ State.users s' = State.users s ++ [user]
  /\ getUserById s' (User.id user) = Some user
  /\ (forall id u, getUserById s id = Some u -> getUserById s' id = Some u).
Proof.
  intros Hsafe Hcover. unfold createUser.
  pose proof (nextId_value Entity.users s) as Hid.
  destruct (nextId Entity.users s) as [id s1] eqn:E.
  assert (Hs1 : State.users s1 = State.users s).
  { unfold nextId in E. injection E as _ <-. reflexivity. }
  cbn [fst snd] in *. cbn [User.id User.role User.email]. rewrite Hs1.
  split; [exact Hid|].
  split; [unfold isSafeInteger in Hsafe; cbn in Hid; lia|].
  split; [|split; [|split; [|split; [|split]]]].
  - destruct (State.users s); cbn; split; intros H; congruence.
  - destruct (State.users s); cbn; split; intros H; congruence.
  - reflexivity.
  - reflexivity.
  - unfold getUserById, toInt. cbn [State.users withUsers].
    rewrite find_app_none; [cbn; now rewrite Z.eqb_refl|].
    destruct (find _ (State.users s)) as [u|] eqn:F; [|reflexivity].
    apply find_some in F. destruct F as [Hin Heq].
    apply Z.eqb_eq in Heq. apply Hcover in Hin. cbn in Hid. lia.
  - intros id0 u Hu. unfold getUserById in *. cbn [State.users withUsers].
    now apply find_app_some.
Qed.

(** The second user of a store that holds one. *)
Lemma createUser_lookup_witness :
  let user :=
    fst (createUser "2026-01-03T00:00:00.000Z" " Cy " "Cy@Example.org" "h3"
           twoUsers) in
  User.id user = 3 /\ User.role user = "user"
  /\ User.email user = "cy@example.org".
Proof.
  destruct (createUser_lookup "2026-01-03T00:00:00.000Z" " Cy "
              "Cy@Example.org" "h3" twoUsers)
    as (H1 & _ & _ & H3 & H4 & _).
  - unfold isSafeInteger, MAX_SAFE_INTEGER. cbn. lia.
  - intros u [<-|[<-|[]]]; cbn; lia.
  - split; [exact H1|]. split; [|exact H4]. apply H3. discriminate.
Defined.

(** The counters of the store of two users after [hydrateCounters]. *)
Lemma hydrateCounters_makes_ids_fresh_witness :
  2 <= Counters.users (State.counters (hydrateCounters twoUsers))
  /\ isSafeInteger (Counters.users (State.counters (hydrateCounters twoUsers)))
  /\ ~ In (fst (nextId Entity.users (hydrateCounters twoUsers)))
         (idsOf Entity.users (hydrateCounters twoUsers)).
Proof.
  destruct (hydrateCounters_makes_ids_fresh twoUsers Entity.users)
    as (H & _ & _ & Hfresh).
  split; [apply (H 2); cbn; auto|]. apply Hfresh.
  - unfold isSafeInteger, MAX_SAFE_INTEGER. cbn. lia.
  - intros id [<-|[<-|[]]]; unfold isSafeInteger, MAX_SAFE_INTEGER; cbn;
      lia.
Defined.

Lemma find_all_false {A : Type} (p : A -> bool) (l : list A) :
  (forall x, In x l -> p x = false) -> find p l = None.
Proof.
  induction l as [|y r IH]; cbn; [reflexivity|]. intros H.
  rewrite (H y) by auto. apply IH. intros x Hx. apply H. auto.
Qed.

Lemma find_middle {A : Type} (p : A -> bool) (before after : list A) (x : A) :
  Forall (fun y => p y = false) before -> p x = true ->
  find p (before ++ x :: after) = Some x.
Proof.
  induction 1 as [|y r Hy _ IH]; cbn; intros Hx.
  - now rewrite Hx.
  - rewrite Hy. now apply IH.
Qed.

Lemma isRole_cases (role : string) :
  isRole role = true -> role = "user" \/ role = "moderator" \/ role = "admin".
Proof.
  unfold isRole, includes. cbn.
  destruct (String.eqb_spec role "user"); [auto|].
  destruct (String.eqb_spec role "moderator"); [auto|].
  destruct (String.eqb_spec role "admin"); [auto|discriminate].
Qed.

(** X4. [updateUserRole] refuses a role outside the list and an unknown
    user, leaving the store as it is. Otherwise the first user of that id,
    and no other, gets the role, and the capabilities read from the stored
    user follow it: the user may moderate exactly when the role is
    moderator or admin, and administer exactly when it is admin. *)
Theorem updateUserRole_capability (id : Z) (role : string) (s : State.t) :
  (isRole role = false -> updateUserRole id role s = (None, s))
  /\ (getUserById s id = None -> updateUserRole id role s = (None, s))
  /\ (forall u,
        getUserById s id = Some u -> isRole role = true ->
        exists before after u' s',
          updateUserRole id role s = (Some u', s')
          /\ State.users s = before ++ u :: after
          /\ State.users s' = before ++ u' :: after
          /\ User.role u' = role
          /\ User.id u' = User.id u
          /\ User.status u' = User.status u
          /\ User.password_hash u' = User.password_hash u
          /\ getUserById s' id = Some u'
          /\ canUserModerate (toPublicUserOpt (getUserById s' id))
             = isModeratorRole role
          /\ canUserAdmin (toPublicUserOpt (getUserById s' id))
             = isAdminRole role).
Proof.
  unfold updateUserRole. split; [|split].
  - intros H. rewrite H. now destruct (getUserById s id).
  - now intros ->.
  - intros u Hfind Hrole. rewrite Hfind, Hrole. cbn [negb].
    unfold getUserById in Hfind.
    destruct (find_split _ _ _ Hfind) as (before & after & Hl & Hu & Hb).
    exists before, after. eexists _, _. split; [reflexivity|].
    split; [exact Hl|].
    assert (Hfound :
      getUserById
        (withUsers (updateFirst (isUser id) (setRole role) (State.users s)) s)
        id = Some (setRole role u)).
    { unfold getUserById. cbn [State.users withUsers].
      apply find_updateFirst; [exact Hfind|exact Hu]. }
    rewrite Hfound. cbn [State.users withUsers]. rewrite Hl.
    rewrite (updateFirst_split (isUser id)) by assumption.
    repeat split. 
    + cbn. unfold orStr.
      destruct (isRole_cases _ Hrole) as [-> | [-> | ->]]; reflexivity.
    + cbn. unfold orStr.
      destruct (isRole_cases _ Hrole) as [-> | [-> | ->]]; reflexivity.
Qed.

(** The second user of [twoUsers] made a moderator. *)
Lemma updateUserRole_capability_witness :
  updateUserRole 2 "owner" twoUsers = (None, twoUsers)
  /\ canUserModerate
       (toPublicUserOpt
          (getUserById (snd (updateUserRole 2 "moderator" twoUsers)) 2))
     = true.
Proof.
  destruct (updateUserRole_capability 2 "owner" twoUsers) as (Hbad & _).
  destruct (updateUserRole_capability 2 "moderator" twoUsers)
    as (_ & _ & Hok).
  split; [apply Hbad; reflexivity|].
  destruct (Hok _ eq_refl eq_refl)
    as (b & a & u' & s' & H1 & _ & _ & _ & _ & _ & _ & _ & H9 & _).
  rewrite H1. exact H9.
Defined.

(** ** Tokens *)

Section TokenFacts.

Variable getTime : string -> Z.

Lemma tokenValid_other (now : Z) (tokenHash : string)
    (stored expires : option string) :
  stored <> Some tokenHash ->
  tokenValid getTime now tokenHash stored expires = false.
Proof.
  intros H. unfold tokenValid. destruct stored as [h|]; [|reflexivity].
  destruct (h =? "")%string; [reflexivity|].
  destruct (String.eqb_spec h tokenHash) as [->|]; [congruence|reflexivity].
Qed.

Lemma tokenValid_fresh (now : Z) (tokenHash expiresAt : string) :
  tokenHash <> "" -> expiresAt <> "" ->
  tokenValid getTime now tokenHash (Some tokenHash) (Some expiresAt)
  = (getTime expiresAt >=? now).
Proof.
  intros H1 H2. unfold tokenValid.
  apply String.eqb_neq in H1. apply String.eqb_neq in H2.
  now rewrite H1, H2, String.eqb_refl.
Qed.

(** X5. A verification token set for a user by [setVerificationToken],
    held by no other user, verifies that user while it has not expired: the
    user comes back verified with the token cleared, and the same token
    verifies nobody afterwards. After its expiry it verifies nobody and the
    store is unchanged. *)
Theorem verification_token_single_use (s : State.t) (userId : Z)
    (tokenHash expiresAt : string) (now : Z) (u : User.t) :
  getUserById s userId = Some u ->
  tokenHash <> "" -> expiresAt <> "" ->
  (forall x, In x (State.users s) ->
             User.verification_token_hash x <> Some tokenHash) ->
  let s1 := snd (setVerificationToken userId tokenHash expiresAt s) in
  (now <= getTime expiresAt ->
   exists v s2,
     verifyUserByTokenHash getTime now tokenHash s1 = (Some v, s2)
     /\ User.id v = User.id u
     /\ User.email_verified v = Some true
     /\ User.verification_token_hash v = None
     /\ User.verification_expires_at v = None
     /\ getUserById s2 userId = Some v
     /\ forall later,
          verifyUserByTokenHash getTime later tokenHash s2 = (None, s2))
  /\ (getTime expiresAt < now ->
      verifyUserByTokenHash getTime now tokenHash s1 = (None, s1)).
Proof.
  intros Hfind Hhash Hexp Hfresh s1.
  unfold getUserById in Hfind.
  destruct (find_split _ _ _ Hfind) as (before & after & Hl & Hu & Hb).
  set (set1 := fun x : User.t =>
         setVerification (User.email_verified x) (Some tokenHash)
           (Some expiresAt) x).
  assert (Hs1 : State.users s1 = before ++ set1 u :: after).
  { unfold s1, setVerificationToken, getUserById. rewrite Hfind.
    cbn [snd State.users withUsers]. rewrite Hl.
    now rewrite (updateFirst_split (isUser userId)). }
  assert (Hothers : forall x, In x (before ++ after) ->
            User.verification_token_hash x <> Some tokenHash).
  { intros x Hx. apply Hfresh. rewrite Hl. apply in_app_iff in Hx.
    apply in_app_iff. cbn. tauto. }
  assert (Hbefore : forall t, Forall
            (fun y => holdsVerification getTime t tokenHash y = false) before).
  { intros t. apply Forall_forall. intros x Hx. apply tokenValid_other.
    apply Hothers, in_app_iff. now left. }
  split.
  - intros Hnow.
    assert (Hheld : holdsVerification getTime now tokenHash (set1 u) = true).
    { unfold holdsVerification, set1, setVerification. fields.
      rewrite tokenValid_fresh by assumption. apply Z.geb_le. lia. }
    unfold verifyUserByTokenHash. rewrite Hs1.
    rewrite (find_middle _ _ _ _ (Hbefore now) Hheld).
    eexists _, _. split; [reflexivity|].
    rewrite (updateFirst_split _ _ _ _ _ (Hbefore now) Hheld).
    repeat split.
    + unfold getUserById. cbn [State.users withUsers].
      apply find_middle; [exact Hb|exact Hu].
    + intros later. cbn [State.users withUsers].
      rewrite find_all_false; [reflexivity|].
      intros x Hx. apply tokenValid_other.
      apply in_app_iff in Hx. destruct Hx as [Hx|[<-|Hx]].
      * apply Hothers, in_app_iff. now left.
      * cbn. discriminate.
      * apply Hothers, in_app_iff. now right.
  - intros Hlate. unfold verifyUserByTokenHash. rewrite Hs1.
    rewrite find_all_false; [reflexivity|].
    intros x Hx. apply in_app_iff in Hx. destruct Hx as [Hx|[<-|Hx]].
    + apply tokenValid_other, Hothers, in_app_iff. now left.
    + unfold holdsVerification, set1, setVerification. fields.
      rewrite tokenValid_fresh by assumption.
      destruct (Z.geb_spec (getTime expiresAt) now); [lia|reflexivity].
    + apply tokenValid_other, Hothers, in_app_iff. now right.
Qed.

(** X6. A reset token set by [setResetToken], held by no other user, lets
    [resetPasswordByTokenHash] replace the password of that user while it
    has not expired; the token is cleared by it and resets nothing
    afterwards. After its expiry nothing is reset. *)
Theorem reset_token_single_use (s : State.t) (userId : Z)
    (tokenHash expiresAt passwordHash : string) (now : Z) (u : User.t) :
  getUserById s userId = Some u ->
  tokenHash <> "" -> expiresAt <> "" ->
  (forall x, In x (State.users s) ->
             User.reset_token_hash x <> Some tokenHash) ->
  let s1 := snd (setResetToken userId tokenHash expiresAt s) in
  (now <= getTime expiresAt ->
   exists v s2,
     resetPasswordByTokenHash getTime now tokenHash passwordHash s1
     = (Some v, s2)
     /\ User.id v = User.id u
     /\ User.password_hash v = passwordHash
     /\ User.reset_token_hash v = None
     /\ User.reset_expires_at v = None
     /\ User.role v = User.role u
     /\ getUserById s2 userId = Some v
     /\ forall later otherHash,
          resetPasswordByTokenHash getTime later tokenHash otherHash s2
          = (None, s2))
  /\ (getTime expiresAt < now ->
      getUserByResetTokenHash getTime now tokenHash s1 = None
      /\ resetPasswordByTokenHash getTime now tokenHash passwordHash s1
         = (None, s1)).
Proof.
  intros Hfind Hhash Hexp Hfresh s1.
  unfold getUserById in Hfind.
  destruct (find_split _ _ _ Hfind) as (before & after & Hl & Hu & Hb).
  set (set1 := fun x : User.t =>
         setReset (User.password_hash x) (Some tokenHash) (Some expiresAt) x).
  assert (Hs1 : State.users s1 = before ++ set1 u :: after).
  { unfold s1, setResetToken, getUserById. rewrite Hfind.
    cbn [snd State.users withUsers]. rewrite Hl.
    now rewrite (updateFirst_split (isUser userId)). }
  assert (Hothers : forall x, In x (before ++ after) ->
            User.reset_token_hash x <> Some tokenHash).
  { intros x Hx. apply Hfresh. rewrite Hl. apply in_app_iff in Hx.
    apply in_app_iff. cbn. tauto. }
  assert (Hbefore : forall t, Forall
            (fun y => holdsReset getTime t tokenHash y = false) before).
  { intros t. apply Forall_forall. intros x Hx. apply tokenValid_other.
    apply Hothers, in_app_iff. now left. }
  split.
  - intros Hnow.
    assert (Hheld : holdsReset getTime now tokenHash (set1 u) = true).
    { unfold holdsReset, set1, setReset. fields.
      rewrite tokenValid_fresh by assumption. apply Z.geb_le. lia. }
    unfold resetPasswordByTokenHash, getUserByResetTokenHash. rewrite Hs1.
    rewrite (find_middle _ _ _ _ (Hbefore now) Hheld).
    eexists _, _. split; [reflexivity|].
    rewrite (updateFirst_split _ _ _ _ _ (Hbefore now) Hheld).
    repeat split.
    + unfold getUserById. cbn [State.users withUsers].
      apply find_middle; [exact Hb|exact Hu].
    + intros later otherHash. cbn [State.users withUsers].
      rewrite find_all_false; [reflexivity|].
      intros x Hx. apply tokenValid_other.
      apply in_app_iff in Hx. destruct Hx as [Hx|[<-|Hx]].
      * apply Hothers, in_app_iff. now left.
      * cbn. discriminate.
      * apply Hothers, in_app_iff. now right.
  - intros Hlate.
    assert (Hnone : getUserByResetTokenHash getTime now tokenHash s1 = None).
    { unfold getUserByResetTokenHash. rewrite Hs1.
      apply find_all_false.
      intros x Hx. apply in_app_iff in Hx. destruct Hx as [Hx|[<-|Hx]].
      + apply tokenValid_other, Hothers, in_app_iff. now left.
      + unfold holdsReset, set1, setReset. fields.
        rewrite tokenValid_fresh by assumption.
        destruct (Z.geb_spec (getTime expiresAt) now); [lia|reflexivity].
      + apply tokenValid_other, Hothers, in_app_iff. now right. }
    split; [exact Hnone|]. unfold resetPasswordByTokenHash. now rewrite Hnone.
Qed.

End TokenFacts.

(** A token for the second user of [twoUsers], expiring at 1000. *)
Lemma verification_token_single_use_witness :
  (exists v s2,
      verifyUserByTokenHash (fun _ => 1000) 500 sampleHash
        (snd (setVerificationToken 2 sampleHash sampleExpiry twoUsers))
      = (Some v, s2)
      /\ User.id v = 2
      /\ User.email_verified v = Some true
      /\ verifyUserByTokenHash (fun _ => 1000) 600 sampleHash s2 = (None, s2))
  /\ fst
       (verifyUserByTokenHash (fun _ => 1000) 2000 sampleHash
          (snd (setVerificationToken 2 sampleHash sampleExpiry twoUsers)))
     = None.
Proof.
  destruct (verification_token_single_use (fun _ => 1000) twoUsers 2
              sampleHash sampleExpiry 500
              (User.mk 2 "bob" "bob@example.org" "h2" "" ""
                 "2026-01-02T00:00:00.000Z" "user" "active" (Some false)
                 None None None None)) as [Hok _];
    [reflexivity|discriminate|discriminate| |].
  { intros x [<-|[<-|[]]]; discriminate. }
  destruct (verification_token_single_use (fun _ => 1000) twoUsers 2
              sampleHash sampleExpiry 2000
              (User.mk 2 "bob" "bob@example.org" "h2" "" ""
                 "2026-01-02T00:00:00.000Z" "user" "active" (Some false)
                 None None None None)) as [_ Hlate];
    [reflexivity|discriminate|discriminate| |].
  { intros x [<-|[<-|[]]]; discriminate. }
  split.
  - destruct (Hok ltac:(lia)) as (v & s2 & H1 & H2 & H3 & _ & _ & _ & H7).
    exists v, s2. repeat split; auto.
  - rewrite Hlate by lia. reflexivity.
Defined.

(** A reset token for the second user of [twoUsers], expiring at 1000. *)
Lemma reset_token_single_use_witness :
  (exists v s2,
      resetPasswordByTokenHash (fun _ => 1000) 500 sampleHash "h9"
        (snd (setResetToken 2 sampleHash sampleExpiry twoUsers))
      = (Some v, s2)
      /\ User.id v = 2
      /\ User.password_hash v = "h9"
      /\ resetPasswordByTokenHash (fun _ => 1000) 600 sampleHash "h10" s2
         = (None, s2))
  /\ getUserByResetTokenHash (fun _ => 1000) 2000 sampleHash
       (snd (setResetToken 2 sampleHash sampleExpiry twoUsers))
     = None.
Proof.
  destruct (reset_token_single_use (fun _ => 1000) twoUsers 2 sampleHash
              sampleExpiry "h9" 500
              (User.mk 2 "bob" "bob@example.org" "h2" "" ""
                 "2026-01-02T00:00:00.000Z" "user" "active" (Some false)
                 None None None None)) as [Hok _];
    [reflexivity|discriminate|discriminate| |].
  { intros x [<-|[<-|[]]]; discriminate. }
  destruct (reset_token_single_use (fun _ => 1000) twoUsers 2 sampleHash
              sampleExpiry "h9" 2000
              (User.mk 2 "bob" "bob@example.org" "h2" "" ""
                 "2026-01-02T00:00:00.000Z" "user" "active" (Some false)
                 None None None None)) as [_ Hlate];
    [reflexivity|discriminate|discriminate| |].
  { intros x [<-|[<-|[]]]; discriminate. }
  split.
  - destruct (Hok ltac:(lia)) as (v & s2 & H1 & H2 & H3 & _ & _ & _ & _ & H8).
    exists v, s2. repeat split; auto.
  - apply Hlate. lia.
Defined.

(** ** Hidden posts *)

Section FeedFacts.

Variable getTime : string -> Z.
Variable collate : string -> string -> Z.

Lemma viewerOf_users (s s' : State.t) (viewerId : option Z) :
  State.users s' = State.users s -> viewerOf s' viewerId = viewerOf s viewerId.
Proof.
  intros H. unfold viewerOf, getUserById. now rewrite H.
Qed.

(** X7. Once [hidePost] has hidden a post, [getPostById] answers null to
    the anonymous viewer and to every viewer who is neither the author nor
    a moderator or admin; the author and the staff still get the post, with
    the flag and the reason; after [unhidePost] every viewer gets it. *)
Theorem hidePost_visibility (s : State.t) (postId : Z) (reason : string)
    (p : Post.t) :
  getPostRawById s postId = Some p ->
  let s1 := snd (hidePost postId reason s) in
  let s2 := snd (unhidePost postId s1) in
  getPostById getTime collate s1 postId None = None
  /\ (forall viewerId,
        canViewHidden (viewerOf s viewerId) (Post.user_id p) = false ->
        getPostById getTime collate s1 postId viewerId = None)
  /\ (forall viewerId,
        canViewHidden (viewerOf s viewerId) (Post.user_id p) = true ->
        exists view,
          getPostById getTime collate s1 postId viewerId = Some view
          /\ PostView.id view = Post.id p
          /\ PostView.title view = Post.title p
          /\ PostView.is_hidden view = true
          /\ PostView.hidden_reason view = reason)
  /\ (forall viewerId,
        exists view,
          getPostById getTime collate s2 postId viewerId = Some view
          /\ PostView.id view = Post.id p
          /\ PostView.is_hidden view = false).
Proof.
  intros Hfind s1 s2.
  assert (H1 : getPostRawById s1 postId = Some (setPostHidden true reason p)).
  { unfold s1, hidePost. rewrite Hfind. unfold getPostRawById in *.
    cbn [snd State.posts withPosts].
    apply find_updateFirst; [exact Hfind|].
    apply find_some in Hfind. tauto. }
  assert (Hu1 : forall v, viewerOf s1 v = viewerOf s v).
  { intros v. apply viewerOf_users. unfold s1, hidePost.
    now destruct (getPostRawById s postId). }
  assert (H2 : getPostRawById s2 postId
               = Some (setPostHidden false "" (setPostHidden true reason p))).
  { unfold s2, unhidePost. rewrite H1. unfold getPostRawById in *.
    cbn [snd State.posts withPosts].
    apply find_updateFirst; [exact H1|].
    apply find_some in Hfind. tauto. }
  assert (Hhidden : forall viewerId,
            canViewHidden (viewerOf s viewerId) (Post.user_id p) = false ->
            getPostById getTime collate s1 postId viewerId = None).
  { intros viewerId Hv. unfold getPostById. rewrite H1, Hu1.
    unfold canSeeHiddenPost. cbn. now rewrite Hv. }
  split; [apply Hhidden; reflexivity|]. split; [exact Hhidden|]. split.
  - intros viewerId Hv. unfold getPostById. rewrite H1, Hu1.
    unfold canSeeHiddenPost. cbn [Post.is_hidden setPostHidden negb Post.user_id].
    rewrite Hv. cbn [negb]. eexists. split; [reflexivity|].
    cbn. unfold orStr. repeat split.
    now destruct (String.eqb_spec reason "").
  - intros viewerId. unfold getPostById. rewrite H2.
    unfold canSeeHiddenPost. cbn [Post.is_hidden setPostHidden negb].
    eexists. split; [reflexivity|]. cbn. auto.
Qed.

(** ** The feed *)

Lemma newestFirst_sorted (l : list Post.t) :
  StronglySorted
    (fun a b => getTime (Post.created_at b) <= getTime (Post.created_at a))
    (Js.sort (newestFirst getTime) l).
Proof.
  assert (H : StronglySorted (fun a b => newestFirst getTime a b <= 0)
                (Js.sort (newestFirst getTime) l)).
  { apply sort_sorted; unfold newestFirst; intros; lia. }
  induction H as [|x r _ IH Hx]; constructor; auto.
  eapply Forall_impl; [|exact Hx]. unfold newestFirst. intros; lia.
Qed.

(** X8. Every post of [filterPostsForFeed] is a post of the store that the
    viewer may see; it has the category of the slug when the slug names
    one, carries the tag when the slug names one, and its search text
    holds the normalized query when there is one. The list is ordered
    newest first, and an anonymous viewer gets no hidden post. *)
Theorem feed_is_filtered (s : State.t) (viewerId : option Z)
    (categorySlug tagSlug query : string) (post : Post.t) :
  In post
    (filterPostsForFeed getTime collate s viewerId categorySlug tagSlug
       query) ->
  In post (State.posts s)
  /\ canSeeHiddenPost post (viewerOf s viewerId) = true
  /\ (viewerOf s viewerId = None -> Post.is_hidden post = false)
  /\ (forall c,
        categorySlug <> "" -> getCategoryBySlug s categorySlug = Some c ->
        Post.category_id post = Category.id c)
  /\ (forall t,
        tagSlug <> "" -> getTagBySlug s tagSlug = Some t ->
        exists relation,
          In relation (State.post_tags s)
          /\ PostTag.post_id relation = Post.id post
          /\ PostTag.tag_id relation = Tag.id t)
  /\ (normalizeText query <> "" ->
      strIncludes (buildSearchText collate s post) (normalizeText query)
      = true)
  /\ StronglySorted
       (fun a b => getTime (Post.created_at b) <= getTime (Post.created_at a))
       (filterPostsForFeed getTime collate s viewerId categorySlug tagSlug
          query).
Proof.
  unfold filterPostsForFeed. intros Hin.
  apply In_sort, filter_In in Hin. destruct Hin as [Hpost Hkeep].
  unfold feedKeeps in Hkeep.
  destruct (canSeeHiddenPost post (viewerOf s viewerId)) eqn:Hsee;
    [|discriminate]. cbn [negb] in Hkeep.
  split; [exact Hpost|]. split; [reflexivity|]. split.
  { intros Hanon. unfold canSeeHiddenPost in Hsee. rewrite Hanon in Hsee.
    destruct (Post.is_hidden post); [discriminate|reflexivity]. }
  split.
  { intros c Hslug Hc. apply String.eqb_neq in Hslug.
    rewrite Hslug, Hc in Hkeep.
    destruct (Z.eqb_spec (Post.category_id post) (Category.id c));
      [assumption|discriminate]. }
  split.
  { intros t Hslug Ht. apply String.eqb_neq in Hslug.
    rewrite Hslug, Ht in Hkeep.
    destruct (match (if (categorySlug =? "")%string then None
                     else getCategoryBySlug s categorySlug) with
              | Some c => negb (Post.category_id post =? Category.id c)
              | None => false
              end); [discriminate|].
    destruct (existsb _ _) eqn:Hex; [|discriminate].
    apply existsb_exists in Hex. destruct Hex as (pid & Hpid & Heq).
    apply Z.eqb_eq in Heq. apply in_map_iff in Hpid.
    destruct Hpid as (relation & Hr & Hrel). apply filter_In in Hrel.
    destruct Hrel as [Hrel Htag]. apply Z.eqb_eq in Htag.
    exists relation. repeat split; congruence. }
  split.
  { intros Hq. apply String.eqb_neq in Hq. rewrite Hq in Hkeep.
    do 2 match type of Hkeep with
         | (if ?c then false else _) = true => destruct c; [discriminate|]
         end.
    cbn [negb andb] in Hkeep.
    now destruct (strIncludes _ _). }
  apply newestFirst_sorted.
Qed.

(** X9. A category slug or a tag slug that names nothing does not filter:
    the feed is the one obtained without that slug, not an empty one. *)
Theorem feed_ignores_unknown_slug (s : State.t) (viewerId : option Z)
    (categorySlug tagSlug query : string) :
  (getCategoryBySlug s categorySlug = None ->
   filterPostsForFeed getTime collate s viewerId categorySlug tagSlug query
   = filterPostsForFeed getTime collate s viewerId "" tagSlug query)
  /\ (getTagBySlug s tagSlug = None ->
      filterPostsForFeed getTime collate s viewerId categorySlug tagSlug query
      = filterPostsForFeed getTime collate s viewerId categorySlug "" query).
Proof.
  unfold filterPostsForFeed. split; intros H; rewrite H; cbn [String.eqb].
  - now destruct (categorySlug =? "")%string.
  - now destruct (tagSlug =? "")%string.
Qed.

Lemma paginate_page {A : Type} (items : list A) (page pageSize : Z) :
  let r := paginate items page pageSize in
  1 <= Page.pageSize r <= 30
  /\ Z.of_nat (List.length (Page.items r)) <= Page.pageSize r
  /\ Page.total r = Z.of_nat (List.length items)
  /\ forall x, In x (Page.items r) -> In x items.
Proof.
  cbv zeta. unfold paginate, MAX_PAGE_SIZE.
  cbn [Page.pageSize Page.items Page.total].
  set (size := Z.min (Z.max (orInt pageSize 10) 1) 30).
  set (pages := Z.max 1 (ceilDiv (Z.of_nat (List.length items)) size)).
  set (safePage := Z.min (Z.max (orInt page 1) 1) pages).
  assert (Hs : 1 <= size <= 30) by (unfold size; lia).
  assert (Hp : 1 <= safePage) by (unfold safePage, pages; lia).
  split; [exact Hs|]. split; [apply length_slice; nia|].
  split; [reflexivity|]. intros x. apply In_slice.
Qed.

(** X10. A page of [getFeedPosts] (and of [getSearchPosts]) holds at most
    [pageSize] posts and never more than 30, whatever size is asked for;
    each of them is the decoration of a post of the filtered feed, which
    the viewer may see, and [total] is the length of that feed. *)
Theorem getFeedPosts_page (s : State.t) (viewerId : option Z)
    (categorySlug tagSlug query : string) (page pageSize : Z) :
  let feed :=
    filterPostsForFeed getTime collate s viewerId categorySlug tagSlug
      query in
  let r :=
    getFeedPosts getTime collate s viewerId categorySlug tagSlug query page
      pageSize in
  Z.of_nat (List.length (Page.items r)) <= Page.pageSize r
  /\ Page.pageSize r <= 30
  /\ Page.total r = Z.of_nat (List.length feed)
  /\ (forall view,
        In view (Page.items r) ->
        exists post,
          In post feed
          /\ view = decoratePost getTime collate s post viewerId
          /\ PostView.id view = Post.id post
          /\ canSeeHiddenPost post (viewerOf s viewerId) = true)
  /\ getSearchPosts getTime collate s viewerId query page pageSize
     = getFeedPosts getTime collate s viewerId "" "" query page pageSize.
Proof.
  cbv zeta. unfold getFeedPosts.
  cbn [Page.items Page.pageSize Page.total].
  set (feed := filterPostsForFeed _ _ _ _ _ _ _).
  destruct (paginate_page feed page pageSize) as (Hsize & Hlen & Htotal & Hin).
  rewrite length_map.
  split; [exact Hlen|]. split; [lia|]. split; [exact Htotal|].
  split; [|reflexivity].
  intros view Hview. apply in_map_iff in Hview.
  destruct Hview as (post & <- & Hpost). apply Hin in Hpost.
  exists post. split; [exact Hpost|]. split; [reflexivity|].
  split; [reflexivity|].
  unfold feed, filterPostsForFeed in Hpost.
  apply In_sort, filter_In in Hpost. destruct Hpost as [_ Hkeep].
  unfold feedKeeps in Hkeep.
  now destruct (canSeeHiddenPost post (viewerOf s viewerId)).
Qed.

(** X11. Every post on a page of [getUserBookmarks] is the decoration of a
    post that a bookmark of that user points to and that the user may see:
    a bookmarked post hidden since (and not the user's own, the user not
    being staff) is left out. A page holds at most 30 posts. *)
Theorem getUserBookmarks_page (s : State.t) (userId : Z) (page pageSize : Z)
    (view : PostView.t) :
  In view (Page.items (getUserBookmarks getTime collate s userId page pageSize)) ->
  (exists bookmark post,
      In bookmark (State.bookmarks s)
      /\ Bookmark.user_id bookmark = userId
      /\ getPostRawById s (Bookmark.post_id bookmark) = Some post
      /\ canSeeHiddenPost post (toPublicUserOpt (getUserById s userId)) = true
      /\ view = decoratePost getTime collate s post (Some userId)
      /\ PostView.id view = Post.id post)
  /\ Z.of_nat
       (List.length
          (Page.items (getUserBookmarks getTime collate s userId page pageSize)))
     <= 30.
Proof.
  unfold getUserBookmarks. cbn [Page.items]. intros Hview.
  match goal with
  | H : In view (map _ (Page.items (paginate ?l _ _))) |- _ =>
      destruct (paginate_page l page pageSize) as (Hsize & Hlen & _ & Hin)
  end.
  split.
  - apply in_map_iff in Hview. destruct Hview as (post & <- & Hpost).
    apply Hin, filter_In in Hpost. destruct Hpost as [Hpost Hsee].
    apply in_flat_map in Hpost. destruct Hpost as (pid & Hpid & Hraw).
    apply in_map_iff in Hpid. destruct Hpid as (bookmark & <- & Hb).
    apply In_sort, filter_In in Hb. destruct Hb as [Hb Huser].
    apply Z.eqb_eq in Huser.
    destruct (getPostRawById s (Bookmark.post_id bookmark)) as [q|] eqn:Hq;
      [|destruct Hraw].
    destruct Hraw as [<-|[]].
    exists bookmark, q. repeat split; auto.
  - rewrite length_map. lia.
Qed.

End FeedFacts.

(** Post 1 of [smallSite], hidden and shown again. *)
Lemma hidePost_visibility_witness :
  getPostById sampleTime sampleCollate (snd (hidePost 1 "spam" smallSite)) 1
    (Some 2) = None
  /\ exists view,
       getPostById sampleTime sampleCollate (snd (hidePost 1 "spam" smallSite))
         1 (Some 1) = Some view
       /\ PostView.hidden_reason view = "spam".
Proof.
  destruct (hidePost_visibility sampleTime sampleCollate smallSite 1 "spam" (samplePost 1 1 false)
              eq_refl) as (_ & Hno & Hyes & _).
  split.
  - apply Hno. reflexivity.
  - destruct (Hyes (Some 1) eq_refl) as (view & H1 & _ & _ & _ & H5).
    exists view. split; assumption.
Defined.

(** The feed of [smallSite] for the category gear, seen by nobody. *)
Lemma feed_is_filtered_witness :
  Post.is_hidden (samplePost 1 1 false) = false
  /\ Post.category_id (samplePost 1 1 false) = 1.
Proof.
  destruct (feed_is_filtered sampleTime sampleCollate smallSite None "gear" "" ""
              (samplePost 1 1 false)) as (_ & _ & H3 & H4 & _).
  - cbn. left. reflexivity.
  - split; [apply H3; reflexivity|].
    apply (H4 (Category.mk 1 "Gear" "gear" "" 1)); [discriminate|reflexivity].
Defined.

(** The category drones is unknown to [smallSite]. *)
Lemma feed_ignores_unknown_slug_witness :
  filterPostsForFeed sampleTime sampleCollate smallSite None "drones" "" ""
  = filterPostsForFeed sampleTime sampleCollate smallSite None "" "" "".
Proof.
  destruct (feed_ignores_unknown_slug sampleTime sampleCollate smallSite None "drones" "" "")
    as [H _].
  apply H. reflexivity.
Defined.

(** The bookmark of the second user of [smallSite]. *)
Lemma getUserBookmarks_page_witness :
  exists bookmark post,
    In bookmark (State.bookmarks smallSite)
    /\ Bookmark.user_id bookmark = 2
    /\ getPostRawById smallSite (Bookmark.post_id bookmark) = Some post
    /\ Post.id post = 1.
Proof.
  destruct (getUserBookmarks_page sampleTime sampleCollate smallSite 2 1 10
              (decoratePost sampleTime sampleCollate smallSite
                 (samplePost 1 1 false) (Some 2)))
    as [(bookmark & post & H1 & H2 & H3 & _ & _ & H6) _].
  - cbn. left. reflexivity.
  - exists bookmark, post. repeat split; auto.
Defined.

(** ** Tags *)

Lemma find_none_existsb {A : Type} (p : A -> bool) (l : list A) :
  find p l = None -> existsb p l = false.
Proof.
  induction l as [|y r IH]; cbn; [reflexivity|].
  destruct (p y); [discriminate|exact IH].
Qed.

Lemma slug_not_in (tags : list Tag.t) (slug : string) :
  find (fun tag => (Tag.slug tag =? slug)%string) tags = None ->
  ~ In slug (map Tag.slug tags).
Proof.
  intros Hnone Hin. apply in_map_iff in Hin. destruct Hin as (t & Ht & Hin).
  apply (find_none _ _ Hnone) in Hin. cbn in Hin.
  apply String.eqb_neq in Hin. contradiction.
Qed.

Lemma NoDup_snoc {A : Type} (l : list A) (x : A) :
  NoDup l -> ~ In x l -> NoDup (l ++ [x]).
Proof.
  intros Hl Hx. apply NoDup_app; [exact Hl|repeat constructor; auto|].
  intros y Hy [<-|[]]. contradiction.
Qed.

(** What a call of [getOrCreateTag] returns and does to the store. *)
Lemma getOrCreateTag_run (wall : nat -> string) (nameInput : string)
    (s : State.t) (n : nat) :
  let slug := slugify (Js.trim nameInput) in
  (slug = ""
   /\ getOrCreateTag wall nameInput s n = (None, s, n))
  \/ (slug <> ""
      /\ exists tag,
           getTagBySlug s slug = Some tag
           /\ getOrCreateTag wall nameInput s n = (Some tag, s, n))
  \/ (slug <> ""
      /\ getTagBySlug s slug = None
      /\ let tag :=
           Tag.mk (Counters.tags (State.counters s) + 1) (Js.trim nameInput)
             slug (wall n) in
         getOrCreateTag wall nameInput s n
         = (Some tag,
            withTags (State.tags s ++ [tag])
              (State.setCounters
                 (Counters.set Entity.tags
                    (Counters.tags (State.counters s) + 1) (State.counters s))
                 s),
            S n)).
Proof.
  cbv zeta. unfold getOrCreateTag, getTagBySlug.
  destruct (String.eqb_spec (Js.trim nameInput) "") as [E|E].
  - left. rewrite E. split; reflexivity.
  - destruct (String.eqb_spec (slugify (Js.trim nameInput)) "") as [E2|E2].
    + left. split; [exact E2|reflexivity].
    + right.
      destruct (find _ (State.tags s)) as [tag|] eqn:F.
      * left. split; [exact E2|]. exists tag. split; reflexivity.
      * right. split; [exact E2|]. split; [reflexivity|].
        cbn [freeSlug]. rewrite (find_none_existsb _ _ F).
        unfold nextId, orInt, toInt, bind, ret, nowIso.
        cbn [Counters.get State.tags State.setCounters].
        destruct (Z.eqb_spec (Counters.tags (State.counters s)) 0) as [->|];
          reflexivity.
Qed.

(** X12. [getOrCreateTag] gives back a tag whose slug is the slug of the
    trimmed name, never one with a numeric suffix: it returns the tag that
    already has that slug, or appends a new tag under that slug when no tag
    has it, and returns null and leaves the store alone when the slug is
    empty. Distinct slugs stay distinct, and a second call with the same
    name returns the same tag without touching the store. *)
Theorem getOrCreateTag_slug (wall wall' : nat -> string)
    (nameInput : string) (s : State.t) (n m : nat) :
  NoDup (map Tag.slug (State.tags s)) ->
  let r := fst (fst (getOrCreateTag wall nameInput s n)) in
  let s' := snd (fst (getOrCreateTag wall nameInput s n)) in
  NoDup (map Tag.slug (State.tags s'))
  /\ match r with
     | Some tag =>
         In tag (State.tags s')
         /\ Tag.slug tag = slugify (Js.trim nameInput)
         /\ Tag.slug tag <> ""
         /\ (State.tags s' = State.tags s
             \/ State.tags s' = State.tags s ++ [tag]
                /\ getTagBySlug s (Tag.slug tag) = None
                /\ Tag.name tag = Js.trim nameInput)
     | None => s' = s /\ slugify (Js.trim nameInput) = ""
     end
  /\ getOrCreateTag wall' nameInput s' m = (r, s', m).
Proof.
  intros Hnodup. cbv zeta.
  destruct (getOrCreateTag_run wall nameInput s n)
    as [[Hs E]|[(Hs & tag & Hfound & E)|(Hs & Hnone & E)]].
  - rewrite E. cbn [fst snd]. split; [exact Hnodup|]. split; [auto|].
    destruct (getOrCreateTag_run wall' nameInput s m)
      as [[_ E']|[(Hs' & _)|(Hs' & _)]]; [exact E'|contradiction..].
  - rewrite E. cbn [fst snd]. split; [exact Hnodup|].
    assert (Hslug : Tag.slug tag = slugify (Js.trim nameInput)).
    { unfold getTagBySlug in Hfound. apply find_some in Hfound.
      destruct Hfound as [_ H]. now apply String.eqb_eq in H. }
    split.
    + split; [|split; [exact Hslug|split; [congruence|now left]]].
      unfold getTagBySlug in Hfound. now apply find_some in Hfound.
    + destruct (getOrCreateTag_run wall' nameInput s m)
        as [[Hs' _]|[(_ & tag' & Hfound' & E')|(_ & Hnone' & _)]];
        [contradiction| |congruence].
      rewrite E'. congruence.
  - cbv zeta in E. rewrite E. cbn [fst snd State.tags withTags].
    split.
    + rewrite map_app. cbn. apply NoDup_snoc; [exact Hnodup|].
      now apply slug_not_in.
    + split.
      * split; [apply in_or_app; right; now left|].
        split; [reflexivity|]. split; [exact Hs|]. right. auto.
      * match goal with
        | |- getOrCreateTag _ _ ?st _ = _ =>
            destruct (getOrCreateTag_run wall' nameInput st m)
              as [[Hs' _]|[(_ & tag' & Hfound' & E')|(_ & Hnone' & _)]]
        end; [contradiction| |].
        -- rewrite E'. unfold getTagBySlug in Hfound'.
           cbn [State.tags withTags] in Hfound'.
           rewrite find_app_none in Hfound' by exact Hnone.
           cbn in Hfound'. rewrite String.eqb_refl in Hfound'.
           now injection Hfound' as <-.
        -- unfold getTagBySlug in Hnone'.
           cbn [State.tags withTags] in Hnone'.
           rewrite find_app_none in Hnone' by exact Hnone.
           cbn in Hnone'. rewrite String.eqb_refl in Hnone'. discriminate.
Qed.

(** A new tag and an existing one on [smallSite]. *)
Lemma getOrCreateTag_slug_witness :
  (exists tag,
      fst (fst (getOrCreateTag sampleWall " Night  Sky " smallSite 0%nat))
      = Some tag
      /\ Tag.slug tag = "night-sky")
  /\ getOrCreateTag sampleWall " Drone " smallSite 0%nat
     = (Some (Tag.mk 1 "drone" "drone" "2026-01-01T00:00:00.000Z"), smallSite,
        0%nat).
Proof.
  destruct (getOrCreateTag_slug sampleWall sampleWall " Night  Sky "
              smallSite 0 0) as (_ & H & _).
  { cbn. repeat constructor. auto. }
  destruct (getOrCreateTag_slug sampleWall sampleWall " Drone " smallSite
              0 0) as (_ & _ & H').
  { cbn. repeat constructor. auto. }
  split.
  - destruct (fst (fst (getOrCreateTag sampleWall " Night  Sky " smallSite
                          0%nat))) as [tag|] eqn:E.
    + exists tag. split; [reflexivity|]. destruct H as (_ & H & _).
      rewrite H. reflexivity.
    + destruct H as [_ H]. discriminate H.
  - exact H'.
Defined.

Lemma uniqueTagNames_length (tagNames uniqueNames : list string) :
  (List.length uniqueNames <= 4)%nat ->
  (List.length (uniqueTagNames uniqueNames tagNames) <= 5)%nat.
Proof.
  revert uniqueNames.
  induction tagNames as [|raw rest IH]; intros uniqueNames Hlen;
    cbn [uniqueTagNames]; [lia|].
  destruct (Js.toLowerCase (Js.trim raw) =? "")%string; [now apply IH|].
  destruct (includes uniqueNames (Js.toLowerCase (Js.trim raw)));
    [now apply IH|].
  destruct (Nat.leb_spec 5
              (List.length (uniqueNames ++ [Js.toLowerCase (Js.trim raw)])))
    as [Hge|Hlt].
  - rewrite length_app. cbn [List.length]. lia.
  - apply IH. lia.
Qed.

(** The effect of the second loop of [setPostTags]: relations of the
    post are appended, one per name at most, each to a tag of the store;
    tags are appended only. *)
Lemma attachTags_run (wall : nat -> string) (postId : Z)
    (names : list string) :
  forall (s : State.t) (n : nat),
    let s' := fst (attachTags wall postId names s n) in
    (exists added,
        State.post_tags s' = State.post_tags s ++ added
        /\ (List.length added <= List.length names)%nat
        /\ Forall
             (fun relation =>
                PostTag.post_id relation = postId
                /\ exists tag,
                     In tag (State.tags s')
                     /\ Tag.id tag = PostTag.tag_id relation) added)
    /\ (exists more, State.tags s' = State.tags s ++ more)
    /\ State.posts s' = State.posts s
    /\ State.users s' = State.users s
    /\ State.comments s' = State.comments s
    /\ State.moderation_actions s' = State.moderation_actions s.
Proof.
  induction names as [|item rest IH]; intros s n; cbv zeta.
  - cbn. split; [exists []; rewrite app_nil_r; auto|].
    split; [exists []; now rewrite app_nil_r|auto].
  - cbn [attachTags]. unfold bind.
    destruct (getOrCreateTag_run wall item s n)
      as [[_ E]|[(_ & tag & Hfound & E)|(_ & _ & E)]]; cbv zeta in E;
      rewrite E; clear E.
    + destruct (IH s n) as ((added & H1 & H2 & H3) & H4 & H5).
      split; [|split; [exact H4|exact H5]].
      exists added. split; [exact H1|]. split; [cbn; lia|exact H3].
    + match goal with
      | |- context [attachTags wall postId rest ?st n] =>
          destruct (IH st n) as ((added & H1 & H2 & H3) & (more & H4) & H5)
      end.
      cbn [State.post_tags State.tags State.posts State.users State.comments
           State.moderation_actions withPostTags] in *.
      split; [|split; [now exists more|exact H5]].
      exists (PostTag.mk (toInt postId) (Tag.id tag) :: added).
      split; [now rewrite H1, <- app_assoc|]. split; [cbn; lia|].
      constructor; [|exact H3]. split; [reflexivity|].
      exists tag. split; [|reflexivity]. rewrite H4. apply in_or_app. left.
      unfold getTagBySlug in Hfound. now apply find_some in Hfound.
    + match goal with
      | |- context [attachTags wall postId rest ?st (S n)] =>
          destruct (IH st (S n))
            as ((added & H1 & H2 & H3) & (more & H4) & H5)
      end.
      cbn [State.post_tags State.tags State.posts State.users State.comments
           State.moderation_actions withPostTags withTags State.setCounters]
        in *.
      split; [|split; [|exact H5]].
      * eexists (PostTag.mk (toInt postId) _ :: added).
        split; [rewrite H1, <- app_assoc; reflexivity|].
        split; [cbn; lia|]. constructor; [|exact H3].
        split; [reflexivity|].
        exists (Tag.mk (Counters.tags (State.counters s) + 1) (Js.trim item)
                  (slugify (Js.trim item)) (wall n)).
        split; [|reflexivity]. rewrite H4. apply in_or_app. left. apply in_or_app. right. now left.
      * eexists. rewrite H4, <- app_assoc. reflexivity.
Qed.

Lemma filter_none {A : Type} (p : A -> bool) (l : list A) :
  Forall (fun x => p x = false) l -> filter p l = [].
Proof.
  induction 1 as [|x r Hx _ IH]; cbn; [reflexivity|]. now rewrite Hx.
Qed.

Lemma filter_all {A : Type} (p : A -> bool) (l : list A) :
  Forall (fun x => p x = true) l -> filter p l = l.
Proof.
  induction 1 as [|x r Hx _ IH]; cbn; [reflexivity|]. now rewrite Hx, IH.
Qed.

Lemma filter_filter_neg {A : Type} (p : A -> bool) (l : list A) :
  filter p (filter (fun x => negb (p x)) l) = [].
Proof.
  apply filter_none, Forall_forall. intros x Hx. apply filter_In in Hx.
  destruct Hx as [_ Hx]. now apply negb_true_iff in Hx.
Qed.

(** The relations after [setPostTags]: the ones of the other posts,
    followed by at most five relations of the post. *)
Lemma setPostTags_run (wall : nat -> string) (postId : Z)
    (tagNames : list string) (s : State.t) (n : nat) :
  let s' := fst (setPostTags wall postId tagNames s n) in
  (exists added,
      State.post_tags s'
      = filter (fun item => negb (PostTag.post_id item =? postId))
          (State.post_tags s) ++ added
      /\ (List.length added <= 5)%nat
      /\ Forall
           (fun relation =>
              PostTag.post_id relation = postId
              /\ exists tag,
                   In tag (State.tags s')
                   /\ Tag.id tag = PostTag.tag_id relation) added)
  /\ State.posts s' = State.posts s
  /\ State.users s' = State.users s
  /\ State.comments s' = State.comments s.
Proof.
  cbv zeta. unfold setPostTags, toInt.
  match goal with
  | |- context [attachTags wall postId ?names ?st n] =>
      destruct (attachTags_run wall postId names st n)
        as ((added & H1 & H2 & H3) & _ & H5 & H6 & H7 & _);
      pose proof (uniqueTagNames_length tagNames [] ltac:(cbn; lia)) as Hlen
  end.
  cbn [State.post_tags withPostTags State.posts State.users State.comments]
    in *.
  split; [|auto]. exists added. split; [exact H1|]. split; [lia|exact H3].
Qed.

(** X13. After [setPostTags] the post has at most five tag relations; each
    of them points to a tag of the store; the relations of the other posts
    are the ones they had, and posts, users and comments are untouched. *)
Theorem setPostTags_limit (wall : nat -> string) (postId : Z)
    (tagNames : list string) (s : State.t) (n : nat) :
  let s' := fst (setPostTags wall postId tagNames s n) in
  (List.length
     (filter (fun item => (PostTag.post_id item =? postId)%Z)
        (State.post_tags s')) <= 5)%nat
  /\ (forall relation,
        In relation (State.post_tags s') ->
        PostTag.post_id relation = postId ->
        exists tag,
          In tag (State.tags s') /\ Tag.id tag = PostTag.tag_id relation)
  /\ filter (fun item => negb (PostTag.post_id item =? postId))
       (State.post_tags s')
     = filter (fun item => negb (PostTag.post_id item =? postId))
         (State.post_tags s)
  /\ State.posts s' = State.posts s
  /\ State.users s' = State.users s
  /\ State.comments s' = State.comments s.
Proof.
  cbv zeta.
  destruct (setPostTags_run wall postId tagNames s n)
    as ((added & H1 & Hlen & H3) & H5 & H6 & H7).
  cbv zeta in *. rewrite H1.
  assert (Hadded : Forall
            (fun x => (PostTag.post_id x =? postId) = true) added).
  { eapply Forall_impl; [|exact H3]. cbn. intros r [Hr _].
    now apply Z.eqb_eq. }
  split; [|split; [|split; [|auto]]].
  - rewrite filter_app, filter_filter_neg, (filter_all _ _ Hadded).
    cbn [app]. exact Hlen.
  - intros relation Hin Hpost. apply in_app_iff in Hin.
    destruct Hin as [Hin|Hin].
    + apply filter_In in Hin. destruct Hin as [_ Hin].
      apply negb_true_iff, Z.eqb_neq in Hin. contradiction.
    + rewrite Forall_forall in H3. now apply H3.
  - rewrite filter_app, filter_idem.
    rewrite (filter_none (fun item => negb (PostTag.post_id item =? postId))
               added); [apply app_nil_r|].
    eapply Forall_impl; [|exact Hadded]. cbn. now intros r ->.
Qed.

Lemma createPost_run (wall : nat -> string) (user_id category_id : Z)
    (title markdown_body rendered_html excerpt : string)
    (reading_time_minutes : Z) (media_url media_type : string)
    (tag_names : list string) (s : State.t) (n : nat) :
  let id := Counters.posts (State.counters s) + 1 in
  let post :=
    Post.mk id user_id category_id (Js.trim title) "" markdown_body
      rendered_html (orStr excerpt (summarize markdown_body))
      (orInt reading_time_minutes (computeReadingTime markdown_body))
      media_url
      (if includes MEDIA_TYPES media_type then media_type else "none")
      false "" (wall n) in
  let s1 :=
    withPosts (State.posts s ++ [post])
      (State.setCounters
         (Counters.set Entity.posts id (State.counters s)) s) in
  let tagged := setPostTags wall id tag_names s1 (S n) in
  createPost wall user_id category_id title markdown_body rendered_html
    excerpt reading_time_minutes media_url media_type tag_names s n
  = (post, withLastRebuild (Some (wall (snd tagged))) (fst tagged),
     S (snd tagged)).
Proof.
  assert (E : forall x, orInt x 0 = x).
  { intros x. unfold orInt. destruct (Z.eqb_spec x 0); congruence. }
  cbv zeta. unfold createPost, nextId, toInt, bind, ret, nowIso.
  cbn [Counters.get State.posts State.setCounters Post.id]. rewrite !E.
  now destruct (setPostTags _ _ _ _ _).
Qed.

(** X14. When the counter of the posts is a safe integer (below 2^53 in
    size, so that the source adds 1 to it exactly) and no stored post id is
    above it, [createPost] appends a post that is not hidden, hence visible
    to every viewer, under the bumped counter, with at most five tag
    relations, and the post is found again under its id. *)
Theorem createPost_result (wall : nat -> string) (user_id category_id : Z)
    (title markdown_body rendered_html excerpt : string)
    (reading_time_minutes : Z) (media_url media_type : string)
    (tag_names : list string) (s : State.t) (n : nat) :
  isSafeInteger (Counters.posts (State.counters s)) ->
  (forall p, In p (State.posts s) ->
             Post.id p <= Counters.posts (State.counters s)) ->
  let r :=
    fst (createPost wall user_id category_id title markdown_body
           rendered_html excerpt reading_time_minutes media_url media_type
           tag_names s n) in
  let post := fst r in
  let s' := snd r in
  Post.id post = Counters.posts (State.counters s) + 1
  /\ - MAX_SAFE_INTEGER < Post.id post <= MAX_SAFE_INTEGER + 1
  /\ Post.user_id post = user_id
  /\ Post.is_hidden post = false
  /\ (forall viewer, canSeeHiddenPost post viewer = true)
  /\ State.posts s' = State.posts s ++ [post]
  /\ getPostRawById s' (Post.id post) = Some post
  /\ (List.length
        (filter (fun item => (PostTag.post_id item =? Post.id post)%Z)
           (State.post_tags s')) <= 5)%nat.
Proof.
  intros Hsafe Hcover. cbv zeta. rewrite createPost_run. cbv zeta.
  cbn [fst snd]. unfold isSafeInteger in Hsafe.
  match goal with
  | |- context [setPostTags wall ?id tag_names ?st (S n)] =>
      destruct (setPostTags_run wall id tag_names st (S n))
        as ((added & Htags & Hlen & Hadded) & Hposts & _)
  end.
  cbv zeta in *.
  cbn [Post.id Post.user_id Post.is_hidden State.posts State.post_tags
       withLastRebuild withPosts State.setCounters] in *.
  repeat split; auto; try lia.
  - unfold getPostRawById, toInt. cbn [State.posts withLastRebuild].
    rewrite Hposts. rewrite find_app_none; [cbn; now rewrite Z.eqb_refl|].
    apply find_all_false. intros p Hp. apply Hcover in Hp.
    apply Z.eqb_neq. lia.
  - rewrite Htags, filter_app, filter_filter_neg. cbn [app].
    pose proof (filter_length_le
                  (fun item =>
                     PostTag.post_id item
                     =? Counters.posts (State.counters s) + 1) added).
    lia.
Qed.

(** A post with seven tag names on [smallSite]. *)
Lemma createPost_result_witness :
  let r :=
    fst (createPost sampleWall 2 1 " Dawn " "text" "<p>text</p>" "" 0 "" "gif"
           ["a"; "b"; "c"; "d"; "e"; "f"; "A"] smallSite 0%nat) in
  Post.id (fst r) = 3
  /\ getPostRawById (snd r) 3 = Some (fst r)
  /\ (List.length
        (filter (fun item => (PostTag.post_id item =? 3)%Z)
           (State.post_tags (snd r))) <= 5)%nat.
Proof.
  destruct (createPost_result sampleWall 2 1 " Dawn " "text" "<p>text</p>" ""
              0 "" "gif" ["a"; "b"; "c"; "d"; "e"; "f"; "A"] smallSite 0)
    as (H1 & _ & _ & _ & _ & _ & H6 & H7).
  - unfold isSafeInteger, MAX_SAFE_INTEGER. cbn. lia.
  - intros p [<-|[<-|[]]]; cbn; lia.
  - cbv zeta. rewrite H1 in H6, H7. repeat split; assumption.
Defined.

(** ** Counts of likes, bookmarks and reactions *)

Section RemoveById.

Context {A : Type}.
Variable matches : A -> bool.
Variable getId : A -> Z.

Lemma filter_other_ids (l : list A) (existing : A) :
  ~ In (getId existing) (map getId l) ->
  filter (fun x => negb (getId x =? getId existing)) l = l.
Proof.
  intros Hnot. apply filter_all, Forall_forall. intros x Hx.
  apply negb_true_iff, Z.eqb_neq. intros E. apply Hnot. rewrite <- E.
  now apply in_map.
Qed.

(** With distinct ids, the filter of the toggles removes one row. *)
Lemma filter_remove_id (q : A -> bool) (l : list A) (existing : A) :
  NoDup (map getId l) -> In existing l ->
  List.length (filter q l)
  = (List.length
       (filter q (filter (fun x => negb (getId x =? getId existing)%Z) l))
     + (if q existing then 1 else 0))%nat.
Proof.
  induction l as [|x r IH]; cbn [map filter]; [intros _ []|].
  intros Hnodup Hin. inversion Hnodup as [|? ? Hx Hr]; subst.
  destruct Hin as [->|Hin].
  - rewrite Z.eqb_refl. cbn [negb]. rewrite (filter_other_ids _ _ Hx).
    destruct (q existing); cbn [List.length]; lia.
  - assert (Hne : getId x <> getId existing).
    { intros E. apply Hx. rewrite E. now apply in_map. }
    apply Z.eqb_neq in Hne. rewrite Hne. cbn [negb filter].
    specialize (IH Hr Hin). destruct (q x); cbn [List.length]; lia.
Qed.

(** The number of rows counted by [q] moves by one with a toggle, when the
    rows the toggle looks for all count as the new row does. *)
Lemma toggleRows_count (q : A -> bool) (l : list A) (row : A) :
  NoDup (map getId l) ->
  (forall x, matches x = true -> q x = q row) ->
  Z.of_nat (List.length (filter q (toggleRows matches getId l row)))
  = Z.of_nat (List.length (filter q l))
    + (if q row then if existsb matches l then -1 else 1 else 0).
Proof.
  intros Hnodup Hq. unfold toggleRows.
  destruct (find matches l) as [existing|] eqn:F.
  - pose proof (find_some _ _ F) as [Hin Hm].
    assert (E : existsb matches l = true)
      by (apply existsb_exists; eauto).
    rewrite E, (filter_remove_id q l existing Hnodup Hin), (Hq _ Hm).
    destruct (q row); lia.
  - rewrite (find_none_existsb _ _ F), filter_app, length_app. cbn.
    destruct (q row); cbn; lia.
Qed.

End RemoveById.

Lemma toggleLike_result (now : string) (userId postId : Z) (s : State.t) :
  fst (toggleLike now userId postId s) = negb (hasLike s userId postId).
Proof.
  unfold toggleLike, hasLike, nextId.
  destruct (find _ (State.likes s)) as [existing|] eqn:F.
  - apply find_some in F. destruct F as [Hin Hm].
    assert (E : existsb (likeMatches userId postId) (State.likes s) = true)
      by (apply existsb_exists; eauto).
    now rewrite E.
  - now rewrite (find_none_existsb _ _ F).
Qed.

Lemma toggleBookmark_result (now : string) (userId postId : Z)
    (s : State.t) :
  fst (toggleBookmark now userId postId s)
  = negb (hasBookmark s userId postId).
Proof.
  unfold toggleBookmark, hasBookmark, nextId.
  destruct (find _ (State.bookmarks s)) as [existing|] eqn:F.
  - apply find_some in F. destruct F as [Hin Hm].
    assert (E : existsb (bookmarkMatches userId postId) (State.bookmarks s)
                = true)
      by (apply existsb_exists; eauto).
    now rewrite E.
  - now rewrite (find_none_existsb _ _ F).
Qed.

(** X15. When the likes carry distinct ids, [toggleLike] answers true
    exactly when the user had no like on the post; the like count of the
    post then goes up by one, and down by one when it answers false; the
    count of every other post stays as it was. *)
Theorem toggleLike_count (now : string) (userId postId : Z) (s : State.t) :
  NoDup (map Like.id (State.likes s)) ->
  let r := toggleLike now userId postId s in
  fst r = negb (hasLike s userId postId)
  /\ countLikes (snd r) postId
     = countLikes s postId + (if fst r then 1 else -1)
  /\ (forall other,
        other <> postId -> countLikes (snd r) other = countLikes s other).
Proof.
  intros Hnodup. cbv zeta. rewrite toggleLike_result.
  split; [reflexivity|]. unfold countLikes, toInt. rewrite likes_toggleLike.
  split.
  - rewrite (toggleRows_count (likeMatches userId postId) Like.id
               (fun like => Like.post_id like =? postId) _ _ Hnodup).
    + cbn [Like.post_id]. rewrite Z.eqb_refl. unfold hasLike.
      now destruct (existsb _ _).
    + intros x Hx. unfold likeMatches, toInt in Hx.
      apply andb_true_iff in Hx. destruct Hx as [_ Hx]. cbn [Like.post_id].
      now rewrite Hx, Z.eqb_refl.
  - intros other Hother.
    rewrite (toggleRows_count (likeMatches userId postId) Like.id
               (fun like => Like.post_id like =? other) _ _ Hnodup).
    + cbn [Like.post_id]. apply Z.eqb_neq in Hother.
      rewrite Z.eqb_sym in Hother. rewrite Hother. lia.
    + intros x Hx. unfold likeMatches, toInt in Hx.
      apply andb_true_iff in Hx. destruct Hx as [_ Hx].
      apply Z.eqb_eq in Hx. cbn [Like.post_id]. now rewrite Hx.
Qed.

(** The like of user 2 on post 1 is taken back, then user 1 adds one. *)
Lemma toggleLike_count_witness :
  countLikes (snd (toggleLike "2026-01-04" 2 1 likedAndSaved)) 1 = 0
  /\ countLikes (snd (toggleLike "2026-01-04" 1 1 likedAndSaved)) 1 = 2.
Proof.
  split.
  - destruct (toggleLike_count "2026-01-04" 2 1 likedAndSaved)
      as (_ & H & _); [cbn; repeat constructor; auto|].
    rewrite H. reflexivity.
  - destruct (toggleLike_count "2026-01-04" 1 1 likedAndSaved)
      as (_ & H & _); [cbn; repeat constructor; auto|].
    rewrite H. reflexivity.
Defined.

(** X16. When the bookmarks carry distinct ids, [toggleBookmark] answers
    true exactly when the user had not saved the post; the bookmark count
    of the post and the number of bookmarks of the user both move by one,
    up for true and down for false, and the counts of the other posts and
    of the other users stay as they were. *)
Theorem toggleBookmark_count (now : string) (userId postId : Z)
    (s : State.t) :
  NoDup (map Bookmark.id (State.bookmarks s)) ->
  let r := toggleBookmark now userId postId s in
  fst r = negb (hasBookmark s userId postId)
  /\ countBookmarks (snd r) postId
     = countBookmarks s postId + (if fst r then 1 else -1)
  /\ getBookmarkCountForUser (snd r) userId
     = getBookmarkCountForUser s userId + (if fst r then 1 else -1)
  /\ (forall other,
        other <> postId ->
        countBookmarks (snd r) other = countBookmarks s other)
  /\ (forall other,
        other <> userId ->
        getBookmarkCountForUser (snd r) other
        = getBookmarkCountForUser s other).
Proof.
  intros Hnodup. cbv zeta. rewrite toggleBookmark_result.
  split; [reflexivity|].
  unfold countBookmarks, getBookmarkCountForUser, toInt.
  rewrite bookmarks_toggleBookmark.
  assert (Hm : forall x, bookmarkMatches userId postId x = true ->
                         Bookmark.user_id x = userId
                         /\ Bookmark.post_id x = postId).
  { intros x Hx. unfold bookmarkMatches, toInt in Hx.
    apply andb_true_iff in Hx. destruct Hx as [H1 H2].
    apply Z.eqb_eq in H1, H2. auto. }
  split; [|split; [|split]].
  - rewrite (toggleRows_count (bookmarkMatches userId postId) Bookmark.id
               (fun b => Bookmark.post_id b =? postId) _ _ Hnodup).
    + cbn [Bookmark.post_id]. rewrite Z.eqb_refl. unfold hasBookmark.
      now destruct (existsb _ _).
    + intros x Hx. apply Hm in Hx. destruct Hx as [_ ->].
      reflexivity.
  - rewrite (toggleRows_count (bookmarkMatches userId postId) Bookmark.id
               (fun b => Bookmark.user_id b =? userId) _ _ Hnodup).
    + cbn [Bookmark.user_id]. rewrite Z.eqb_refl. unfold hasBookmark.
      now destruct (existsb _ _).
    + intros x Hx. apply Hm in Hx. destruct Hx as [-> _].
      reflexivity.
  - intros other Hother.
    rewrite (toggleRows_count (bookmarkMatches userId postId) Bookmark.id
               (fun b => Bookmark.post_id b =? other) _ _ Hnodup).
    + cbn [Bookmark.post_id]. apply Z.eqb_neq in Hother.
      rewrite Z.eqb_sym in Hother. rewrite Hother. lia.
    + intros x Hx. apply Hm in Hx. destruct Hx as [_ ->]. reflexivity.
  - intros other Hother.
    rewrite (toggleRows_count (bookmarkMatches userId postId) Bookmark.id
               (fun b => Bookmark.user_id b =? other) _ _ Hnodup).
    + cbn [Bookmark.user_id]. apply Z.eqb_neq in Hother.
      rewrite Z.eqb_sym in Hother. rewrite Hother. lia.
    + intros x Hx. apply Hm in Hx. destruct Hx as [-> _]. reflexivity.
Qed.

(** User 2 drops the bookmark of post 1 on [smallSite]. *)
Lemma toggleBookmark_count_witness :
  countBookmarks (snd (toggleBookmark "2026-01-04" 2 1 smallSite)) 1 = 0
  /\ getBookmarkCountForUser (snd (toggleBookmark "2026-01-04" 2 1 smallSite))
       2 = 0.
Proof.
  destruct (toggleBookmark_count "2026-01-04" 2 1 smallSite)
    as (_ & H1 & H2 & _); [cbn; repeat constructor; auto|].
  rewrite H1, H2. split; reflexivity.
Defined.

Lemma isReaction_cases (value : string) :
  isReaction value = true ->
  value = "like" \/ value = "heart" \/ value = "fire" \/ value = "clap".
Proof.
  unfold isReaction, includes, REACTIONS. cbn [existsb]. intros H.
  repeat (apply orb_true_iff in H; destruct H as [H|H]);
    try discriminate; apply String.eqb_eq in H; auto.
Qed.

Lemma reactionCount_bump (counts : ReactionCounts.t)
    (reaction_type wanted : string) :
  isReaction reaction_type = true -> isReaction wanted = true ->
  reactionCount (bumpCount counts reaction_type) wanted
  = reactionCount counts wanted
    + (if (reaction_type =? wanted)%string then 1 else 0).
Proof.
  intros H1 H2. apply isReaction_cases in H1, H2.
  destruct H1 as [-> | [-> | [-> | ->]]];
    destruct H2 as [-> | [-> | [-> | ->]]]; cbn; lia.
Qed.

(** The loop of [getCommentReactions] counts, for each type of the list,
    the reactions of that type on the comment. *)
Lemma getCommentReactions_fold (commentId : Z) (wanted : string)
    (l : list Reaction.t) (counts : ReactionCounts.t) :
  isReaction wanted = true ->
  reactionCount
    (fold_left
       (fun counts reaction =>
          if negb (Reaction.comment_id reaction =? toInt commentId)
          then counts
          else if isReaction (Reaction.reaction_type reaction)
               then bumpCount counts (Reaction.reaction_type reaction)
               else counts) l counts) wanted
  = reactionCount counts wanted
    + Z.of_nat
        (List.length
           (filter
              (fun reaction =>
                 (Reaction.comment_id reaction =? commentId)
                 && (Reaction.reaction_type reaction =? wanted)%string) l)).
Proof.
  intros Hw. revert counts.
  induction l as [|x r IH]; intros counts; cbn [fold_left filter];
    [cbn; lia|].
  rewrite IH. unfold toInt.
  destruct (Reaction.comment_id x =? commentId); cbn [negb andb]; [|lia].
  destruct (isReaction (Reaction.reaction_type x)) eqn:Hx.
  - rewrite (reactionCount_bump _ _ _ Hx Hw).
    destruct (Reaction.reaction_type x =? wanted)%string;
      cbn [List.length]; lia.
  - destruct (String.eqb_spec (Reaction.reaction_type x) wanted) as [E|E];
      [congruence|lia].
Qed.

Lemma getCommentReactions_count (s : State.t) (commentId : Z)
    (wanted : string) :
  isReaction wanted = true ->
  reactionCount (getCommentReactions s commentId) wanted
  = Z.of_nat (List.length (reactionsOfType s commentId wanted)).
Proof.
  intros Hw. unfold getCommentReactions, reactionsOfType.
  rewrite (getCommentReactions_fold _ _ _ _ Hw). apply isReaction_cases in Hw.
  destruct Hw as [-> | [-> | [-> | ->]]]; reflexivity.
Qed.

(** X17. The four numbers of [getCommentReactions] are the numbers of
    stored reactions of the comment with the type like, heart, fire and
    clap; reactions of other comments and of types outside the list are
    not counted. *)
Theorem getCommentReactions_counts (s : State.t) (commentId : Z) :
  let counts := getCommentReactions s commentId in
  ReactionCounts.like counts
  = Z.of_nat (List.length (reactionsOfType s commentId "like"))
  /\ ReactionCounts.heart counts
     = Z.of_nat (List.length (reactionsOfType s commentId "heart"))
  /\ ReactionCounts.fire counts
     = Z.of_nat (List.length (reactionsOfType s commentId "fire"))
  /\ ReactionCounts.clap counts
     = Z.of_nat (List.length (reactionsOfType s commentId "clap")).
Proof.
  cbv zeta.
  repeat split;
    [apply (getCommentReactions_count s commentId "like")
    |apply (getCommentReactions_count s commentId "heart")
    |apply (getCommentReactions_count s commentId "fire")
    |apply (getCommentReactions_count s commentId "clap")]; reflexivity.
Qed.

Lemma toggleCommentReaction_result (now : string) (userId commentId : Z)
    (reactionType : string) (s : State.t) :
  fst (toggleCommentReaction now userId commentId reactionType s)
  = if isReaction reactionType
    then Some (negb (hasReaction s userId commentId reactionType))
    else None.
Proof.
  unfold toggleCommentReaction, hasReaction, nextId.
  destruct (isReaction reactionType); [|reflexivity]. cbn [negb].
  destruct (find _ (State.comment_reactions s)) as [existing|] eqn:F.
  - apply find_some in F. destruct F as [Hin Hm].
    assert (E : existsb (reactionMatches userId commentId reactionType)
                  (State.comment_reactions s) = true)
      by (apply existsb_exists; eauto).
    now rewrite E.
  - now rewrite (find_none_existsb _ _ F).
Qed.

(** X18. [toggleCommentReaction] answers null and changes nothing for a
    type outside the list. For a type of the list, and reactions carrying
    distinct ids, it answers true exactly when the user had no such
    reaction on the comment, and [getCommentReactions] then shows one more
    reaction of that type on that comment, one less when it answers false;
    every other count of every comment is as before. *)
Theorem toggleCommentReaction_count (now : string) (userId commentId : Z)
    (reactionType : string) (s : State.t) :
  NoDup (map Reaction.id (State.comment_reactions s)) ->
  let r := toggleCommentReaction now userId commentId reactionType s in
  match fst r with
  | None => isReaction reactionType = false /\ snd r = s
  | Some added =>
      isReaction reactionType = true
      /\ added = negb (hasReaction s userId commentId reactionType)
      /\ reactionCount (getCommentReactions (snd r) commentId) reactionType
         = reactionCount (getCommentReactions s commentId) reactionType
           + (if added then 1 else -1)
      /\ (forall otherId otherType,
            isReaction otherType = true ->
            otherId <> commentId \/ otherType <> reactionType ->
            reactionCount (getCommentReactions (snd r) otherId) otherType
            = reactionCount (getCommentReactions s otherId) otherType)
  end.
Proof.
  intros Hnodup. cbv zeta. rewrite toggleCommentReaction_result.
  destruct (isReaction reactionType) eqn:Hr.
  - split; [reflexivity|]. split; [reflexivity|].
    assert (Hm : forall x,
               reactionMatches userId commentId reactionType x = true ->
               Reaction.comment_id x = commentId
               /\ Reaction.reaction_type x = reactionType).
    { intros x Hx. unfold reactionMatches, toInt in Hx.
      apply andb_true_iff in Hx. destruct Hx as [Hx H3].
      apply andb_true_iff in Hx. destruct Hx as [H1 _].
      apply Z.eqb_eq in H1. apply String.eqb_eq in H3. auto. }
    split.
    + rewrite !(getCommentReactions_count _ _ _ Hr). unfold reactionsOfType.
      rewrite reactions_toggleCommentReaction, Hr.
      rewrite (toggleRows_count
                 (reactionMatches userId commentId reactionType) Reaction.id
                 (fun reaction =>
                    (Reaction.comment_id reaction =? commentId)
                    && (Reaction.reaction_type reaction =? reactionType)
                         %string) _ _ Hnodup).
      * cbn [Reaction.comment_id Reaction.reaction_type].
        rewrite Z.eqb_refl, String.eqb_refl. cbn [andb]. unfold hasReaction.
        now destruct (existsb _ _).
      * intros x Hx. apply Hm in Hx. destruct Hx as [-> ->].
        reflexivity.
    + intros otherId otherType Ho Hother.
      rewrite !(getCommentReactions_count _ _ _ Ho). unfold reactionsOfType.
      rewrite reactions_toggleCommentReaction, Hr.
      assert (Hq : (commentId =? otherId)
                   && (reactionType =? otherType)%string = false).
      { apply andb_false_iff. destruct Hother as [H|H].
        - left. apply Z.eqb_neq. congruence.
        - right. apply String.eqb_neq. congruence. }
      rewrite (toggleRows_count
                 (reactionMatches userId commentId reactionType) Reaction.id
                 (fun reaction =>
                    (Reaction.comment_id reaction =? otherId)
                    && (Reaction.reaction_type reaction =? otherType)
                         %string) _ _ Hnodup).
      * cbn [Reaction.comment_id Reaction.reaction_type]. rewrite Hq. lia.
      * intros x Hx. apply Hm in Hx. destruct Hx as [-> ->].
        reflexivity.
  - split; [reflexivity|]. unfold toggleCommentReaction. now rewrite Hr.
Qed.

(** User 1 takes back the like on comment 1 of [reactedThread]. *)
Lemma toggleCommentReaction_count_witness :
  getCommentReactions
    (snd (toggleCommentReaction "2026-01-04" 1 1 "like" reactedThread)) 1
  = ReactionCounts.mk 1 0 0 1
  /\ reactionCount
       (getCommentReactions
          (snd (toggleCommentReaction "2026-01-04" 1 1 "like" reactedThread))
          1) "like" = 1.
Proof.
  pose proof (toggleCommentReaction_count "2026-01-04" 1 1 "like"
                reactedThread) as H.
  cbv zeta in H.
  assert (Hnodup : NoDup (map Reaction.id
                            (State.comment_reactions reactedThread))).
  { cbn. repeat constructor; cbn; intuition discriminate. }
  specialize (H Hnodup).
  destruct (fst (toggleCommentReaction "2026-01-04" 1 1 "like" reactedThread))
    as [added|] eqn:E; [|destruct H as [H _]; discriminate H].
  destruct H as (_ & Ha & Hc & _). split; [reflexivity|].
  rewrite Hc, Ha. reflexivity.
Defined.

(** ** Threads without pruning *)

Lemma visibleLoop_nothing_pruned (viewer : option PublicUser.t)
    (l : list Comment.t) :
  Forall (fun c => prunes viewer c = false) l -> visibleLoop viewer [] l = l.
Proof.
  induction 1 as [|x r Hx _ IH]; cbn [visibleLoop existsb]; [reflexivity|].
  fold (prunes viewer x). now rewrite Hx, IH.
Qed.

Lemma staff_never_pruned (v : PublicUser.t) (c : Comment.t) :
  isModeratorRole (PublicUser.role v) = true -> prunes (Some v) c = false.
Proof.
  intros H. unfold prunes, canViewHidden. rewrite H.
  destruct (PublicUser.id v =? Comment.user_id c); apply andb_false_r.
Qed.

(** X19. [getPostComments] lists the whole thread of a post, in path order,
    to a moderator or an admin, whatever is hidden, and to every viewer
    when no comment of the post is hidden: each comment of the post has its
    row, with its flag and its body. *)
Theorem whole_thread_listed (getTime : string -> Z) (s : State.t)
    (postId : Z) (viewerId : option Z) :
  (exists v, viewerOf s viewerId = Some v
             /\ isModeratorRole (PublicUser.role v) = true)
  \/ (forall c, In c (State.comments s) -> Comment.post_id c = postId ->
                Comment.is_hidden c = false) ->
  let rows := getPostComments getTime s postId viewerId in
  let thread :=
    filter (fun c => Comment.post_id c =? postId) (State.comments s) in
  map CommentView.id rows
  = map Comment.id (Js.sort (compareComments getTime) thread)
  /\ List.length rows = List.length thread
  /\ (forall c,
        In c (State.comments s) -> Comment.post_id c = postId ->
        exists row,
          In row rows /\ CommentView.id row = Comment.id c
          /\ CommentView.is_hidden row = Comment.is_hidden c
          /\ CommentView.body row = Comment.body c).
Proof.
  intros Hcase. cbv zeta.
  unfold getPostComments, getVisibleCommentsForPost, toInt.
  rewrite visibleLoop_nothing_pruned.
  - split; [now rewrite map_map|]. split.
    + rewrite length_map. symmetry. apply Permutation_length.
      apply sort_permutation.
    + intros c Hc Hpost. exists (commentView s viewerId c).
      split; [|auto]. apply in_map, In_sort, filter_In.
      split; [exact Hc|]. now apply Z.eqb_eq.
  - apply Forall_forall. intros c Hc. apply In_sort, filter_In in Hc.
    destruct Hc as [Hc Hpost]. apply Z.eqb_eq in Hpost.
    destruct Hcase as [(v & -> & Hrole)|Hopen].
    + now apply staff_never_pruned.
    + unfold prunes. now rewrite (Hopen c Hc Hpost).
Qed.

(** The admin of [staffThread] reads the two hidden comments of post 1. *)
Lemma whole_thread_listed_witness :
  map CommentView.id (getPostComments sampleTime staffThread 1 (Some 1))
  = [1; 2].
Proof.
  destruct (whole_thread_listed sampleTime staffThread 1 (Some 1))
    as [H _].
  - left. eexists. split; reflexivity.
  - rewrite H. reflexivity.
Defined.

(** ** The moderation log and the report queue *)

Lemma sort_length {A : Type} (cmp : A -> A -> Z) (l : list A) :
  List.length (Js.sort cmp l) = List.length l.
Proof. symmetry. apply Permutation_length, sort_permutation. Qed.

(** Sorting by decreasing key. *)
Lemma sort_newest_first {A : Type} (key : A -> Z) (l : list A) :
  StronglySorted (fun a b => key b <= key a)
    (Js.sort (fun a b => key b - key a) l).
Proof.
  assert (H : StronglySorted (fun a b => key b - key a <= 0)
                (Js.sort (fun a b => key b - key a) l)).
  { apply sort_sorted; intros; lia. }
  induction H as [|x r _ IH Hx]; constructor; auto.
  eapply Forall_impl; [|exact Hx]. cbn. intros; lia.
Qed.

Lemma sorted_skipn {A : Type} (R : A -> A -> Prop) (n : nat) (l : list A) :
  StronglySorted R l -> StronglySorted R (skipn n l).
Proof.
  revert l. induction n as [|n IH]; intros l H; [exact H|].
  destruct l as [|x r]; [constructor|]. cbn. apply IH.
  now inversion H.
Qed.

Lemma sorted_firstn {A : Type} (R : A -> A -> Prop) (n : nat) (l : list A) :
  StronglySorted R l -> StronglySorted R (firstn n l).
Proof.
  revert l. induction n as [|n IH]; intros l H; [constructor|].
  destruct l as [|x r]; [constructor|]. cbn. inversion H as [|? ? Hr Hx].
  subst. constructor; [now apply IH|].
  apply Forall_forall. intros y Hy. rewrite Forall_forall in Hx.
  apply Hx. rewrite <- (firstn_skipn n r). apply in_or_app. now left.
Qed.

Lemma sorted_slice {A : Type} (R : A -> A -> Prop) (l : list A)
    (start stop : Z) :
  StronglySorted R l -> StronglySorted R (Js.slice l start stop).
Proof.
  intros H. unfold Js.slice. now apply sorted_firstn, sorted_skipn.
Qed.

Lemma sorted_map {A B : Type} (R : B -> B -> Prop) (f : A -> B)
    (l : list A) :
  StronglySorted (fun a b => R (f a) (f b)) l -> StronglySorted R (map f l).
Proof.
  induction 1 as [|x r _ IH Hx]; cbn; constructor; auto.
  apply Forall_forall. intros y Hy. apply in_map_iff in Hy.
  destruct Hy as (z & <- & Hz). rewrite Forall_forall in Hx. auto.
Qed.

(** A slice from the start that is long enough is the whole list. *)
Lemma slice_all {A : Type} (l : list A) (limit : Z) :
  Z.of_nat (List.length l) <= limit -> Js.slice l 0 limit = l.
Proof.
  intros H. unfold Js.slice. cbn [Z.ltb Z.compare].
  destruct (Z.ltb_spec limit 0) as [Hneg|_]; [lia|].
  rewrite (Z.min_r limit), (Z.min_l 0) by lia. cbn [Z.to_nat skipn].
  rewrite Z.sub_0_r, Nat2Z.id. apply firstn_all.
Qed.

(** X20. [getModerationActionsForTarget] gives at most [limit] entries, all
    of them entries of the log written for the target asked for, the most
    recent first; when the limit is not below the size of the log, every
    entry written for the target is listed. *)
Theorem moderation_log_query (getTime : string -> Z) (s : State.t)
    (targetType : string) (targetId limit : Z) :
  0 <= limit ->
  let rows :=
    getModerationActionsForTarget getTime s targetType targetId limit in
  Z.of_nat (List.length rows) <= limit
  /\ (forall row,
        In row rows ->
        In (ActionView.action row) (State.moderation_actions s)
        /\ ModAction.target_type (ActionView.action row) = targetType
        /\ ModAction.target_id (ActionView.action row) = targetId)
  /\ StronglySorted
       (fun a b =>
          getTime (ModAction.created_at (ActionView.action b))
          <= getTime (ModAction.created_at (ActionView.action a))) rows
  /\ (Z.of_nat (List.length (State.moderation_actions s)) <= limit ->
      forall action,
        In action (State.moderation_actions s) ->
        ModAction.target_type action = targetType ->
        ModAction.target_id action = targetId ->
        In (actionView s action) rows).
Proof.
  intros Hlimit. cbv zeta. unfold getModerationActionsForTarget, toInt.
  split; [|split; [|split]].
  - rewrite length_map. now apply (length_slice _ 0 limit).
  - intros row Hrow. apply in_map_iff in Hrow.
    destruct Hrow as (action & <- & Hin). apply In_slice, In_sort in Hin.
    apply filter_In in Hin. destruct Hin as [Hin Hm].
    apply andb_true_iff in Hm. destruct Hm as [H1 H2].
    apply String.eqb_eq in H1. apply Z.eqb_eq in H2. cbn. auto.
  - apply sorted_map. cbn [ActionView.action actionView].
    apply sorted_slice.
    apply (sort_newest_first
             (fun a => getTime (ModAction.created_at a))).
  - intros Hall action Hin H1 H2. apply in_map. rewrite slice_all.
    + apply In_sort, filter_In. split; [exact Hin|].
      now rewrite H1, H2, String.eqb_refl, Z.eqb_refl.
    + rewrite sort_length.
      pose proof (filter_length_le
                    (fun item =>
                       (ModAction.target_type item =? targetType)%string
                       && (ModAction.target_id item =? targetId))
                    (State.moderation_actions s)).
      lia.
Qed.

(** The log of post 2 on [loggedSite]. *)
Lemma moderation_log_query_witness :
  map (fun row => ModAction.id (ActionView.action row))
    (getModerationActionsForTarget sampleTime loggedSite "post" 2 30) = [1]
  /\ Z.of_nat
       (List.length
          (getModerationActionsForTarget sampleTime loggedSite "post" 2 30))
     <= 30.
Proof.
  destruct (moderation_log_query sampleTime loggedSite "post" 2 30)
    as [H _]; [lia|].
  split; [reflexivity|exact H].
Defined.

Lemma orInt_zero (value : Z) : orInt value 0 = value.
Proof. unfold orInt. destruct (Z.eqb_spec value 0); congruence. Qed.

Lemma addModerationAction_run (now : string) (actor_user_id : Z)
    (action_type target_type : string) (target_id : Z) (notes : string)
    (s : State.t) :
  let action :=
    ModAction.mk (Counters.moderation_actions (State.counters s) + 1)
      actor_user_id (orStr action_type "unknown")
      (orStr target_type "unknown") target_id notes now in
  addModerationAction now actor_user_id action_type target_type target_id
    notes s
  = (action,
     withActions (State.moderation_actions s ++ [action])
       (State.setCounters
          (Counters.set Entity.moderation_actions
             (Counters.moderation_actions (State.counters s) + 1)
             (State.counters s)) s)).
Proof.
  cbv zeta. unfold addModerationAction, nextId, toInt.
  cbn [Counters.get]. now rewrite !orInt_zero.
Qed.

(** X21. [addModerationAction] appends to the log and removes nothing from
    it; the entry carries the next id of the counter, and
    [getModerationActionsForTarget] lists it for its target as soon as the
    limit exceeds the size of the log, while the log of every other target
    reads as before. *)
Theorem addModerationAction_logged (getTime : string -> Z) (now : string)
    (actor_user_id : Z) (action_type target_type : string) (target_id : Z)
    (notes : string) (s : State.t) (limit : Z) :
  Z.of_nat (List.length (State.moderation_actions s)) < limit ->
  let r :=
    addModerationAction now actor_user_id action_type target_type target_id
      notes s in
  State.moderation_actions (snd r) = State.moderation_actions s ++ [fst r]
  /\ ModAction.id (fst r) = Counters.moderation_actions (State.counters s) + 1
  /\ In (actionView (snd r) (fst r))
       (getModerationActionsForTarget getTime (snd r)
          (orStr target_type "unknown") target_id limit)
  /\ (forall otherType otherId,
        otherType <> orStr target_type "unknown" \/ otherId <> target_id ->
        map ActionView.action
          (getModerationActionsForTarget getTime (snd r) otherType otherId
             limit)
        = map ActionView.action
            (getModerationActionsForTarget getTime s otherType otherId
               limit)).
Proof.
  intros Hlimit. cbv zeta. rewrite addModerationAction_run. cbv zeta.
  cbn [fst snd]. unfold getModerationActionsForTarget, toInt.
  cbn [State.moderation_actions withActions ModAction.id].
  split; [reflexivity|]. split; [reflexivity|]. split.
  - apply in_map. rewrite slice_all.
    + apply In_sort, filter_In. split; [apply in_or_app; right; now left|].
      cbn [ModAction.target_type ModAction.target_id].
      now rewrite String.eqb_refl, Z.eqb_refl.
    + rewrite sort_length.
      match goal with
      | |- Z.of_nat (List.length (filter ?p ?l)) <= _ =>
          pose proof (filter_length_le p l) as Hle
      end.
      rewrite length_app in Hle. cbn [List.length] in Hle. lia.
  - intros otherType otherId Hother. rewrite !map_map.
    cbn [ActionView.action actionView]. rewrite filter_app.
    cbn [filter ModAction.target_type ModAction.target_id].
    assert (E : (orStr target_type "unknown" =? otherType)%string
                && (target_id =? otherId) = false).
    { apply andb_false_iff. destruct Hother as [H|H].
      - left. apply String.eqb_neq. congruence.
      - right. apply Z.eqb_neq. congruence. }
    rewrite E, app_nil_r. reflexivity.
Qed.

(** A third entry on [loggedSite], for post 1. *)
Lemma addModerationAction_logged_witness :
  map (fun row => ModAction.id (ActionView.action row))
    (getModerationActionsForTarget sampleTime
       (snd (addModerationAction "2026-01-07T00:00:00.000Z" 1 "hide_post"
               "post" 1 "" loggedSite)) "post" 1 30)
  = [3]
  /\ State.moderation_actions
       (snd (addModerationAction "2026-01-07T00:00:00.000Z" 1 "hide_post"
               "post" 1 "" loggedSite))
     = State.moderation_actions loggedSite
       ++ [ModAction.mk 3 1 "hide_post" "post" 1 ""
             "2026-01-07T00:00:00.000Z"].
Proof.
  destruct (addModerationAction_logged sampleTime "2026-01-07T00:00:00.000Z"
              1 "hide_post" "post" 1 "" loggedSite 30) as [H _];
    [cbn; lia|].
  split; [reflexivity|exact H].
Defined.

(** X22. A page of [getReports] holds at most 30 reports, all of them
    stored reports with the status asked for, the most recent first; its
    total is the number of stored reports with that status, and the status
    all stands for every report. *)
Theorem getReports_filter (getTime : string -> Z) (s : State.t)
    (status : string) (page pageSize : Z) :
  let r := getReports getTime s status page pageSize in
  Z.of_nat (List.length (Page.items r)) <= Page.pageSize r
  /\ Page.pageSize r <= 30
  /\ (forall row,
        In row (Page.items r) ->
        In (ReportView.report row) (State.reports s)
        /\ (status = "all" \/ Report.status (ReportView.report row) = status))
  /\ StronglySorted
       (fun a b =>
          getTime (Report.created_at (ReportView.report b))
          <= getTime (Report.created_at (ReportView.report a)))
       (Page.items r)
  /\ Page.total r
     = (if (status =? "all")%string
        then Z.of_nat (List.length (State.reports s))
        else
          Z.of_nat
            (List.length
               (filter (fun report => (Report.status report =? status)%string)
                  (State.reports s)))).
Proof.
  cbv zeta. unfold getReports.
  cbn [Page.items Page.total Page.pageSize].
  match goal with
  | |- context [paginate ?items page pageSize] =>
      pose proof (paginate_page items page pageSize) as (H1 & H2 & H3 & H4);
      set (paged := paginate items page pageSize) in *
  end.
  split; [now rewrite length_map|]. split; [lia|]. split; [|split].
  - intros row Hrow. apply in_map_iff in Hrow.
    destruct Hrow as (report & <- & Hin). apply H4, In_sort in Hin.
    apply filter_In in Hin. destruct Hin as [Hin Hm].
    split; [exact Hin|]. cbn [ReportView.report reportView].
    destruct (String.eqb_spec status "all") as [E|_]; [now left|].
    right. now apply String.eqb_eq.
  - apply sorted_map. cbn [ReportView.report reportView].
    unfold paged, paginate. cbn [Page.items]. apply sorted_slice.
    apply (sort_newest_first (fun a => getTime (Report.created_at a))).
  - rewrite H3, sort_length.
    destruct (status =? "all")%string; [|reflexivity].
    now rewrite filter_all by (apply Forall_forall; auto).
Qed.

Lemma createReport_run (now : string) (reporter_user_id : Z)
    (target_type : string) (target_id : Z) (reason_code reason_text : string)
    (s : State.t) :
  let report :=
    Report.mk (Counters.reports (State.counters s) + 1) reporter_user_id
      target_type target_id (orStr reason_code "other") reason_text "open"
      None now None in
  createReport now reporter_user_id target_type target_id reason_code
    reason_text s
  = (report,
     State.setReports (State.reports s ++ [report])
       (State.setCounters
          (Counters.set Entity.reports
             (Counters.reports (State.counters s) + 1) (State.counters s))
          s)).
Proof.
  cbv zeta. unfold createReport, nextId, toInt. cbn [Counters.get].
  now rewrite !orInt_zero.
Qed.

(** X23. [createReport] appends an open, unassigned report under the next
    id of the counter; the queue of open reports and the list of all
    reports grow by one, and the queues of the other statuses keep their
    size. *)
Theorem createReport_queued (getTime : string -> Z) (now : string)
    (reporter_user_id : Z) (target_type : string) (target_id : Z)
    (reason_code reason_text : string) (s : State.t) (page pageSize : Z) :
  let r :=
    createReport now reporter_user_id target_type target_id reason_code
      reason_text s in
  State.reports (snd r) = State.reports s ++ [fst r]
  /\ Report.id (fst r) = Counters.reports (State.counters s) + 1
  /\ Report.status (fst r) = "open"
  /\ Report.assigned_to_user_id (fst r) = None
  /\ Report.resolved_at (fst r) = None
  /\ (forall status,
        Page.total (getReports getTime (snd r) status page pageSize)
        = Page.total (getReports getTime s status page pageSize)
          + (if (status =? "all")%string || (status =? "open")%string
             then 1 else 0)).
Proof.
  cbv zeta. rewrite createReport_run. cbv zeta. cbn [fst snd].
  cbn [State.reports State.setReports State.setCounters Report.id
       Report.status Report.assigned_to_user_id Report.resolved_at].
  repeat (split; [reflexivity|]).
  intros status. unfold getReports. cbn [Page.total].
  match goal with
  | |- Page.total (paginate ?a page pageSize)
       = Page.total (paginate ?b page pageSize) + _ =>
      pose proof (paginate_page a page pageSize) as (_ & _ & -> & _);
      pose proof (paginate_page b page pageSize) as (_ & _ & -> & _)
  end.
  rewrite !sort_length.
  cbn [State.reports State.setReports State.setCounters].
  rewrite filter_app, length_app. cbn [filter Report.status].
  destruct (String.eqb_spec status "all") as [->|Hall]; cbn [orb].
  - cbn. lia.
  - rewrite (String.eqb_sym "open" status).
    destruct (status =? "open")%string; cbn [List.length]; lia.
Qed.

(** ** Identifiers across calls *)

Lemma entity_eq_dec (e e0 : Entity.t) : {e = e0} + {e <> e0}.
Proof. decide equality. Qed.

Lemma get_set_same (e : Entity.t) (v : Z) (c : Counters.t) :
  Counters.get e (Counters.set e v c) = v.
Proof. now destruct e. Qed.

Lemma get_set_other (e e0 : Entity.t) (v : Z) (c : Counters.t) :
  e <> e0 -> Counters.get e (Counters.set e0 v c) = Counters.get e c.
Proof. intros H. destruct e, e0; try reflexivity; congruence. Qed.

Lemma filter_twice {A : Type} (p q : A -> bool) (l : list A) :
  filter q (filter p l) = filter (fun x => p x && q x) l.
Proof.
  induction l as [|x r IH]; cbn; [reflexivity|].
  destruct (p x); cbn; [destruct (q x); now rewrite IH|exact IH].
Qed.

Lemma map_updateFirst {A : Type} (getId : A -> Z) (p : A -> bool)
    (f : A -> A) (l : list A) :
  (forall x, getId (f x) = getId x) ->
  map getId (updateFirst p f l) = map getId l.
Proof.
  intros H. induction l as [|x r IH]; cbn; [reflexivity|].
  destruct (p x); cbn; [now rewrite H|now rewrite IH].
Qed.

Lemma map_filter_id {A : Type} (getId : A -> Z) (keep : Z -> bool)
    (l : list A) :
  map getId (filter (fun x => keep (getId x)) l) = filter keep (map getId l).
Proof.
  induction l as [|x r IH]; cbn; [reflexivity|].
  destruct (keep (getId x)); cbn; now rewrite IH.
Qed.

Lemma renumbers_refl (s : State.t) : renumbers s s.
Proof.
  intros e. split; [lia|]. exists (fun _ => true), [].
  rewrite app_nil_r, filter_true. repeat split; auto; constructor.
Qed.

Lemma renumbers_trans (s1 s2 s3 : State.t) :
  renumbers s1 s2 -> renumbers s2 s3 -> renumbers s1 s3.
Proof.
  intros H12 H23 e.
  destruct (H12 e) as (Hc1 & k1 & f1 & E1 & N1 & F1 & P1).
  destruct (H23 e) as (Hc2 & k2 & f2 & E2 & N2 & F2 & P2).
  rewrite Forall_forall in F1, F2.
  split; [lia|]. exists (fun id => k1 id && k2 id), (filter k2 f1 ++ f2).
  split; [|split; [|split]].
  - now rewrite E2, E1, filter_app, filter_twice, app_assoc.
  - apply NoDup_app; [now apply NoDup_filter|exact N2|].
    intros a Ha Hb. apply filter_In in Ha. destruct Ha as [Ha _].
    specialize (F1 a Ha). specialize (F2 a Hb). lia.
  - apply Forall_forall. intros a Ha. apply in_app_iff in Ha.
    destruct Ha as [Ha|Ha].
    + apply filter_In in Ha. destruct Ha as [Ha _]. specialize (F1 a Ha).
      lia.
    + specialize (F2 a Ha). lia.
  - intros Hp id. now rewrite P1, P2.
Qed.

Lemma follows_refl (s : State.t) : follows s s.
Proof.
  split; [apply renumbers_refl|]. exists []. now rewrite app_nil_r.
Qed.

Lemma follows_trans (s1 s2 s3 : State.t) :
  follows s1 s2 -> follows s2 s3 -> follows s1 s3.
Proof.
  intros [H12 (m1 & E1)] [H23 (m2 & E2)].
  split; [eapply renumbers_trans; eassumption|].
  exists (m1 ++ m2). now rewrite E2, E1, app_assoc.
Qed.

(** A step that touches no id and no counter. *)
Lemma follows_same (s s' : State.t) :
  State.counters s' = State.counters s ->
  (forall e, idsOf e s' = idsOf e s) ->
  State.moderation_actions s' = State.moderation_actions s ->
  follows s s'.
Proof.
  intros Hc Hids Hlog. split.
  - intros e. rewrite Hc, Hids. apply renumbers_refl.
  - exists []. now rewrite app_nil_r.
Qed.

(** A step that appends a record under the next id of [e0]. *)
Lemma follows_push (e0 : Entity.t) (s s' : State.t) :
  State.counters s'
  = Counters.set e0 (Counters.get e0 (State.counters s) + 1)
      (State.counters s) ->
  idsOf e0 s' = idsOf e0 s ++ [Counters.get e0 (State.counters s) + 1] ->
  (forall e, e <> e0 -> idsOf e s' = idsOf e s) ->
  (exists more,
      State.moderation_actions s' = State.moderation_actions s ++ more) ->
  follows s s'.
Proof.
  intros Hc Hids Hother Hlog. split; [|exact Hlog].
  intros e. rewrite Hc. destruct (entity_eq_dec e e0) as [->|Hne].
  - rewrite get_set_same. split; [lia|].
    exists (fun _ => true), [Counters.get e0 (State.counters s) + 1].
    rewrite filter_true. split; [exact Hids|].
    split; [repeat constructor; auto|].
    split; [repeat constructor; lia|auto].
  - rewrite (get_set_other _ _ _ _ Hne), (Hother _ Hne).
    apply renumbers_refl.
Qed.

(** A step that removes rows of [e0] by their id. *)
Lemma follows_drop (e0 : Entity.t) (keep : Z -> bool) (s s' : State.t) :
  persistent e0 = false ->
  State.counters s' = State.counters s ->
  idsOf e0 s' = filter keep (idsOf e0 s) ->
  (forall e, e <> e0 -> idsOf e s' = idsOf e s) ->
  State.moderation_actions s' = State.moderation_actions s ->
  follows s s'.
Proof.
  intros Hp Hc Hids Hother Hlog. split.
  - intros e. rewrite Hc. destruct (entity_eq_dec e e0) as [->|Hne].
    + split; [lia|]. exists keep, []. rewrite app_nil_r.
      split; [exact Hids|]. split; [constructor|]. split; [constructor|].
      congruence.
    + rewrite (Hother _ Hne). apply renumbers_refl.
  - exists []. now rewrite app_nil_r.
Qed.

Ltac same_ids :=
  apply follows_same;
  [reflexivity
  |let e := fresh "e" in
   intros e; destruct e; cbn; try reflexivity; apply map_updateFirst;
   reflexivity
  |reflexivity].

Ltac other_ids :=
  let e := fresh "e" in
  let He := fresh "He" in
  intros e He; destruct e; try reflexivity; congruence.

Ltac push_ids entity :=
  unfold nextId, toInt; rewrite ?orInt_zero; cbn [fst snd];
  apply (follows_push entity);
  [reflexivity
  |cbn; rewrite map_app; reflexivity
  |other_ids
  |try (exists []; cbn; now rewrite app_nil_r)].

Lemma createUser_follows (now username email password_hash : string)
    (s : State.t) :
  follows s (snd (createUser now username email password_hash s)).
Proof. unfold createUser. push_ids Entity.users. Qed.

Lemma updateUserProfile_follows (id : Z) (bio avatar_url : string)
    (s : State.t) :
  follows s (snd (updateUserProfile id bio avatar_url s)).
Proof.
  unfold updateUserProfile.
  destruct (getUserById s id); [same_ids|apply follows_refl].
Qed.

Lemma updateUserRole_follows (id : Z) (role : string) (s : State.t) :
  follows s (snd (updateUserRole id role s)).
Proof.
  unfold updateUserRole.
  destruct (getUserById s id); [|apply follows_refl].
  destruct (isRole role); [same_ids|apply follows_refl].
Qed.

Lemma updateUserStatus_follows (id : Z) (status : string) (s : State.t) :
  follows s (snd (updateUserStatus id status s)).
Proof.
  unfold updateUserStatus.
  destruct (getUserById s id); [|apply follows_refl].
  destruct (isUserStatus status); [same_ids|apply follows_refl].
Qed.

Lemma setVerificationToken_follows (userId : Z) (tokenHash expiresAt : string)
    (s : State.t) :
  follows s (snd (setVerificationToken userId tokenHash expiresAt s)).
Proof.
  unfold setVerificationToken.
  destruct (getUserById s userId); [same_ids|apply follows_refl].
Qed.

Lemma setResetToken_follows (userId : Z) (tokenHash expiresAt : string)
    (s : State.t) :
  follows s (snd (setResetToken userId tokenHash expiresAt s)).
Proof.
  unfold setResetToken.
  destruct (getUserById s userId); [same_ids|apply follows_refl].
Qed.

Lemma verifyUserByTokenHash_follows (getTime : string -> Z) (now : Z)
    (tokenHash : string) (s : State.t) :
  follows s (snd (verifyUserByTokenHash getTime now tokenHash s)).
Proof.
  unfold verifyUserByTokenHash.
  destruct (find _ (State.users s)); [same_ids|apply follows_refl].
Qed.

Lemma resetPasswordByTokenHash_follows (getTime : string -> Z) (now : Z)
    (tokenHash passwordHash : string) (s : State.t) :
  follows s
    (snd (resetPasswordByTokenHash getTime now tokenHash passwordHash s)).
Proof.
  unfold resetPasswordByTokenHash, getUserByResetTokenHash.
  destruct (find _ (State.users s)); [same_ids|apply follows_refl].
Qed.

Lemma hidePost_follows (postId : Z) (reason : string) (s : State.t) :
  follows s (snd (hidePost postId reason s)).
Proof.
  unfold hidePost.
  destruct (getPostRawById s postId); [same_ids|apply follows_refl].
Qed.

Lemma unhidePost_follows (postId : Z) (s : State.t) :
  follows s (snd (unhidePost postId s)).
Proof.
  unfold unhidePost.
  destruct (getPostRawById s postId); [same_ids|apply follows_refl].
Qed.

Lemma hideComment_follows (commentId : Z) (reason : string) (s : State.t) :
  follows s (snd (hideComment commentId reason s)).
Proof.
  unfold hideComment.
  destruct (getCommentRawById s commentId); [same_ids|apply follows_refl].
Qed.

Lemma unhideComment_follows (commentId : Z) (s : State.t) :
  follows s (snd (unhideComment commentId s)).
Proof.
  unfold unhideComment.
  destruct (getCommentRawById s commentId); [same_ids|apply follows_refl].
Qed.

Lemma assignReport_follows (reportId moderatorId : Z) (s : State.t) :
  follows s (snd (assignReport reportId moderatorId s)).
Proof.
  unfold assignReport.
  destruct (getReportById s reportId); [same_ids|apply follows_refl].
Qed.

Lemma resolveReport_follows (now : string) (reportId : Z) (status : string)
    (s : State.t) :
  follows s (snd (resolveReport now reportId status s)).
Proof.
  unfold resolveReport.
  destruct (getReportById s reportId); [|apply follows_refl].
  destruct (includes _ status); [same_ids|apply follows_refl].
Qed.

Lemma addComment_follows (now : string) (user_id post_id : Z) (body : string)
    (parent_comment_id : option Z) (s : State.t) :
  follows s (snd (addComment now user_id post_id body parent_comment_id s)).
Proof.
  unfold addComment.
  match goal with
  | |- context [if ?c then (None, s) else _] => destruct c
  end; [apply follows_refl|]. push_ids Entity.comments.
Qed.

Lemma createReport_follows (now : string) (reporter_user_id : Z)
    (target_type : string) (target_id : Z) (reason_code reason_text : string)
    (s : State.t) :
  follows s
    (snd (createReport now reporter_user_id target_type target_id reason_code
            reason_text s)).
Proof. unfold createReport. push_ids Entity.reports. Qed.

Lemma addModerationAction_follows (now : string) (actor_user_id : Z)
    (action_type target_type : string) (target_id : Z) (notes : string)
    (s : State.t) :
  follows s
    (snd (addModerationAction now actor_user_id action_type target_type
            target_id notes s)).
Proof.
  unfold addModerationAction. push_ids Entity.moderation_actions.
  eexists. reflexivity.
Qed.

Lemma toggleLike_follows (now : string) (userId postId : Z) (s : State.t) :
  follows s (snd (toggleLike now userId postId s)).
Proof.
  unfold toggleLike.
  destruct (find _ (State.likes s)) as [existing|].
  - apply (follows_drop Entity.likes
             (fun id => negb (id =? Like.id existing)));
      [reflexivity|reflexivity| |other_ids|reflexivity].
    apply (map_filter_id Like.id
             (fun id => negb (id =? Like.id existing))).
  - push_ids Entity.likes.
Qed.

Lemma toggleBookmark_follows (now : string) (userId postId : Z)
    (s : State.t) :
  follows s (snd (toggleBookmark now userId postId s)).
Proof.
  unfold toggleBookmark.
  destruct (find _ (State.bookmarks s)) as [existing|].
  - apply (follows_drop Entity.bookmarks
             (fun id => negb (id =? Bookmark.id existing)));
      [reflexivity|reflexivity| |other_ids|reflexivity].
    apply (map_filter_id Bookmark.id
             (fun id => negb (id =? Bookmark.id existing))).
  - push_ids Entity.bookmarks.
Qed.

Lemma toggleCommentReaction_follows (now : string) (userId commentId : Z)
    (reactionType : string) (s : State.t) :
  follows s
    (snd (toggleCommentReaction now userId commentId reactionType s)).
Proof.
  unfold toggleCommentReaction.
  destruct (isReaction reactionType); [|apply follows_refl]. cbn [negb].
  destruct (find _ (State.comment_reactions s)) as [existing|].
  - apply (follows_drop Entity.comment_reactions
             (fun id => negb (id =? Reaction.id existing)));
      [reflexivity|reflexivity| |other_ids|reflexivity].
    apply (map_filter_id Reaction.id
             (fun id => negb (id =? Reaction.id existing))).
  - push_ids Entity.comment_reactions.
Qed.

Lemma getOrCreateTag_follows (wall : nat -> string) (nameInput : string)
    (s : State.t) (n : nat) :
  follows s (snd (fst (getOrCreateTag wall nameInput s n))).
Proof.
  destruct (getOrCreateTag_run wall nameInput s n)
    as [[_ E]|[(_ & tag & _ & E)|(_ & _ & E)]]; cbv zeta in E; rewrite E;
    cbn [fst snd]; try apply follows_refl.
  apply (follows_push Entity.tags);
    [reflexivity|cbn; rewrite map_app; reflexivity|other_ids|].
  exists []. cbn. now rewrite app_nil_r.
Qed.

Lemma attachTags_follows (wall : nat -> string) (postId : Z)
    (names : list string) :
  forall (s : State.t) (n : nat),
    follows s (fst (attachTags wall postId names s n)).
Proof.
  induction names as [|item rest IH]; intros s n; cbn [attachTags].
  - apply follows_refl.
  - unfold bind. pose proof (getOrCreateTag_follows wall item s n) as H.
    destruct (getOrCreateTag wall item s n) as [[found s1] n1].
    cbn [fst snd] in H. eapply follows_trans; [exact H|].
    destruct found as [tag|]; [|apply IH].
    eapply follows_trans; [|apply IH]. same_ids.
Qed.

Lemma setPostTags_follows (wall : nat -> string) (postId : Z)
    (tagNames : list string) (s : State.t) (n : nat) :
  follows s (fst (setPostTags wall postId tagNames s n)).
Proof.
  unfold setPostTags. eapply follows_trans; [|apply attachTags_follows].
  same_ids.
Qed.

Lemma createPost_follows (wall : nat -> string) (user_id category_id : Z)
    (title markdown_body rendered_html excerpt : string)
    (reading_time_minutes : Z) (media_url media_type : string)
    (tag_names : list string) (s : State.t) (n : nat) :
  follows s
    (snd (fst (createPost wall user_id category_id title markdown_body
                 rendered_html excerpt reading_time_minutes media_url
                 media_type tag_names s n))).
Proof.
  rewrite createPost_run. cbv zeta. cbn [fst snd].
  eapply follows_trans; [|eapply follows_trans;
                           [apply setPostTags_follows|same_ids]].
  apply (follows_push Entity.posts);
    [reflexivity|cbn; rewrite map_app; reflexivity|other_ids|].
  exists []. cbn. now rewrite app_nil_r.
Qed.

Lemma applyCall_follows (getTime : string -> Z) (wall : nat -> string)
    (call : Call.t) (s : State.t) :
  follows s (applyCall getTime wall call s).
Proof.
  destruct call; cbn [applyCall].
  - apply createUser_follows.
  - apply setVerificationToken_follows.
  - apply verifyUserByTokenHash_follows.
  - apply setResetToken_follows.
  - apply resetPasswordByTokenHash_follows.
  - apply updateUserProfile_follows.
  - apply updateUserRole_follows.
  - apply updateUserStatus_follows.
  - apply getOrCreateTag_follows.
  - apply setPostTags_follows.
  - apply createPost_follows.
  - apply hidePost_follows.
  - apply unhidePost_follows.
  - apply toggleLike_follows.
  - apply toggleBookmark_follows.
  - apply toggleCommentReaction_follows.
  - apply addComment_follows.
  - apply hideComment_follows.
  - apply unhideComment_follows.
  - apply createReport_follows.
  - apply addModerationAction_follows.
  - apply assignReport_follows.
  - apply resolveReport_follows.
Qed.

Lemma applyCalls_follows (getTime : string -> Z) (wall : nat -> string)
    (calls : list Call.t) :
  forall s, follows s (applyCalls getTime wall calls s).
Proof.
  induction calls as [|call rest IH]; intros s; cbn.
  - apply follows_refl.
  - eapply follows_trans; [apply applyCall_follows|apply IH].
Qed.

Lemma renumbers_wellNumbered (s s' : State.t) :
  wellNumbered s -> renumbers s s' -> wellNumbered s'.
Proof.
  intros [Hcover Hnodup] H. split.
  - intros e id Hin.
    destruct (H e) as (Hc & keep & fresh & E & _ & F & _).
    rewrite E in Hin. apply in_app_iff in Hin. destruct Hin as [Hin|Hin].
    + apply filter_In in Hin. destruct Hin as [Hin _].
      apply Hcover in Hin. lia.
    + rewrite Forall_forall in F. specialize (F id Hin). lia.
  - intros e. destruct (H e) as (Hc & keep & fresh & E & N & F & _).
    rewrite E. apply NoDup_app; [now apply NoDup_filter|exact N|].
    intros a Ha Hb. apply filter_In in Ha. destruct Ha as [Ha _].
    apply Hcover in Ha. rewrite Forall_forall in F. specialize (F a Hb).
    lia.
Qed.

(** *** Growth of the counters *)

Lemma bumps_same (k : Z) (s s' : State.t) :
  State.counters s' = State.counters s -> 0 <= k -> bumps k s s'.
Proof. intros H Hk e. rewrite H. lia. Qed.

Lemma bumps_push (e0 : Entity.t) (k : Z) (s s' : State.t) :
  State.counters s'
  = Counters.set e0 (Counters.get e0 (State.counters s) + 1)
      (State.counters s) ->
  1 <= k -> bumps k s s'.
Proof.
  intros H Hk e. rewrite H. destruct (entity_eq_dec e e0) as [->|Hne].
  - rewrite get_set_same. lia.
  - rewrite (get_set_other _ _ _ _ Hne). lia.
Qed.

Lemma bumps_trans (k1 k2 : Z) (s1 s2 s3 : State.t) :
  bumps k1 s1 s2 -> bumps k2 s2 s3 -> bumps (k1 + k2) s1 s3.
Proof. intros H12 H23 e. specialize (H12 e). specialize (H23 e). lia. Qed.

Lemma bumps_weaken (k k' : Z) (s s' : State.t) :
  bumps k s s' -> k <= k' -> bumps k' s s'.
Proof. intros H Hk e. specialize (H e). lia. Qed.

Ltac same_counters := apply bumps_same; [reflexivity|lia].

Ltac push_counter entity :=
  unfold nextId, toInt; rewrite ?orInt_zero; cbn [fst snd];
  apply (bumps_push entity); [reflexivity|lia].

Lemma getOrCreateTag_bumps (wall : nat -> string) (nameInput : string)
    (s : State.t) (n : nat) :
  bumps 1 s (snd (fst (getOrCreateTag wall nameInput s n))).
Proof.
  destruct (getOrCreateTag_run wall nameInput s n)
    as [[_ E]|[(_ & tag & _ & E)|(_ & _ & E)]]; cbv zeta in E; rewrite E;
    cbn [fst snd]; try same_counters.
  apply (bumps_push Entity.tags); [reflexivity|lia].
Qed.

Lemma attachTags_bumps (wall : nat -> string) (postId : Z)
    (names : list string) :
  forall (s : State.t) (n : nat),
    bumps (Z.of_nat (List.length names)) s
      (fst (attachTags wall postId names s n)).
Proof.
  induction names as [|item rest IH]; intros s n; cbn [attachTags].
  - same_counters.
  - unfold bind. pose proof (getOrCreateTag_bumps wall item s n) as H.
    destruct (getOrCreateTag wall item s n) as [[found s1] n1].
    cbn [fst snd] in H.
    replace (Z.of_nat (List.length (item :: rest)))
      with (1 + Z.of_nat (List.length rest)) by (cbn [List.length]; lia).
    eapply bumps_trans; [exact H|].
    destruct found as [tag|]; [|apply IH].
    replace (Z.of_nat (List.length rest))
      with (0 + Z.of_nat (List.length rest)) by lia.
    match goal with
    | |- bumps _ s1 (fst (attachTags wall postId rest ?s2 n1)) =>
        apply (bumps_trans 0 (Z.of_nat (List.length rest)) s1 s2);
        [same_counters|apply IH]
    end.
Qed.

Lemma setPostTags_bumps (wall : nat -> string) (postId : Z)
    (tagNames : list string) (s : State.t) (n : nat) :
  bumps 5 s (fst (setPostTags wall postId tagNames s n)).
Proof.
  unfold setPostTags.
  pose proof (uniqueTagNames_length tagNames [] ltac:(cbn; lia)) as Hlen.
  eapply bumps_weaken.
  - match goal with
    | |- bumps _ s (fst (attachTags wall postId ?names ?s1 n)) =>
        apply (bumps_trans 0 (Z.of_nat (List.length names)) s s1);
        [same_counters|apply attachTags_bumps]
    end.
  - lia.
Qed.

Lemma createPost_bumps (wall : nat -> string) (user_id category_id : Z)
    (title markdown_body rendered_html excerpt : string)
    (reading_time_minutes : Z) (media_url media_type : string)
    (tag_names : list string) (s : State.t) (n : nat) :
  bumps 6 s
    (snd (fst (createPost wall user_id category_id title markdown_body
                 rendered_html excerpt reading_time_minutes media_url
                 media_type tag_names s n))).
Proof.
  rewrite createPost_run. cbv zeta. cbn [fst snd].
  match goal with
  | |- bumps 6 s
         (withLastRebuild _ (fst (setPostTags wall ?id tag_names ?s1 ?m))) =>
      apply (bumps_trans 1 5 s s1);
      [apply (bumps_push Entity.posts); [reflexivity|lia]|];
      apply (bumps_trans 5 0 s1 (fst (setPostTags wall id tag_names s1 m)));
      [apply setPostTags_bumps|same_counters]
  end.
Qed.

(** No call hands out more than six ids: one post and five tags. *)
Lemma applyCall_bumps (getTime : string -> Z) (wall : nat -> string)
    (call : Call.t) (s : State.t) :
  bumps 6 s (applyCall getTime wall call s).
Proof.
  destruct call; cbn [applyCall].
  - unfold createUser. push_counter Entity.users.
  - unfold setVerificationToken.
    destruct (getUserById s userId); same_counters.
  - unfold verifyUserByTokenHash.
    destruct (find _ (State.users s)); same_counters.
  - unfold setResetToken. destruct (getUserById s userId); same_counters.
  - unfold resetPasswordByTokenHash, getUserByResetTokenHash.
    destruct (find _ (State.users s)); same_counters.
  - unfold updateUserProfile. destruct (getUserById s id); same_counters.
  - unfold updateUserRole.
    destruct (getUserById s id); [|same_counters].
    destruct (isRole role); same_counters.
  - unfold updateUserStatus.
    destruct (getUserById s id); [|same_counters].
    destruct (isUserStatus status); same_counters.
  - eapply bumps_weaken; [apply getOrCreateTag_bumps|lia].
  - eapply bumps_weaken; [apply setPostTags_bumps|lia].
  - apply createPost_bumps.
  - unfold hidePost. destruct (getPostRawById s postId); same_counters.
  - unfold unhidePost. destruct (getPostRawById s postId); same_counters.
  - unfold toggleLike.
    destruct (find _ (State.likes s)); [same_counters|].
    push_counter Entity.likes.
  - unfold toggleBookmark.
    destruct (find _ (State.bookmarks s)); [same_counters|].
    push_counter Entity.bookmarks.
  - unfold toggleCommentReaction.
    destruct (isReaction reactionType); [|same_counters]. cbn [negb].
    destruct (find _ (State.comment_reactions s)); [same_counters|].
    push_counter Entity.comment_reactions.
  - unfold addComment.
    match goal with
    | |- context [if ?c then (None, s) else _] => destruct c
    end; [same_counters|]. push_counter Entity.comments.
  - unfold hideComment.
    destruct (getCommentRawById s commentId); same_counters.
  - unfold unhideComment.
    destruct (getCommentRawById s commentId); same_counters.
  - unfold createReport. push_counter Entity.reports.
  - unfold addModerationAction. push_counter Entity.moderation_actions.
  - unfold assignReport. destruct (getReportById s reportId); same_counters.
  - unfold resolveReport.
    destruct (getReportById s reportId); [|same_counters].
    destruct (includes _ status); same_counters.
Qed.

Lemma applyCalls_bumps (getTime : string -> Z) (wall : nat -> string)
    (calls : list Call.t) :
  forall s,
    bumps (6 * Z.of_nat (List.length calls)) s
      (applyCalls getTime wall calls s).
Proof.
  induction calls as [|call rest IH]; intros s; cbn [applyCalls fold_left].
  - same_counters.
  - replace (6 * Z.of_nat (List.length (call :: rest)))
      with (6 + 6 * Z.of_nat (List.length rest))
      by (cbn [List.length]; lia).
    eapply bumps_trans; [apply applyCall_bumps|apply IH].
Qed.

(** X24. Ids are never reused while the counters are safe integers, where
    the source adds 1 exactly. Take a store whose ids are pairwise distinct
    and not above their counters, and a sequence of calls of the writing
    functions short enough for every counter to stay a safe integer with
    six more ids per call (a call hands out six ids at most). The sequence
    ends in a store of the same kind; no counter goes down, nor up by more
    than six per call; an id in use at the end was in use at the start or
    lies above the counter of the start, so an id given up by a toggle
    never comes back; and the id [nextId] would hand out next is in use
    nowhere. *)
Theorem ids_never_reused (getTime : string -> Z) (wall : nat -> string)
    (calls : list Call.t) (s : State.t) :
  wellNumbered s ->
  (forall e,
      isSafeInteger (Counters.get e (State.counters s))
      /\ isSafeInteger
           (Counters.get e (State.counters s)
            + 6 * Z.of_nat (List.length calls))) ->
  let s' := applyCalls getTime wall calls s in
  wellNumbered s'
  /\ (forall e,
        Counters.get e (State.counters s)
        <= Counters.get e (State.counters s')
        <= Counters.get e (State.counters s)
           + 6 * Z.of_nat (List.length calls))
  /\ (forall e, isSafeInteger (Counters.get e (State.counters s')))
  /\ (forall e id,
        In id (idsOf e s') ->
        In id (idsOf e s) \/ Counters.get e (State.counters s) < id)
  /\ (forall e, ~ In (fst (nextId e s')) (idsOf e s')).
Proof.
  intros Hwell Hsafe. cbv zeta.
  destruct (applyCalls_follows getTime wall calls s) as [Hre _].
  pose proof (applyCalls_bumps getTime wall calls s) as Hbumps.
  pose proof (renumbers_wellNumbered _ _ Hwell Hre) as Hwell'.
  assert (Hrange : forall e,
             Counters.get e (State.counters s)
             <= Counters.get e (State.counters (applyCalls getTime wall calls s))
             <= Counters.get e (State.counters s)
                + 6 * Z.of_nat (List.length calls)).
  { intros e. split; [now destruct (Hre e)|apply Hbumps]. }
  split; [exact Hwell'|]. split; [exact Hrange|]. split; [|split].
  - intros e. specialize (Hrange e). destruct (Hsafe e) as [H1 H2].
    unfold isSafeInteger in *. lia.
  - intros e id Hin. destruct (Hre e) as (_ & keep & fresh & E & _ & F & _).
    rewrite E in Hin. apply in_app_iff in Hin. destruct Hin as [Hin|Hin].
    + left. apply filter_In in Hin. tauto.
    + right. rewrite Forall_forall in F. specialize (F id Hin). lia.
  - intros e Hin. destruct Hwell' as [Hcover _]. apply Hcover in Hin.
    rewrite nextId_value in Hin. lia.
Qed.

(** A like given, taken back and given again on the empty store. *)
Lemma ids_never_reused_witness :
  wellNumbered
    (applyCalls sampleTime sampleWall
       [Call.toggleLike "2026-01-04" 1 1; Call.toggleLike "2026-01-05" 1 1;
        Call.toggleLike "2026-01-06" 1 1] baseState)
  /\ idsOf Entity.likes
       (applyCalls sampleTime sampleWall
          [Call.toggleLike "2026-01-04" 1 1; Call.toggleLike "2026-01-05" 1 1;
           Call.toggleLike "2026-01-06" 1 1] baseState) = [2].
Proof.
  destruct (ids_never_reused sampleTime sampleWall
              [Call.toggleLike "2026-01-04" 1 1;
               Call.toggleLike "2026-01-05" 1 1;
               Call.toggleLike "2026-01-06" 1 1] baseState) as [H _].
  - split.
    + intros e id Hin. destruct e; destruct Hin.
    + intros e. destruct e; constructor.
  - intros e. unfold isSafeInteger, MAX_SAFE_INTEGER.
    destruct e; cbn; lia.
  - split; [exact H|reflexivity].
Defined.

(** X25. No record that carries an id is deleted but likes, bookmarks
    and reactions (the tag relations of a post carry none and are replaced
    by [setPostTags]). Whatever the calls, the ids of the users,
    categories, posts, comments, tags and reports of the start are still
    there at the end, in the same order, new ones coming after them; and
    the moderation log of the start is the beginning of the log of the end,
    entry for entry. *)
Theorem records_are_kept (getTime : string -> Z) (wall : nat -> string)
    (calls : list Call.t) (s : State.t) :
  let s' := applyCalls getTime wall calls s in
  (exists more, map User.id (State.users s')
                = map User.id (State.users s) ++ more)
  /\ (exists more, map Category.id (State.categories s')
                   = map Category.id (State.categories s) ++ more)
  /\ (exists more, map Post.id (State.posts s')
                   = map Post.id (State.posts s) ++ more)
  /\ (exists more, map Comment.id (State.comments s')
                   = map Comment.id (State.comments s) ++ more)
  /\ (exists more, map Tag.id (State.tags s')
                   = map Tag.id (State.tags s) ++ more)
  /\ (exists more, map Report.id (State.reports s')
                   = map Report.id (State.reports s) ++ more)
  /\ (exists more, State.moderation_actions s'
                   = State.moderation_actions s ++ more).
Proof.
  cbv zeta.
  destruct (applyCalls_follows getTime wall calls s) as [Hre Hlog].
  assert (H : forall e, persistent e = true ->
                exists more,
                  idsOf e (applyCalls getTime wall calls s)
                  = idsOf e s ++ more).
  { intros e Hp. destruct (Hre e) as (_ & keep & fresh & E & _ & _ & K).
    exists fresh. rewrite E. f_equal. apply filter_all, Forall_forall.
    intros id _. now apply K. }
  split; [apply (H Entity.users); reflexivity|].
  split; [apply (H Entity.categories); reflexivity|].
  split; [apply (H Entity.posts); reflexivity|].
  split; [apply (H Entity.comments); reflexivity|].
  split; [apply (H Entity.tags); reflexivity|].
  split; [apply (H Entity.reports); reflexivity|exact Hlog].
Qed.

(** ** Rankings *)

Section SortByKey.

Context {A : Type}.
Variable cmp : A -> A -> Z.
Variable key : A -> Z.
Hypothesis cmp_le : forall x y, cmp x y <= 0 -> key y <= key x.
Hypothesis cmp_gt : forall x y, 0 < cmp x y -> key x <= key y.

(** A comparator that ranks by decreasing key first yields a list of
    decreasing keys, whatever it does between equal keys. *)
Lemma sort_by_key (l : list A) :
  StronglySorted (fun a b => key b <= key a) (Js.sort cmp l).
Proof.
  induction l as [|x r IH]; cbn [Js.sort]; [constructor|].
  induction IH as [|y m Hm IHm Hy]; cbn [Js.insertSorted].
  - constructor; constructor.
  - destruct (Z.leb_spec (cmp x y) 0) as [Hxy|Hxy].
    + constructor; [now constructor|]. apply cmp_le in Hxy.
      constructor; [exact Hxy|]. eapply Forall_impl; [|exact Hy].
      cbn. intros; lia.
    + constructor; [exact IHm|]. apply Forall_forall. intros z Hz.
      apply In_insertSorted in Hz. destruct Hz as [->|Hz].
      * now apply cmp_gt.
      * rewrite Forall_forall in Hy. auto.
Qed.

End SortByKey.

Lemma mapGet_mapSet (usage : list (Z * Z)) (key value wanted : Z) :
  orZero (mapGet (mapSet usage key value) wanted)
  = if key =? wanted then value else orZero (mapGet usage wanted).
Proof.
  induction usage as [|[k v] rest IH]; cbn [mapSet mapGet].
  - now destruct (key =? wanted).
  - destruct (Z.eqb_spec k key) as [->|Hk]; cbn [mapGet].
    + now destruct (key =? wanted).
    + destruct (Z.eqb_spec k wanted) as [->|Hw]; [|exact IH].
      apply Z.eqb_neq in Hk. rewrite Z.eqb_sym in Hk. now rewrite Hk.
Qed.

(** The map built by the first loop of [getPopularTags] holds, for each
    tag id, the number of relations that carry it. *)
Lemma tagUsage_fold (relations : list PostTag.t) (wanted : Z) :
  forall usage,
    orZero
      (mapGet
         (fold_left
            (fun usage relation =>
               mapSet usage (PostTag.tag_id relation)
                 (orInt (orZero (mapGet usage (PostTag.tag_id relation))) 0
                  + 1)) relations usage) wanted)
    = orZero (mapGet usage wanted)
      + Z.of_nat
          (List.length
             (filter (fun relation => PostTag.tag_id relation =? wanted)
                relations)).
Proof.
  induction relations as [|x r IH]; intros usage; cbn [fold_left filter];
    [cbn; lia|].
  rewrite IH, mapGet_mapSet, orInt_zero.
  destruct (Z.eqb_spec (PostTag.tag_id x) wanted) as [->|_];
    cbn [List.length]; lia.
Qed.

(** X26. [getPopularTags] gives at most [limit] rows, each the row of a
    tag of the store whose usage count is the number of post-tag relations
    that carry the id of the tag, the most used first. *)
Theorem getPopularTags_usage (collate : string -> string -> Z)
    (s : State.t) (limit : Z) :
  0 <= limit ->
  let rows := getPopularTags collate s limit in
  Z.of_nat (List.length rows) <= limit
  /\ (forall row,
        In row rows ->
        exists tag,
          In tag (State.tags s)
          /\ TagUsage.id row = Tag.id tag
          /\ TagUsage.name row = Tag.name tag
          /\ TagUsage.slug row = Tag.slug tag
          /\ TagUsage.usage_count row
             = Z.of_nat
                 (List.length
                    (filter
                       (fun relation =>
                          PostTag.tag_id relation =? Tag.id tag)
                       (State.post_tags s))))
  /\ StronglySorted
       (fun a b => TagUsage.usage_count b <= TagUsage.usage_count a) rows.
Proof.
  intros Hlimit. cbv zeta. unfold getPopularTags.
  split; [now apply (length_slice _ 0 limit)|]. split.
  - intros row Hrow. apply In_slice, In_sort, in_map_iff in Hrow.
    destruct Hrow as (tag & <- & Hin). exists tag.
    cbn [TagUsage.id TagUsage.name TagUsage.slug TagUsage.usage_count].
    repeat (split; [auto|]). rewrite orInt_zero. unfold tagUsage.
    now rewrite tagUsage_fold.
  - apply sorted_slice.
    apply (sort_by_key (compareUsage collate) TagUsage.usage_count);
      unfold compareUsage; intros x y;
      destruct (Z.eqb_spec (TagUsage.usage_count y) (TagUsage.usage_count x));
      lia.
Qed.

(** The one tag of [smallSite], carried by post 1. *)
Lemma getPopularTags_usage_witness :
  map TagUsage.usage_count (getPopularTags sampleCollate smallSite 20) = [1]
  /\ Z.of_nat (List.length (getPopularTags sampleCollate smallSite 20)) <= 20.
Proof.
  destruct (getPopularTags_usage sampleCollate smallSite 20) as [H _];
    [lia|].
  split; [reflexivity|exact H].
Defined.

Lemma filter_or_length {A : Type} (p q : A -> bool) (l : list A) :
  (forall x, p x = true -> q x = false) ->
  List.length (filter (fun x => p x || q x) l)
  = (List.length (filter p l) + List.length (filter q l))%nat.
Proof.
  intros H. induction l as [|x r IH]; cbn [filter]; [reflexivity|].
  destruct (p x) eqn:Hp; cbn [orb].
  - rewrite (H x Hp). cbn [List.length]. lia.
  - destruct (q x); cbn [List.length]; lia.
Qed.

(** The sum of [getTopCreators] over posts of distinct ids counts the
    likes that sit on one of these posts, each once. *)
Lemma sum_likes_count (s : State.t) (posts : list Post.t) :
  NoDup (map Post.id posts) ->
  forall sum,
    fold_left (fun sum post => sum + countLikes s (Post.id post)) posts sum
    = sum
      + Z.of_nat
          (List.length
             (filter
                (fun like =>
                   existsb (fun post => Post.id post =? Like.post_id like)
                     posts) (State.likes s))).
Proof.
  induction posts as [|p r IH]; intros Hnodup sum; cbn [fold_left existsb].
  - rewrite filter_false. cbn. lia.
  - cbn [map] in Hnodup. inversion Hnodup as [|? ? Hp Hr]; subst.
    rewrite (IH Hr), filter_or_length.
    + unfold countLikes, toInt.
      rewrite (filter_ext (fun like => Like.post_id like =? Post.id p)
                 (fun like => Post.id p =? Like.post_id like)
                 (fun like => Z.eqb_sym _ _)).
      lia.
    + intros like Hlike. apply Z.eqb_eq in Hlike.
      destruct (existsb _ r) eqn:E; [|reflexivity].
      apply existsb_exists in E. destruct E as (q & Hq & Hid).
      apply Z.eqb_eq in Hid. exfalso. apply Hp. rewrite Hlike, <- Hid.
      now apply in_map.
Qed.

Lemma NoDup_map_filter {A : Type} (getId : A -> Z) (keep : A -> bool)
    (l : list A) :
  NoDup (map getId l) -> NoDup (map getId (filter keep l)).
Proof.
  induction l as [|x r IH]; cbn [map filter]; [auto|]. intros H.
  inversion H as [|? ? Hx Hr]; subst.
  destruct (keep x); cbn [map]; [|auto]. constructor; [|auto].
  intros Hin. apply Hx. apply in_map_iff in Hin.
  destruct Hin as (y & <- & Hy). apply filter_In in Hy.
  apply in_map. tauto.
Qed.

(** X27. When the posts carry distinct ids, [getTopCreators] gives at most
    [limit] rows, each the row of a user of the store. The post count of a
    row is the number of posts of that user that are not hidden, and the
    received likes are the likes that sit on one of these posts: a hidden
    post brings neither a post nor its likes. The rows go by decreasing
    number of received likes. *)
Theorem getTopCreators_ranking (getTime : string -> Z) (s : State.t)
    (limit : Z) :
  0 <= limit ->
  NoDup (map Post.id (State.posts s)) ->
  let rows := getTopCreators getTime s limit in
  Z.of_nat (List.length rows) <= limit
  /\ (forall row,
        In row rows ->
        exists user,
          let shown :=
            filter
              (fun post =>
                 (Post.user_id post =? User.id user)
                 && negb (Post.is_hidden post)) (State.posts s) in
          In user (State.users s)
          /\ CreatorRow.username row = User.username user
          /\ CreatorRow.role row = User.role user
          /\ CreatorRow.post_count row = Z.of_nat (List.length shown)
          /\ CreatorRow.received_likes row
             = Z.of_nat
                 (List.length
                    (filter
                       (fun like =>
                          existsb
                            (fun post => Post.id post =? Like.post_id like)
                            shown) (State.likes s))))
  /\ StronglySorted
       (fun a b => CreatorRow.received_likes b <= CreatorRow.received_likes a)
       rows.
Proof.
  intros Hlimit Hnodup. cbv zeta. unfold getTopCreators.
  split; [rewrite length_map; now apply (length_slice _ 0 limit)|]. split.
  - intros row Hrow. apply in_map_iff in Hrow.
    destruct Hrow as (c & <- & Hc).
    apply In_slice, In_sort, in_map_iff in Hc.
    destruct Hc as (user & <- & Hin). exists user.
    cbn [CreatorRow.username CreatorRow.role CreatorRow.post_count
         CreatorRow.received_likes].
    unfold creatorOf.
    cbn [Creator.username Creator.role Creator.post_count
         Creator.received_likes].
    do 4 (split; [auto|]).
    rewrite sum_likes_count by now apply NoDup_map_filter.
    lia.
  - apply sorted_map. cbn [CreatorRow.received_likes]. apply sorted_slice.
    apply (sort_by_key (compareCreators getTime) Creator.received_likes);
      unfold compareCreators; intros x y;
      destruct (Z.eqb_spec (Creator.received_likes y)
                  (Creator.received_likes x)); try lia;
      destruct (Creator.post_count y =? Creator.post_count x); lia.
Qed.

(** The first user of [likedHidden] wrote a post with one like and a
    hidden post with one like: one post and one like are counted. *)
Lemma getTopCreators_ranking_witness :
  getTopCreators sampleTime likedHidden 5
  = [CreatorRow.mk "ann" "" 1 1 "admin"; CreatorRow.mk "bob" "" 0 0 "user"]
  /\ countLikes likedHidden 2 = 1
  /\ Z.of_nat (List.length (getTopCreators sampleTime likedHidden 5)) <= 5.
Proof.
  destruct (getTopCreators_ranking sampleTime likedHidden 5) as [H _];
    [lia|cbn; repeat constructor; cbn; intuition discriminate|].
  split; [reflexivity|]. split; [reflexivity|exact H].
Defined.

(** ** Helpers of the request handlers *)

Lemma lower_trim (s : string) :
  Js.toLowerCase (Js.trim s) = normalizeText s.
Proof.
  unfold normalizeText, Js.trim, Js.toLowerCase.
  rewrite !list_ascii_of_string_of_list_ascii.
  now rewrite (strip_map Js.isSpace Js.lowerChar) by apply isSpace_lowerChar.
Qed.

(** X28. [parseTags] gives at most five names; none of them is empty, and
    each is trimmed and in lower case already, so that normalizing it
    again changes nothing; the empty input gives no name. *)
Theorem parseTags_normalized (raw : string) :
  let names := parseTags raw in
  (List.length names <= 5)%nat
  /\ (forall name,
        In name names ->
        name <> "" /\ Js.toLowerCase (Js.trim name) = name)
  /\ (raw = "" -> names = []).
Proof.
  cbv zeta. unfold parseTags. split; [|split].
  - destruct (raw =? "")%string; [cbn; lia|].
    match goal with
    | |- (List.length (Js.slice ?l 0 5) <= 5)%nat =>
        pose proof (length_slice l 0 5 ltac:(lia) ltac:(lia)) as H
    end.
    cbn [Z.add] in H. lia.
  - intros name Hin. destruct (raw =? "")%string; [destruct Hin|].
    apply In_slice, filter_In in Hin. destruct Hin as [Hin Hne].
    apply negb_true_iff, String.eqb_neq in Hne. split; [exact Hne|].
    apply in_map_iff in Hin. destruct Hin as (item & <- & _).
    now rewrite !lower_trim, normalizeText_idem.
  - now intros ->.
Qed.

Lemma relativeTime_count (diff unit bound : Z) :
  0 < unit -> unit <= diff -> diff < bound * unit ->
  1 <= diff / unit < bound.
Proof.
  intros Hu Hlow Hhigh. split.
  - apply Z.div_le_lower_bound; lia.
  - apply Z.div_lt_upper_bound; lia.
Qed.

(** X29. For a valid date, [relativeTime] answers just now when the date
    lies less than a minute back, or ahead. From one minute on it answers a
    count followed by m, h, d, mo or y and ago, where the count is never 0:
    minutes run from 1 to 59, hours from 1 to 23, days from 1 to 29, months
    (of 30 days) from 1 to 12, and years (of 365 days) start at 1. *)
Theorem relativeTime_ranges (now value : Z) :
  let diff := (now - value) / 1000 in
  (diff < 60 -> relativeTime now value = "just now")
  /\ (60 <= diff ->
      exists count label,
        relativeTime now value
        = (Js.stringOfInt count ++ label ++ " ago")%string
        /\ (label = "m" /\ count = diff / 60 /\ 1 <= count < 60
            \/ label = "h" /\ count = diff / 3600 /\ 1 <= count < 24
            \/ label = "d" /\ count = diff / 86400 /\ 1 <= count < 30
            \/ label = "mo" /\ count = diff / 2592000 /\ 1 <= count <= 12
            \/ label = "y" /\ count = diff / 31536000 /\ 1 <= count)).
Proof.
  cbv zeta. unfold relativeTime, timeUnits. cbn [find fst snd].
  set (diff := (now - value) / 1000). rewrite !Z.geb_leb. split.
  - intros Hlt.
    repeat match goal with
           | |- context [?a <=? ?b] =>
               destruct (Z.leb_spec a b); [lia|]
           end.
    reflexivity.
  - intros Hge. rewrite Z.max_r by lia.
    destruct (Z.leb_spec 31536000 diff).
    { exists (diff / 31536000), "y". split; [reflexivity|].
      do 4 right. split; [reflexivity|]. split; [reflexivity|].
      apply Z.div_le_lower_bound; lia. }
    destruct (Z.leb_spec 2592000 diff).
    { exists (diff / 2592000), "mo". split; [reflexivity|].
      do 3 right. left. split; [reflexivity|]. split; [reflexivity|].
      pose proof (relativeTime_count diff 2592000 13). lia. }
    destruct (Z.leb_spec 86400 diff).
    { exists (diff / 86400), "d". split; [reflexivity|].
      do 2 right. left. split; [reflexivity|]. split; [reflexivity|].
      apply relativeTime_count; lia. }
    destruct (Z.leb_spec 3600 diff).
    { exists (diff / 3600), "h". split; [reflexivity|].
      right. left. split; [reflexivity|]. split; [reflexivity|].
      apply relativeTime_count; lia. }
    destruct (Z.leb_spec 60 diff); [|lia].
    exists (diff / 60), "m". split; [reflexivity|].
    left. split; [reflexivity|]. split; [reflexivity|].
    apply relativeTime_count; lia.
Qed.

(** ** A reply under a comment that gets hidden *)

Lemma startsWith_child (a b : string) :
  Js.startsWith (a ++ "." ++ b)%string (a ++ ".")%string = true.
Proof.
  unfold Js.startsWith. induction a as [|c a IH]; cbn.
  - destruct (ascii_dec "." "."); [now destruct b|contradiction].
  - destruct (ascii_dec c c); [exact IH|contradiction].
Qed.

Lemma updateFirst_app_found {A : Type} (p : A -> bool) (f : A -> A)
    (l m : list A) (x : A) :
  find p l = Some x -> updateFirst p f (l ++ m) = updateFirst p f l ++ m.
Proof.
  induction l as [|y r IH]; cbn; [discriminate|].
  destruct (p y); [reflexivity|]. intros H. now rewrite IH.
Qed.

Lemma In_updateFirst {A : Type} (p : A -> bool) (f : A -> A) (l : list A)
    (x : A) :
  find p l = Some x -> In (f x) (updateFirst p f l).
Proof.
  induction l as [|y r IH]; cbn; [discriminate|].
  destruct (p y); [intros [= ->]; now left|]. intros H. right. auto.
Qed.

(** A reply to a comment of the same post. *)
Lemma addComment_reply_run (now : string) (user_id post_id : Z)
    (body : string) (parentId : Z) (s : State.t) (parent : Comment.t) :
  parentId <> 0 ->
  getCommentRawById s parentId = Some parent ->
  Comment.post_id parent = post_id ->
  let id := Counters.comments (State.counters s) + 1 in
  let reply :=
    Comment.mk id user_id post_id (Some (Comment.id parent))
      (orInt (Comment.depth parent) 0 + 1)
      (Comment.path parent ++ "." ++ padId id)%string body false "" now in
  addComment now user_id post_id body (Some parentId) s
  = (Some reply,
     State.setComments (State.comments s ++ [reply])
       (State.setCounters
          (Counters.set Entity.comments id (State.counters s)) s)).
Proof.
  intros Hid Hfound Hpost. cbv zeta. unfold addComment, truthyId.
  apply Z.eqb_neq in Hid. rewrite Hid, Hfound, nextId_comments.
  unfold toInt, buildCommentPath. rewrite Hpost, Z.eqb_refl. reflexivity.
Qed.

(** X30. A reply is added under a comment of the post and the comment is
    then hidden by [hideComment]: a viewer who may not see the hidden
    comment, the anonymous one included, gets neither the comment nor the
    reply from [getVisibleCommentsForPost], while a moderator or an admin
    gets both. *)
Theorem hidden_parent_hides_reply (getTime : string -> Z) (now : string)
    (user_id post_id : Z) (body : string) (parentId : Z) (reason : string)
    (s : State.t) (parent : Comment.t) (viewer : option PublicUser.t)
    (staff : PublicUser.t) :
  parentId <> 0 ->
  getCommentRawById s parentId = Some parent ->
  Comment.post_id parent = post_id ->
  canViewHidden viewer (Comment.user_id parent) = false ->
  isModeratorRole (PublicUser.role staff) = true ->
  let added := addComment now user_id post_id body (Some parentId) s in
  let hidden := hideComment parentId reason (snd added) in
  let s' := snd hidden in
  exists reply,
    fst added = Some reply
    /\ fst hidden = Some (setHidden true reason parent)
    /\ ~ In reply (getVisibleCommentsForPost getTime s' post_id viewer)
    /\ ~ In (setHidden true reason parent)
           (getVisibleCommentsForPost getTime s' post_id viewer)
    /\ In reply (getVisibleCommentsForPost getTime s' post_id (Some staff))
    /\ In (setHidden true reason parent)
         (getVisibleCommentsForPost getTime s' post_id (Some staff)).
Proof.
  intros Hid Hfound Hpost Hview Hstaff. cbv zeta.
  rewrite (addComment_reply_run now user_id post_id body parentId s parent
             Hid Hfound Hpost).
  cbv zeta. cbn [fst snd]. eexists. split; [reflexivity|].
  set (reply := Comment.mk _ _ _ _ _ _ _ _ _ _).
  assert (Hfound' : find (fun comment => Comment.id comment =? parentId)
                      (State.comments s ++ [reply]) = Some parent).
  { apply find_app_some. exact Hfound. }
  unfold hideComment, getCommentRawById, toInt.
  cbn [State.comments State.setComments State.setCounters].
  rewrite Hfound'. cbn [fst snd]. split; [reflexivity|].
  unfold getVisibleCommentsForPost, toInt.
  cbn [State.comments State.setComments State.setCounters].
  set (thread :=
         Js.sort (compareComments getTime)
           (filter (fun comment => Comment.post_id comment =? post_id)
              (updateFirst (isComment parentId) (setHidden true reason)
                 (State.comments s ++ [reply])))).
  assert (Hparent : In (setHidden true reason parent) thread).
  { apply In_sort, filter_In. split.
    - now apply In_updateFirst.
    - cbn [setHidden Comment.post_id]. now apply Z.eqb_eq. }
  assert (Hreply : In reply thread).
  { apply In_sort, filter_In. split.
    - unfold isComment, toInt.
      rewrite (updateFirst_app_found _ _ _ _ _ Hfound).
      apply in_or_app. right. now left.
    - apply Z.eqb_refl. }
  assert (Hprunes : prunes viewer (setHidden true reason parent) = true).
  { unfold prunes. cbn [setHidden Comment.is_hidden Comment.user_id].
    now rewrite Hview. }
  split; [|split; [|split]].
  - apply (visibleLoop_prunes getTime viewer reply
             (setHidden true reason parent) thread).
    + apply sort_sorted;
        [apply compareComments_total|apply compareComments_trans].
    + exact Hprunes.
    + apply startsWith_child.
    + exact Hparent.
  - intros Hin. apply visibleLoop_sound in Hin. destruct Hin as (_ & _ & H).
    congruence.
  - rewrite visibleLoop_nothing_pruned; [exact Hreply|].
    apply Forall_forall. intros c _. now apply staff_never_pruned.
  - rewrite visibleLoop_nothing_pruned; [exact Hparent|].
    apply Forall_forall. intros c _. now apply staff_never_pruned.
Qed.

(** A reply to the second comment of [staffThread], which is then hidden
    again, read by the author of the first comment. *)
Lemma hidden_parent_hides_reply_witness :
  map Comment.id
    (getVisibleCommentsForPost sampleTime
       (snd (hideComment 2 "spam"
               (snd (addComment "2026-01-04" 2 1 "reply" (Some 2)
                       staffThread)))) 1
       (Some (sampleViewer 1 "user")))
  = [1]
  /\ exists reply,
       fst (addComment "2026-01-04" 2 1 "reply" (Some 2) staffThread)
       = Some reply
       /\ ~ In reply
            (getVisibleCommentsForPost sampleTime
               (snd (hideComment 2 "spam"
                       (snd (addComment "2026-01-04" 2 1 "reply" (Some 2)
                               staffThread)))) 1
               (Some (sampleViewer 1 "user"))).
Proof.
  split; [reflexivity|].
  destruct (hidden_parent_hides_reply sampleTime "2026-01-04" 2 1 "reply" 2
              "spam" staffThread
              (sampleComment 2 2 1 (Some 1) 1 "0000000001.0000000002" true)
              (Some (sampleViewer 1 "user")) (sampleViewer 9 "moderator"))
    as (reply & H1 & _ & H3 & _); try reflexivity; [lia|].
  exists reply. split; [exact H1|exact H3].
Defined.
